(** * KMSAN runtime: shadow/origin metadata, origin chaining, metadata
      propagation and the poison scanner.

    A shallow embedding of [mm/kmsan/core.c], [mm/kmsan/shadow.c] and the
    free/poison hooks of [mm/kmsan/hooks.c].  Kernel memory is a flat
    byte-addressed map, machine integers are [Z] with their wrap-around
    written out, and the C functions are written in a small state-and-abort
    monad over the kernel state ([BUG()] aborts). *)

From Stdlib Require Import ZArith List Bool Lia.
Import ListNotations.
Local Open Scope Z_scope.

Ltac Zify.zify_post_hook ::= Z.div_mod_to_equations.

(** ** Machine integers *)

Definition u64 (x : Z) : Z := x mod 2 ^ 64.
Definition u32 (x : Z) : Z := x mod 2 ^ 32.
(** Conversion to a 32-bit [int] (two's complement truncation). *)
Definition s32 (x : Z) : Z := (x + 2 ^ 31) mod 2 ^ 32 - 2 ^ 31.

(** Constants of [core.c] and [linux/stackdepot.h]. *)
Definition MAX_CHAIN_DEPTH : Z := 7.
Definition STACK_DEPOT_EXTRA_BITS : Z := 5.

(** Modelled from the spec: the page size of [asm/page.h] (x86-64: 4 KiB
    pages), which bounds one access and one chunk of a scan. *)
Definition PAGE_SHIFT : Z := 12.
Definition PAGE_SIZE : Z := 4096.

(** Modelled from the spec: the constants of the internal header
    [mm/kmsan/kmsan.h].  The origin granule is four bytes, the size of one
    handle ([u32] slots in [core.c]); a captured trace is bounded; the
    chain marker is a fixed word; the poison flags are distinct bits,
    [KMSAN_POISON_NOCHECK] being their absence; the metadata kind is the
    [is_origin] flag of the resolver. *)
Definition KMSAN_ORIGIN_SIZE : Z := 4.
Definition KMSAN_STACK_DEPTH : nat := 64.
Definition KMSAN_CHAIN_MAGIC_ORIGIN : Z := 0xBADDF00D20202020.

Definition KMSAN_POISON_NOCHECK : Z := 0.
Definition KMSAN_POISON_CHECK : Z := 1.
Definition KMSAN_POISON_FREE : Z := 2.

Definition KMSAN_META_SHADOW : bool := false.
Definition KMSAN_META_ORIGIN : bool := true.

Definition REASON_ANY : Z := 0.

(** Modelled from the spec: the alignment macros of [linux/align.h],
    [ALIGN_DOWN(x, a)], [ALIGN(x, a)] and [IS_ALIGNED(x, a)], on [u64] and
    for a power of two [a] (padding down/up to granule or page
    boundaries). *)
Definition ALIGN_DOWN (x a : Z) : Z := x - x mod a.
Definition ALIGN (x a : Z) : Z := ALIGN_DOWN (u64 (x + (a - 1))) a.
Definition IS_ALIGNED (x a : Z) : bool := x mod a =? 0.

(** C truth value of an integer. *)
Definition nz (x : Z) : bool := negb (x =? 0).

(** ** Byte-addressed memory (little endian, as on x86) *)

Definition memory : Type := Z -> Z.

Definition load8 (m : memory) (a : Z) : Z := m a mod 256.

Definition store8 (m : memory) (a v : Z) : memory :=
  fun x => if x =? a then v mod 256 else m x.

Definition load32 (m : memory) (a : Z) : Z :=
  load8 m a + 2 ^ 8 * load8 m (a + 1) + 2 ^ 16 * load8 m (a + 2)
  + 2 ^ 24 * load8 m (a + 3).

Definition store32 (m : memory) (a v : Z) : memory :=
  store8 (store8 (store8 (store8 m a v) (a + 1) (v / 2 ^ 8))
                 (a + 2) (v / 2 ^ 16)) (a + 3) (v / 2 ^ 24).

(** Modelled from the spec: the uninstrumented primitive [__memset(p, b, n)]:
    every byte of [p, p+n) becomes the low byte of [b]. *)
Definition memset (m : memory) (p b n : Z) : memory :=
  fun x => if (p <=? x) && (x <? p + n) then b mod 256 else m x.

(** Modelled from the spec: the uninstrumented primitive
    [__memmove(d, s, n)]: the bytes of [s, s+n) as they were before the call
    land in [d, d+n), whatever the overlap (standard overlapping-move
    semantics). *)
Definition memmove (m : memory) (d s n : Z) : memory :=
  fun x => if (d <=? x) && (x <? d + n) then m (s + (x - d)) else m x.

(** ** The platform: address-space layout and page bookkeeping

    These come from architecture and mm headers; the runtime only reads
    them. *)
Class Platform : Type := {
  VMALLOC_START : Z;
  VMALLOC_END : Z;
  MODULES_VADDR : Z;
  MODULES_END : Z;
  KMSAN_VMALLOC_SHADOW_START : Z;
  KMSAN_VMALLOC_ORIGIN_START : Z;
  KMSAN_MODULES_SHADOW_START : Z;
  KMSAN_MODULES_ORIGIN_START : Z;
  CPU_ENTRY_AREA_BASE : Z;
  CPU_ENTRY_AREA_MAP_SIZE : Z;
  CPU_ENTRY_AREA_SIZE : Z;
  get_cpu_entry_area : Z -> Z;
  (** per-cpu base addresses of [cpu_entry_area_shadow] / [_origin] *)
  cpu_entry_area_shadow : Z -> Z;
  cpu_entry_area_origin : Z -> Z;
  __START_KERNEL_map : Z;
  phys_base : Z;
  KERNEL_IMAGE_SIZE : Z;
  PAGE_OFFSET : Z;
  CONFIG_PHYS_ADDR_T_64BIT : bool;
  x86_phys_bits : Z;
  pfn_valid : Z -> bool;
  (** [struct page *] values are plain integers, [0] is [NULL] *)
  virt_to_page : Z -> Z;
  virt_to_head_page : Z -> Z;
  page_address : Z -> Z;
  compound_order : Z -> Z;
  dummy_load_page : Z;
  dummy_store_page : Z;
  __GFP_DIRECT_RECLAIM : Z;
  __GFP_ZERO : Z;
  GFP_ATOMIC : Z;
  GFP_KERNEL : Z;
  SLAB_TYPESAFE_BY_RCU : Z;
  SLAB_POISON : Z
}.

(** ** The stack depot (provenance store), an external collaborator

    Only its declarations are part of the runtime ([linux/stackdepot.h]).
    A handle is a [u32]; [0] is the failure value of a save.  The extra bits
    of a handle are a [STACK_DEPOT_EXTRA_BITS]-wide field, and a handle that
    was really issued carries the extra bits it was saved with. *)
Class StackDepot : Type := {
  depot : Type;
  stack_depot_save_extra : list Z -> Z -> Z -> depot -> Z * depot;
  stack_depot_get_extra_bits : Z -> Z;
  filter_irq_stacks : list Z -> list Z;
  depot_handle_u32 : forall es eb fl d,
    0 <= fst (stack_depot_save_extra es eb fl d) < 2 ^ 32;
  depot_extra_bits_range : forall h,
    0 <= stack_depot_get_extra_bits h < 2 ^ STACK_DEPOT_EXTRA_BITS;
  depot_extra_bits : forall es eb fl d,
    0 <= eb < 2 ^ STACK_DEPOT_EXTRA_BITS ->
    fst (stack_depot_save_extra es eb fl d) <> 0 ->
    stack_depot_get_extra_bits (fst (stack_depot_save_extra es eb fl d)) = eb
}.

(** Modelled from the spec: the side-channel bits of a handle
    ([kmsan_extra_bits], [kmsan_depth_from_eb], [kmsan_uaf_from_eb] of the
    internal header) carry the chain depth and the use-after-free flag: the
    flag is the lowest bit, the depth sits above it. *)
Definition kmsan_extra_bits (depth : Z) (uaf : bool) : Z :=
  u32 (Z.lor (Z.shiftl depth 1) (if uaf then 1 else 0)).
Definition kmsan_uaf_from_eb (extra_bits : Z) : bool :=
  nz (Z.land extra_bits 1).
Definition kmsan_depth_from_eb (extra_bits : Z) : Z :=
  Z.shiftr extra_bits 1.

(** A call of [kmsan_report]: the event handed to the report sink. *)
Record report : Type := mk_report {
  r_origin : Z;
  r_address : Z;
  r_size : Z;
  r_off_first : Z;
  r_off_last : Z;
  r_user_addr : Z;
  r_reason : Z
}.

(** Console diagnostics the runtime prints. *)
Inductive diag : Type :=
| NotChained (skipped id : Z)
| TwoShadowRanges (addr size : Z)
| ShadowIsNull (addr size : Z).

(** A slab cache, as far as the hooks look at it. *)
Record kmem_cache : Type := mk_kmem_cache {
  ctor : Z;
  flags : Z;
  object_size : Z
}.

Section Kmsan.
Context {PF : Platform} {SD : StackDepot}.

(** ** Kernel state seen by the runtime *)
Record kstate : Type := mk_kstate {
  kmsan_ready : bool;
  (** Modelled from the spec: the re-entrancy guard of the current execution
      context, a counter ([ctx->kmsan_in_runtime]). *)
  kmsan_in_runtime_ctr : Z;
  smp_processor_id : Z;
  (** [page->kmsan_shadow], [page->kmsan_origin] *)
  kmsan_shadow : Z -> Z;
  kmsan_origin : Z -> Z;
  mem : memory;
  depot_st : depot;
  (** what [stack_trace_save] sees at this point of the execution *)
  call_stack : list Z;
  kmsan_skipped_origins : Z;
  console : list diag;
  reports : list report
}.

Definition set_mem (m : memory) (st : kstate) : kstate :=
  mk_kstate (kmsan_ready st) (kmsan_in_runtime_ctr st) (smp_processor_id st)
    (kmsan_shadow st) (kmsan_origin st) m (depot_st st) (call_stack st)
    (kmsan_skipped_origins st) (console st) (reports st).
Definition set_depot (d : depot) (st : kstate) : kstate :=
  mk_kstate (kmsan_ready st) (kmsan_in_runtime_ctr st) (smp_processor_id st)
    (kmsan_shadow st) (kmsan_origin st) (mem st) d (call_stack st)
    (kmsan_skipped_origins st) (console st) (reports st).
Definition set_in_runtime (c : Z) (st : kstate) : kstate :=
  mk_kstate (kmsan_ready st) c (smp_processor_id st)
    (kmsan_shadow st) (kmsan_origin st) (mem st) (depot_st st) (call_stack st)
    (kmsan_skipped_origins st) (console st) (reports st).
Definition set_ready (b : bool) (st : kstate) : kstate :=
  mk_kstate b (kmsan_in_runtime_ctr st) (smp_processor_id st)
    (kmsan_shadow st) (kmsan_origin st) (mem st) (depot_st st) (call_stack st)
    (kmsan_skipped_origins st) (console st) (reports st).
Definition set_skipped (c : Z) (st : kstate) : kstate :=
  mk_kstate (kmsan_ready st) (kmsan_in_runtime_ctr st) (smp_processor_id st)
    (kmsan_shadow st) (kmsan_origin st) (mem st) (depot_st st) (call_stack st)
    c (console st) (reports st).
Definition add_console (d : diag) (st : kstate) : kstate :=
  mk_kstate (kmsan_ready st) (kmsan_in_runtime_ctr st) (smp_processor_id st)
    (kmsan_shadow st) (kmsan_origin st) (mem st) (depot_st st) (call_stack st)
    (kmsan_skipped_origins st) (console st ++ [d]) (reports st).
Definition add_report (r : report) (st : kstate) : kstate :=
  mk_kstate (kmsan_ready st) (kmsan_in_runtime_ctr st) (smp_processor_id st)
    (kmsan_shadow st) (kmsan_origin st) (mem st) (depot_st st) (call_stack st)
    (kmsan_skipped_origins st) (console st) (reports st ++ [r]).

(** ** The monad: state passing, [BUG()] aborts, loops carry fuel *)
Inductive outcome (A : Type) : Type :=
| Ok (a : A) (st : kstate)
| Bug
| OutOfFuel.
Arguments Ok {A} a st.
Arguments Bug {A}.
Arguments OutOfFuel {A}.

Definition M (A : Type) : Type := kstate -> outcome A.

Definition ret {A} (a : A) : M A := fun st => Ok a st.
Definition bind {A B} (c : M A) (k : A -> M B) : M B :=
  fun st => match c st with
            | Ok a st' => k a st'
            | Bug => Bug
            | OutOfFuel => OutOfFuel
            end.
Definition gets {A} (f : kstate -> A) : M A := fun st => Ok (f st) st.
Definition modify (f : kstate -> kstate) : M unit := fun st => Ok tt (f st).
Definition BUG {A} : M A := fun _ => Bug.
Definition BUG_ON (c : bool) : M unit := if c then BUG else ret tt.
Definition when (c : bool) (k : M unit) : M unit := if c then k else ret tt.

Notation "x <- c1 ;; c2" := (bind c1 (fun x => c2))
  (at level 61, c1 at next level, right associativity).
Notation "c1 ;; c2" := (bind c1 (fun _ => c2))
  (at level 61, right associativity).

(** Modelled from the spec: [kmsan_in_runtime], [kmsan_enter_runtime] and
    [kmsan_leave_runtime] of the internal header: the guard counter is
    incremented on entry to tracker bookkeeping and decremented on exit; a
    context is inside the runtime while it is nonzero. *)
Definition kmsan_in_runtime : M bool :=
  gets (fun st => nz (kmsan_in_runtime_ctr st)).
Definition kmsan_enter_runtime : M unit :=
  modify (fun st => set_in_runtime (kmsan_in_runtime_ctr st + 1) st).
Definition kmsan_leave_runtime : M unit :=
  modify (fun st => set_in_runtime (kmsan_in_runtime_ctr st - 1) st).

(** ** shadow.c: the metadata address resolver *)

Definition kmsan_internal_is_module_addr (vaddr : Z) : bool :=
  (MODULES_VADDR <=? vaddr) && (vaddr <? MODULES_END).

Definition kmsan_internal_is_vmalloc_addr (addr : Z) : bool :=
  (VMALLOC_START <=? addr) && (addr <? VMALLOC_END).

Definition page_has_metadata (page : Z) : M bool :=
  gets (fun st => nz (kmsan_shadow st page) && nz (kmsan_origin st page)).

Definition shadow_ptr_for (page : Z) : M Z :=
  gets (fun st => page_address (kmsan_shadow st page)).

Definition origin_ptr_for (page : Z) : M Z :=
  gets (fun st => page_address (kmsan_origin st page)).

Definition kmsan_phys_addr_valid (addr : Z) : bool :=
  if CONFIG_PHYS_ADDR_T_64BIT
  then negb (nz (Z.shiftr addr x86_phys_bits))
  else true.

Definition kmsan_virt_addr_valid (addr : Z) : bool :=
  let x := addr in
  let y := u64 (x - __START_KERNEL_map) in
  if x >? y then
    let x := u64 (y + phys_base) in
    if y >=? KERNEL_IMAGE_SIZE then false
    else pfn_valid (Z.shiftr x PAGE_SHIFT)
  else
    let x := u64 (y + u64 (__START_KERNEL_map - PAGE_OFFSET)) in
    if (x >? y) || negb (kmsan_phys_addr_valid x) then false
    else pfn_valid (Z.shiftr x PAGE_SHIFT).

Definition vmalloc_meta (addr : Z) (is_origin : bool) : M Z :=
  let addr64 := addr in
  BUG_ON (is_origin && negb (IS_ALIGNED addr64 KMSAN_ORIGIN_SIZE)) ;;
  if kmsan_internal_is_vmalloc_addr addr then
    let off := u64 (addr64 - VMALLOC_START) in
    ret (u64 (off + (if is_origin then KMSAN_VMALLOC_ORIGIN_START
                     else KMSAN_VMALLOC_SHADOW_START)))
  else if kmsan_internal_is_module_addr addr then
    let off := u64 (addr64 - MODULES_VADDR) in
    ret (u64 (off + (if is_origin then KMSAN_MODULES_ORIGIN_START
                     else KMSAN_MODULES_SHADOW_START)))
  else ret 0.

Definition get_cea_meta_or_null (addr : Z) (is_origin : bool) : M Z :=
  cpu <- gets smp_processor_id ;;
  if (addr <? CPU_ENTRY_AREA_BASE)
     || (addr >=? u64 (CPU_ENTRY_AREA_BASE + CPU_ENTRY_AREA_MAP_SIZE))
  then ret 0
  else
    let off := s32 (addr - get_cpu_entry_area cpu) in
    if (off <? 0) || (off >=? CPU_ENTRY_AREA_SIZE) then ret 0
    else
      let metadata_array :=
        if is_origin then cpu_entry_area_origin cpu
        else cpu_entry_area_shadow cpu in
      ret (metadata_array + off).

Definition virt_to_page_or_null (vaddr : Z) : Z :=
  if kmsan_virt_addr_valid vaddr then virt_to_page vaddr else 0.

Definition kmsan_get_metadata (address : Z) (is_origin : bool) : M Z :=
  let addr := address in
  let addr :=
    if is_origin && negb (IS_ALIGNED addr KMSAN_ORIGIN_SIZE)
    then let pad := addr mod KMSAN_ORIGIN_SIZE in addr - pad
    else addr in
  let address := addr in
  if kmsan_internal_is_vmalloc_addr address
     || kmsan_internal_is_module_addr address
  then vmalloc_meta address is_origin
  else
    r <- get_cea_meta_or_null address is_origin ;;
    if nz r then ret r
    else
      let page := virt_to_page_or_null address in
      if negb (nz page) then ret 0
      else
        has <- page_has_metadata page ;;
        if negb has then ret 0
        else
          let off := addr mod PAGE_SIZE in
          base <- (if is_origin then origin_ptr_for page
                   else shadow_ptr_for page) ;;
          ret (base + off).


(** ** core.c: the contiguity gate (I1) *)

(** The [report:] exit of [kmsan_metadata_is_contiguous]: diagnostics only. *)
Definition contiguous_report (addr size : Z) : M bool :=
  modify (add_console (TwoShadowRanges addr size)) ;;
  _ <- kmsan_get_metadata addr KMSAN_META_ORIGIN ;;
  ret false.

(** The [for] loop over the following pages of the range. *)
Fixpoint contiguous_loop (fuel : nat) (addr size : Z) (all_untracked : bool)
    (next_addr cur_shadow cur_origin : Z) : M bool :=
  if next_addr <? u64 (addr + size) then
    match fuel with
    | O => fun _ => OutOfFuel
    | S fuel' =>
      next_shadow <- kmsan_get_metadata next_addr false ;;
      next_origin <- kmsan_get_metadata next_addr true ;;
      let continue :=
        contiguous_loop fuel' addr size all_untracked
          (u64 (next_addr + PAGE_SIZE)) next_shadow next_origin in
      let check_pair :=
        if (cur_shadow =? u64 (next_shadow - PAGE_SIZE))
           && (cur_origin =? u64 (next_origin - PAGE_SIZE))
        then continue
        else contiguous_report addr size in
      if all_untracked then
        if nz next_shadow || nz next_origin then contiguous_report addr size
        else if negb (nz next_shadow) && negb (nz next_origin) then continue
        else check_pair
      else check_pair
    end
  else ret true.

Definition kmsan_metadata_is_contiguous (addr size : Z) : M bool :=
  let cur_addr := addr in
  let next_addr := u64 (cur_addr + PAGE_SIZE) in
  if negb (nz size) then ret true
  else if ALIGN_DOWN (u64 (cur_addr + size - 1)) PAGE_SIZE
          =? ALIGN_DOWN cur_addr PAGE_SIZE
  then ret true
  else
    cur_shadow <- kmsan_get_metadata cur_addr false ;;
    let all_untracked := negb (nz cur_shadow) in
    cur_origin <- kmsan_get_metadata cur_addr true ;;
    if all_untracked && nz cur_origin then contiguous_report addr size
    else
      contiguous_loop (Z.to_nat (size / PAGE_SIZE) + 1) addr size
        all_untracked next_addr cur_shadow cur_origin.

(** ** shadow.c: the access layer *)

Definition kmsan_get_shadow_origin_ptr (address size : Z) (store : bool)
  : M (Z * Z) :=
  BUG_ON (size >? PAGE_SIZE) ;;
  ready <- gets kmsan_ready ;;
  inrt <- kmsan_in_runtime ;;
  let return_dummy : M (Z * Z) :=
    if store then ret (dummy_store_page, dummy_store_page)
    else ret (dummy_load_page, dummy_load_page) in
  if negb ready || inrt then return_dummy
  else
    c <- kmsan_metadata_is_contiguous address size ;;
    BUG_ON (negb c) ;;
    shadow <- kmsan_get_metadata address KMSAN_META_SHADOW ;;
    if negb (nz shadow) then return_dummy
    else
      origin <- kmsan_get_metadata address KMSAN_META_ORIGIN ;;
      ret (shadow, origin).

(** ** core.c: poisoning primitives *)

(** The origin-filling [for] loop of [kmsan_internal_set_shadow_origin]:
    [origin_start[i] = origin] for [k] more slots starting at slot [i]. *)
Fixpoint set_origin_slots (k : nat) (origin_start i origin : Z) (m : memory)
  : memory :=
  match k with
  | O => m
  | S k' =>
    set_origin_slots k' origin_start (i + 1) origin
      (store32 m (origin_start + KMSAN_ORIGIN_SIZE * i) origin)
  end.

Definition kmsan_internal_set_shadow_origin (addr size b origin : Z)
    (checked : bool) : M unit :=
  let address := addr in
  c <- kmsan_metadata_is_contiguous addr size ;;
  BUG_ON (negb c) ;;
  shadow_start <- kmsan_get_metadata addr KMSAN_META_SHADOW ;;
  if negb (nz shadow_start) then
    if checked then
      modify (add_console (ShadowIsNull addr size)) ;; BUG
    else ret tt
  else
    modify (fun st => set_mem (memset (mem st) shadow_start b size) st) ;;
    let '(address, size) :=
      if negb (IS_ALIGNED address KMSAN_ORIGIN_SIZE) then
        let pad := address mod KMSAN_ORIGIN_SIZE in
        (address - pad, u64 (size + pad))
      else (address, size) in
    let size := ALIGN size KMSAN_ORIGIN_SIZE in
    origin_start <- kmsan_get_metadata address KMSAN_META_ORIGIN ;;
    BUG_ON (negb (nz origin_start)) ;;
    modify (fun st =>
      set_mem (set_origin_slots (Z.to_nat (size / KMSAN_ORIGIN_SIZE))
                 origin_start 0 (u32 origin) (mem st)) st).

(** The depot call of the current state. *)
Definition depot_save (entries : list Z) (extra_bits gfp : Z) : M Z :=
  fun st =>
    let r := stack_depot_save_extra entries extra_bits gfp (depot_st st) in
    Ok (fst r) (set_depot (snd r) st).

Definition kmsan_save_stack_with_flags (gfp reserved : Z) : M Z :=
  entries <- gets (fun st => firstn KMSAN_STACK_DEPTH (call_stack st)) ;;
  let entries := filter_irq_stacks entries in
  let gfp := Z.land gfp (Z.lnot __GFP_DIRECT_RECLAIM) in
  depot_save entries reserved gfp.

Definition kmsan_internal_poison_memory (address size gfp poison_flags : Z)
  : M unit :=
  let extra_bits :=
    kmsan_extra_bits 0 (nz (Z.land poison_flags KMSAN_POISON_FREE)) in
  let checked := nz (Z.land poison_flags KMSAN_POISON_CHECK) in
  handle <- kmsan_save_stack_with_flags gfp extra_bits ;;
  kmsan_internal_set_shadow_origin address size (-1) handle checked.

Definition kmsan_internal_unpoison_memory (address size : Z) (checked : bool)
  : M unit :=
  kmsan_internal_set_shadow_origin address size 0 0 checked.

(** ** core.c: the provenance chain manager *)

Definition kmsan_internal_chain_origin (id : Z) : M Z :=
  if negb (nz id) then ret id
  else
    let extra_bits := stack_depot_get_extra_bits id in
    let depth := s32 (kmsan_depth_from_eb extra_bits) in
    let uaf := kmsan_uaf_from_eb extra_bits in
    if depth >=? MAX_CHAIN_DEPTH then
      modify (fun st => set_skipped (kmsan_skipped_origins st + 1) st) ;;
      skipped <- gets kmsan_skipped_origins ;;
      when (Z.rem skipped 10000 =? 0)
           (modify (add_console (NotChained skipped id))) ;;
      ret id
    else
      let depth := depth + 1 in
      let extra_bits := kmsan_extra_bits depth uaf in
      e1 <- kmsan_save_stack_with_flags GFP_ATOMIC extra_bits ;;
      depot_save [KMSAN_CHAIN_MAGIC_ORIGIN; e1; id] extra_bits GFP_ATOMIC.

(** [k] successive chainings of a handle, as [k] successive copies of a
    poisoned value perform them. *)
Fixpoint chain_times (k : nat) (id : Z) : M Z :=
  match k with
  | O => ret id
  | S k' => h <- kmsan_internal_chain_origin id ;; chain_times k' h
  end.

(** ** core.c: the metadata propagation engine *)

(** The body of the origin loop of [kmsan_memmove_metadata], for [k] more
    steps from slot [i]. *)
Fixpoint memmove_origins (k : nat) (src n src_slots : Z)
    (origin_src origin_dst align_shadow_src iter : Z)
    (i old_origin new_origin : Z) : M unit :=
  match k with
  | O => ret tt
  | S k' =>
    BUG_ON (i <? 0) ;;
    shadow <- gets (fun st =>
      load32 (mem st) (align_shadow_src + KMSAN_ORIGIN_SIZE * i)) ;;
    let shadow :=
      if i =? 0 then
        let skip_bits := (src mod KMSAN_ORIGIN_SIZE) * 8 in
        Z.shiftr (u32 (Z.shiftl shadow skip_bits)) skip_bits
      else shadow in
    let shadow :=
      if i =? src_slots - 1 then
        let skip_bits := (u64 (src + n) mod KMSAN_ORIGIN_SIZE) * 8 in
        u32 (Z.shiftl (Z.shiftr shadow skip_bits) skip_bits)
      else shadow in
    osrc <- gets (fun st =>
      load32 (mem st) (origin_src + KMSAN_ORIGIN_SIZE * i)) ;;
    on <- (if nz osrc && negb (osrc =? old_origin) && nz shadow then
             let old_origin := osrc in
             chain_origin <- kmsan_internal_chain_origin old_origin ;;
             if nz chain_origin then ret (old_origin, chain_origin)
             else ret (old_origin, old_origin)
           else ret (old_origin, new_origin)) ;;
    let old_origin := fst on in
    let new_origin := snd on in
    modify (fun st =>
      set_mem (store32 (mem st) (origin_dst + KMSAN_ORIGIN_SIZE * i)
                 (if nz shadow then new_origin else 0)) st) ;;
    memmove_origins k' src n src_slots origin_src origin_dst
      align_shadow_src iter (s32 (i + iter)) old_origin new_origin
  end.

(** The number of origin slots touched by [n] bytes at [p]. *)
Definition origin_slots (p n : Z) : Z :=
  s32 (u64 (ALIGN (u64 (p + n)) KMSAN_ORIGIN_SIZE
            - ALIGN_DOWN p KMSAN_ORIGIN_SIZE) / KMSAN_ORIGIN_SIZE).

Definition kmsan_memmove_metadata (dst src n : Z) : M unit :=
  shadow_dst <- kmsan_get_metadata dst KMSAN_META_SHADOW ;;
  if negb (nz shadow_dst) then ret tt
  else
    c <- kmsan_metadata_is_contiguous dst n ;;
    BUG_ON (negb c) ;;
    shadow_src <- kmsan_get_metadata src KMSAN_META_SHADOW ;;
    if negb (nz shadow_src) then
      modify (fun st => set_mem (memset (mem st) shadow_dst 0 n) st)
    else
      c <- kmsan_metadata_is_contiguous src n ;;
      BUG_ON (negb c) ;;
      modify (fun st => set_mem (memmove (mem st) shadow_dst shadow_src n) st) ;;
      origin_dst <- kmsan_get_metadata dst KMSAN_META_ORIGIN ;;
      origin_src <- kmsan_get_metadata src KMSAN_META_ORIGIN ;;
      BUG_ON (negb (nz origin_dst) || negb (nz origin_src)) ;;
      let src_slots := origin_slots src n in
      let dst_slots := origin_slots dst n in
      BUG_ON (negb (nz src_slots) || negb (nz dst_slots)) ;;
      BUG_ON ((src_slots <? 1) || (dst_slots <? 1)) ;;
      BUG_ON ((src_slots - dst_slots >? 1) || (dst_slots - src_slots <? -1)) ;;
      let backwards := dst >? src in
      let i := if backwards then Z.min src_slots dst_slots - 1 else 0 in
      let iter := if backwards then -1 else 1 in
      let align_shadow_src := ALIGN_DOWN shadow_src KMSAN_ORIGIN_SIZE in
      memmove_origins (Z.to_nat (Z.min src_slots dst_slots)) src n src_slots
        origin_src origin_dst align_shadow_src iter i 0 0.

(** ** core.c: the poison scanner *)

(** Modelled from the spec: [kmsan_report] of [report.c], the report sink:
    it receives the event {origin handle, scanned range, offsets of the
    run, context value, reason tag}. *)
Definition kmsan_report (origin address size off_first off_last user_addr
    reason : Z) : M unit :=
  modify (add_report
    (mk_report origin address size off_first off_last user_addr reason)).

(** The recurring block [if (cur_origin) { enter; kmsan_report(...); leave }]. *)
Definition report_if_open (cur_origin addr size cur_off_start off_last
    user_addr reason : Z) : M unit :=
  when (nz cur_origin)
    (kmsan_enter_runtime ;;
     kmsan_report cur_origin addr size cur_off_start off_last user_addr
       reason ;;
     kmsan_leave_runtime).

(** The inner [for] loop over the bytes of one chunk: [k] more bytes from
    index [i]; returns [(cur_origin, cur_off_start)]. *)
Fixpoint check_chunk (k : nat) (addr size user_addr reason : Z)
    (shadow pos i : Z) (cur_origin cur_off_start : Z) : M (Z * Z) :=
  match k with
  | O => ret (cur_origin, cur_off_start)
  | S k' =>
    b <- gets (fun st => load8 (mem st) (shadow + i)) ;;
    if negb (nz b) then
      report_if_open cur_origin addr size cur_off_start
        (s32 (u64 (pos + i - 1))) user_addr reason ;;
      check_chunk k' addr size user_addr reason shadow pos (i + 1) 0 (-1)
    else
      origin <- kmsan_get_metadata (u64 (addr + pos + i)) KMSAN_META_ORIGIN ;;
      BUG_ON (negb (nz origin)) ;;
      new_origin <- gets (fun st => load32 (mem st) origin) ;;
      if negb (cur_origin =? new_origin) then
        report_if_open cur_origin addr size cur_off_start
          (s32 (u64 (pos + i - 1))) user_addr reason ;;
        check_chunk k' addr size user_addr reason shadow pos (i + 1)
          new_origin (s32 (u64 (pos + i)))
      else
        check_chunk k' addr size user_addr reason shadow pos (i + 1)
          cur_origin cur_off_start
  end.

(** The [while (pos < size)] loop over page-bounded chunks; returns
    [(pos, cur_origin, cur_off_start)]. *)
Fixpoint check_loop (fuel : nat) (addr size user_addr reason : Z)
    (pos cur_origin cur_off_start : Z) : M (Z * Z * Z) :=
  if pos <? size then
    match fuel with
    | O => fun _ => OutOfFuel
    | S fuel' =>
      let chunk_size :=
        s32 (Z.min (u64 (size - pos))
                   (u64 (PAGE_SIZE - u64 (addr + pos) mod PAGE_SIZE))) in
      shadow <- kmsan_get_metadata (u64 (addr + pos)) KMSAN_META_SHADOW ;;
      if negb (nz shadow) then
        report_if_open cur_origin addr size cur_off_start
          (s32 (u64 (pos - 1))) user_addr reason ;;
        check_loop fuel' addr size user_addr reason
          (u64 (pos + chunk_size)) 0 (-1)
      else
        c <- check_chunk (Z.to_nat chunk_size) addr size user_addr reason
               shadow pos 0 cur_origin cur_off_start ;;
        check_loop fuel' addr size user_addr reason
          (u64 (pos + chunk_size)) (fst c) (snd c)
    end
  else ret (pos, cur_origin, cur_off_start).

Definition kmsan_internal_check_memory (addr size user_addr reason : Z)
  : M unit :=
  if negb (nz size) then ret tt
  else
    c <- kmsan_metadata_is_contiguous addr size ;;
    BUG_ON (negb c) ;;
    r <- check_loop (Z.to_nat size) addr size user_addr reason 0 0 (-1) ;;
    let '(pos, cur_origin, cur_off_start) := r in
    BUG_ON (negb (pos =? size)) ;;
    report_if_open cur_origin addr size cur_off_start (s32 (u64 (pos - 1)))
      user_addr reason.

(** ** hooks.c and shadow.c: free hooks and the ad hoc API *)

Definition kmsan_free_page (page order : Z) : M unit := ret tt.

Definition kmsan_slab_free (s : kmem_cache) (object : Z) : M unit :=
  ready <- gets kmsan_ready ;;
  inrt <- kmsan_in_runtime ;;
  if negb ready || inrt then ret tt
  else if nz (Z.land (flags s) (Z.lor SLAB_TYPESAFE_BY_RCU SLAB_POISON))
  then ret tt
  else if nz (ctor s) then ret tt
  else
    kmsan_enter_runtime ;;
    kmsan_internal_poison_memory object (object_size s) GFP_KERNEL
      (Z.lor KMSAN_POISON_CHECK KMSAN_POISON_FREE) ;;
    kmsan_leave_runtime.

Definition kmsan_kfree_large (ptr : Z) : M unit :=
  ready <- gets kmsan_ready ;;
  inrt <- kmsan_in_runtime ;;
  if negb ready || inrt then ret tt
  else
    kmsan_enter_runtime ;;
    let page := virt_to_head_page ptr in
    BUG_ON (negb (ptr =? page_address page)) ;;
    kmsan_internal_poison_memory ptr
      (u64 (Z.shiftl PAGE_SIZE (compound_order page))) GFP_KERNEL
      (Z.lor KMSAN_POISON_CHECK KMSAN_POISON_FREE) ;;
    kmsan_leave_runtime.

Definition kmsan_poison_memory (address size gfp : Z) : M unit :=
  ready <- gets kmsan_ready ;;
  inrt <- kmsan_in_runtime ;;
  if negb ready || inrt then ret tt
  else
    kmsan_enter_runtime ;;
    kmsan_internal_poison_memory address size gfp KMSAN_POISON_NOCHECK ;;
    kmsan_leave_runtime.

Definition kmsan_unpoison_memory (address size : Z) : M unit :=
  ready <- gets kmsan_ready ;;
  inrt <- kmsan_in_runtime ;;
  if negb ready || inrt then ret tt
  else
    kmsan_enter_runtime ;;
    kmsan_internal_unpoison_memory address size (nz KMSAN_POISON_NOCHECK) ;;
    kmsan_leave_runtime.

Definition kmsan_check_memory (addr size : Z) : M unit :=
  kmsan_internal_check_memory addr size 0 REASON_ANY.

End Kmsan.

Arguments Ok {SD A} a st.
Arguments Bug {SD A}.
Arguments OutOfFuel {SD A}.

(** ** Specification vocabulary *)

Section Vocabulary.
Context {PF : Platform} {SD : StackDepot}.

(** The pointer the resolver yields in a state ([0] for none). *)
Definition meta (st : kstate) (a : Z) (is_origin : bool) : Z :=
  match kmsan_get_metadata a is_origin st with
  | Ok p _ => p
  | _ => 0
  end.

(** Two states agree on everything the resolver reads. *)
Definition layout_eq (st st' : kstate) : Prop :=
  smp_processor_id st = smp_processor_id st'
  /\ kmsan_shadow st = kmsan_shadow st'
  /\ kmsan_origin st = kmsan_origin st'.

(** The origin handle the scanner reads for the byte at offset [j]. *)
Definition origin_at (st : kstate) (addr j : Z) : Z :=
  load32 (mem st) (meta st (u64 (addr + j)) KMSAN_META_ORIGIN).

(** The state with some more report events. *)
Definition add_reports (rs : list report) (st : kstate) : kstate :=
  fold_left (fun s r => add_report r s) rs st.

(** I1 over [n] bytes at [a]: shadow bytes are consecutive from [sh], origin
    slots consecutive from [og], the slot of [a] first. *)
Definition tracked_range (st : kstate) (a n sh og : Z) : Prop :=
  0 < sh /\ 0 < og
  /\ (forall j, 0 <= j < n -> meta st (a + j) KMSAN_META_SHADOW = sh + j)
  /\ (forall j, 0 <= j < n ->
        meta st (a + j) KMSAN_META_ORIGIN
        = og + KMSAN_ORIGIN_SIZE * ((a + j) / KMSAN_ORIGIN_SIZE
                                    - a / KMSAN_ORIGIN_SIZE)).


(** The number of origin slots [kmsan_internal_set_shadow_origin] fills for
    [n] bytes at [a]. *)
Definition filled_slots (a n : Z) : Z :=
  ALIGN (n + a mod KMSAN_ORIGIN_SIZE) KMSAN_ORIGIN_SIZE / KMSAN_ORIGIN_SIZE.

(** The shadow bytes of a range and the origin slots filled for it do not
    overlap. *)
Definition metadata_apart (a n sh og : Z) : Prop :=
  sh + n <= og \/ og + KMSAN_ORIGIN_SIZE * filled_slots a n <= sh.

(** The states met during a scan differ from the first one in their report
    list only. *)
Definition scan_frame (st0 st : kstate) : Prop :=
  mem st = mem st0 /\ layout_eq st0 st.

(** The open run [cs, p) of the scanner holds bytes of origin [co] only. *)
Definition open_run (oa : Z -> Z) (co cs p : Z) : Prop :=
  co <> 0 -> 0 <= cs < p /\ forall j, cs <= j < p -> oa j = co.

(** A report of a scan of [size] bytes at [addr]: a nonempty run inside the
    range, of one nonzero origin, read for each of its bytes. *)
Definition sound_report (oa : Z -> Z) (addr size ua reason : Z) (r : report)
  : Prop :=
  r_origin r <> 0
  /\ r_address r = addr /\ r_size r = size
  /\ r_user_addr r = ua /\ r_reason r = reason
  /\ 0 <= r_off_first r <= r_off_last r /\ r_off_last r < size
  /\ forall j, r_off_first r <= j <= r_off_last r -> oa j = r_origin r.

(** The cursor on a range poisoned with one handle [h]: nothing seen yet, or
    one run open since offset 0. *)
Definition uniform_cursor (h co cs p : Z) : Prop :=
  (co = 0 /\ p = 0) \/ (co = h /\ cs = 0).

(** The fallback page of an access. *)
Definition dummy_page (store : bool) : Z :=
  if store then dummy_store_page else dummy_load_page.

(** The side-channel fields of a handle. *)
Definition origin_depth (id : Z) : Z :=
  s32 (kmsan_depth_from_eb (stack_depot_get_extra_bits id)).
Definition origin_uaf (id : Z) : bool :=
  kmsan_uaf_from_eb (stack_depot_get_extra_bits id).

(** Every byte of [n] bytes at [a] has shadow [0xff] and reads origin [h]. *)
Definition poisoned_with (st : kstate) (a n h : Z) : Prop :=
  forall j, 0 <= j < n ->
    load8 (mem st) (meta st (a + j) KMSAN_META_SHADOW) = 255
    /\ load32 (mem st) (meta st (a + j) KMSAN_META_ORIGIN) = h.

(** The handle a poisoning in state [st] gets from the depot. *)
Definition poison_handle (st : kstate) (gfp pf : Z) : Z :=
  fst (stack_depot_save_extra
         (filter_irq_stacks (firstn KMSAN_STACK_DEPTH (call_stack st)))
         (kmsan_extra_bits 0 (nz (Z.land pf KMSAN_POISON_FREE)))
         (Z.land gfp (Z.lnot __GFP_DIRECT_RECLAIM)) (depot_st st)).

(** The shadow word of source slot [i] as the origin loop looks at it: read
    from the aligned source shadow, shifted at the first and last slot. *)
Definition masked_shadow (m : memory) (align_shadow_src src n src_slots i : Z)
  : Z :=
  let shadow := load32 m (align_shadow_src + KMSAN_ORIGIN_SIZE * i) in
  let shadow :=
    if i =? 0 then
      let skip_bits := (src mod KMSAN_ORIGIN_SIZE) * 8 in
      Z.shiftr (u32 (Z.shiftl shadow skip_bits)) skip_bits
    else shadow in
  if i =? src_slots - 1 then
    let skip_bits := (u64 (src + n) mod KMSAN_ORIGIN_SIZE) * 8 in
    u32 (Z.shiftl (Z.shiftr shadow skip_bits) skip_bits)
  else shadow.

(** The provenance store of a state cannot save anything. *)
Definition depot_exhausted (st : kstate) : Prop :=
  forall es eb fl,
    stack_depot_save_extra es eb fl (depot_st st) = (0, depot_st st).


End Vocabulary.

(** ** A concrete platform: x86-64 with 4-level paging and 4 GiB of RAM

    Used to run the runtime on concrete inputs. *)
Module X86.

Definition vmemmap_base : Z := 0xffffea0000000000.
Definition page_offset_base : Z := 0xffff888000000000.
Definition VMALLOC_QUARTER_SIZE : Z := 2 ^ 43.

Definition pfn_to_page (pfn : Z) : Z := vmemmap_base + 64 * pfn.
Definition page_to_pfn (page : Z) : Z := (page - vmemmap_base) / 64.

(** [__pa(vaddr)] for a direct-map or kernel-image address. *)
Definition pa (vaddr : Z) : Z :=
  if vaddr >=? 0xffffffff80000000 then vaddr - 0xffffffff80000000
  else vaddr - page_offset_base.

#[export] Instance platform : Platform := {|
  VMALLOC_START := 0xffffc90000000000;
  VMALLOC_END := 0xffffc90000000000 + VMALLOC_QUARTER_SIZE - 1;
  MODULES_VADDR := 0xffffffffa0000000;
  MODULES_END := 0xffffffffff000000;
  KMSAN_VMALLOC_SHADOW_START := 0xffffc90000000000 + VMALLOC_QUARTER_SIZE;
  KMSAN_VMALLOC_ORIGIN_START := 0xffffc90000000000 + 2 * VMALLOC_QUARTER_SIZE;
  KMSAN_MODULES_SHADOW_START :=
    0xffffc90000000000 + 3 * VMALLOC_QUARTER_SIZE;
  KMSAN_MODULES_ORIGIN_START :=
    0xffffc90000000000 + 3 * VMALLOC_QUARTER_SIZE + 0x5f000000;
  CPU_ENTRY_AREA_BASE := 0xfffffe0000000000;
  CPU_ENTRY_AREA_MAP_SIZE := 0x8000000000;
  CPU_ENTRY_AREA_SIZE := 0x3b000;
  get_cpu_entry_area := fun cpu => 0xfffffe0000001000 + 0x3b000 * cpu;
  cpu_entry_area_shadow := fun cpu => 0xffff8880f0000000 + 0x80000 * cpu;
  cpu_entry_area_origin := fun cpu => 0xffff8880f0040000 + 0x80000 * cpu;
  __START_KERNEL_map := 0xffffffff80000000;
  phys_base := 0;
  KERNEL_IMAGE_SIZE := 0x20000000;
  PAGE_OFFSET := page_offset_base;
  CONFIG_PHYS_ADDR_T_64BIT := true;
  x86_phys_bits := 46;
  pfn_valid := fun pfn => (0 <=? pfn) && (pfn <? 2 ^ 20);
  virt_to_page := fun vaddr => pfn_to_page (Z.shiftr (pa vaddr) PAGE_SHIFT);
  virt_to_head_page :=
    fun vaddr => pfn_to_page (Z.shiftr (pa vaddr) PAGE_SHIFT);
  page_address := fun page => page_offset_base + PAGE_SIZE * page_to_pfn page;
  compound_order := fun _ => 0;
  dummy_load_page := 0xffffffff82000000;
  dummy_store_page := 0xffffffff82001000;
  __GFP_DIRECT_RECLAIM := 0x400;
  __GFP_ZERO := 0x100;
  GFP_ATOMIC := 0xa20;
  GFP_KERNEL := 0xcc0;
  SLAB_TYPESAFE_BY_RCU := 0x00080000;
  SLAB_POISON := 0x00000800
|}.

End X86.

(** ** A concrete stack depot: a bounded pool of deduplicated records

    Modelled from the spec: [save(trace, extraBits)] is content-addressed and
    deduplicating, the extra bits travel in the handle (its top
    [STACK_DEPOT_EXTRA_BITS] bits), handle [0] is never assigned to a record,
    and a save that cannot get room yields [0]. *)
Module PoolDepot.

Record t : Type := mk {
  pool : list (list Z * Z);
  capacity : nat
}.

Definition record_eqb (a b : list Z * Z) : bool :=
  (if list_eq_dec Z.eq_dec (fst a) (fst b) then true else false)
  && (snd a =? snd b).

(** Position of the first record equal to [r], counted from [i]. *)
Fixpoint index_of (r : list Z * Z) (l : list (list Z * Z)) (i : Z)
  : option Z :=
  match l with
  | [] => None
  | x :: l' => if record_eqb r x then Some i else index_of r l' (i + 1)
  end.

Definition handle_of (idx extra : Z) : Z :=
  if (0 <=? idx) && (idx + 1 <? 2 ^ 27)
  then (extra mod 2 ^ STACK_DEPOT_EXTRA_BITS) * 2 ^ 27 + (idx + 1)
  else 0.

Definition save (entries : list Z) (extra gfp : Z) (d : t) : Z * t :=
  let r := (entries, extra mod 2 ^ STACK_DEPOT_EXTRA_BITS) in
  match index_of r (pool d) 0 with
  | Some i => (handle_of i extra, d)
  | None =>
    if (length (pool d) <? capacity d)%nat
    then (handle_of (Z.of_nat (length (pool d))) extra,
          mk (pool d ++ [r]) (capacity d))
    else (0, d)
  end.

Definition get_extra_bits (handle : Z) : Z :=
  Z.shiftr handle 27 mod 2 ^ STACK_DEPOT_EXTRA_BITS.

#[export] Instance stack_depot : StackDepot.
Proof.
  assert (Hpos : forall extra,
            0 <= extra mod 2 ^ STACK_DEPOT_EXTRA_BITS
            < 2 ^ STACK_DEPOT_EXTRA_BITS).
  { intros extra. apply Z.mod_pos_bound. reflexivity. }
  assert (Hrange : forall idx extra, 0 <= handle_of idx extra < 2 ^ 32).
  { intros idx extra. unfold handle_of.
    specialize (Hpos extra). unfold STACK_DEPOT_EXTRA_BITS in *.
    destruct ((0 <=? idx) && (idx + 1 <? 2 ^ 27)) eqn:E; [|lia].
    apply andb_prop in E as [E1 E2].
    apply Z.leb_le in E1. apply Z.ltb_lt in E2. lia. }
  assert (Hextra : forall idx extra,
            0 <= extra < 2 ^ STACK_DEPOT_EXTRA_BITS ->
            handle_of idx extra <> 0 ->
            get_extra_bits (handle_of idx extra) = extra).
  { intros idx extra Hx. unfold handle_of, get_extra_bits.
    unfold STACK_DEPOT_EXTRA_BITS in *.
    destruct ((0 <=? idx) && (idx + 1 <? 2 ^ 27)) eqn:E; [|congruence].
    intros _. apply andb_prop in E as [E1 E2].
    apply Z.leb_le in E1. apply Z.ltb_lt in E2.
    rewrite Z.shiftr_div_pow2 by lia.
    rewrite (Z.mod_small extra) by lia.
    replace ((extra * 2 ^ 27 + (idx + 1)) / 2 ^ 27) with extra.
    - apply Z.mod_small. lia.
    - apply Z.div_unique with (r := idx + 1); lia. }
  refine {| depot := t;
            stack_depot_save_extra := save;
            stack_depot_get_extra_bits := get_extra_bits;
            filter_irq_stacks := fun es => es |}.
  - intros es eb fl d. unfold save.
    destruct (index_of _ _ _); cbn [fst]; [apply Hrange|].
    destruct (_ <? _)%nat; cbn [fst]; [apply Hrange|lia].
  - intros h. unfold get_extra_bits. apply Hpos.
  - intros es eb fl d Hx. unfold save.
    destruct (index_of _ _ _); cbn [fst]; [now apply Hextra|].
    destruct (_ <? _)%nat; cbn [fst]; [now apply Hextra|congruence].
Defined.

End PoolDepot.

(** ** Concrete kernel states on the x86-64 platform

    Data pages with frame number below [2^18] are tracked: the shadow page
    of frame [f] is frame [f + 2^18], its origin page frame [f + 2^19].
    Metadata pages carry no metadata themselves. *)
Module Scenario.
Import X86 PoolDepot.

Definition shadow_page_of (page : Z) : Z :=
  let pfn := page_to_pfn page in
  if (0 <=? pfn) && (pfn <? 2 ^ 18) then pfn_to_page (pfn + 2 ^ 18) else 0.

Definition origin_page_of (page : Z) : Z :=
  let pfn := page_to_pfn page in
  if (0 <=? pfn) && (pfn <? 2 ^ 18) then pfn_to_page (pfn + 2 ^ 19) else 0.

(** A ready kernel outside the runtime, all memory zero, with a depot of
    the given capacity, running under the given call stack. *)
Definition boot (cap : nat) (stack : list Z) : kstate :=
  mk_kstate true 0 0 shadow_page_of origin_page_of (fun _ => 0)
    (PoolDepot.mk [] cap) stack 0 [] [].

(** Run a computation and keep the state it ends in, if it ends. *)
Definition run {A} (c : M A) (st : kstate) : option kstate :=
  match c st with
  | Ok _ st' => Some st'
  | _ => None
  end.

(** A block in the direct map, physical address [0x100000], with its
    shadow bytes and origin slots. *)
Definition blk : Z := 0xffff888000100000.
Definition blk_shadow : Z := 0xffff888040100000.
Definition blk_origin : Z := 0xffff888080100000.
(** A second block, one page further. *)
Definition blk2 : Z := 0xffff888000101000.
Definition blk2_shadow : Z := 0xffff888040101000.
Definition blk2_origin : Z := 0xffff888080101000.
(** A block that no zone tracks: a frame above the tracked ones. *)
Definition untracked_blk : Z := 0xffff888000000000 + 2 ^ 31.

(** One computation after the other. *)
Definition andthen {A B} (c1 : M A) (c2 : M B) : M B :=
  bind c1 (fun _ => c2).

(** Observations of the state a computation ends in. *)
Definition value_after {A} (c : M A) (st : kstate) : option A :=
  match c st with
  | Ok a _ => Some a
  | _ => None
  end.
Definition reports_after {A} (c : M A) (st : kstate)
  : option (list report) :=
  option_map reports (run c st).
Definition bytes_after {A} (c : M A) (st : kstate) (p : Z) (n : nat)
  : option (list Z) :=
  option_map (fun st' => map (fun i => load8 (mem st') (p + Z.of_nat i))
                             (seq 0 n)) (run c st).
Definition word_after {A} (c : M A) (st : kstate) (p : Z) : option Z :=
  option_map (fun st' => load32 (mem st') p) (run c st).

(** The booted kernel after its store saved the stack [1; 2; 3] once. *)
Definition after_first_save : kstate :=
  set_depot (PoolDepot.mk [([1; 2; 3], 0)] 10) (boot 10 [1; 2; 3]).

(** A kernel whose store holds one record and has no room for more. *)
Definition full_store : kstate :=
  set_depot (PoolDepot.mk [([1; 2; 3], 0)] 1) (boot 1 [1; 2; 3]).

(** The kernel right after [blk] was handed out poisoned: eight shadow
    bytes [0xff], both origin slots hold the first handle of the depot. *)
Definition fresh_block : kstate :=
  set_mem (set_origin_slots 2 blk_origin 0 1
             (memset (fun _ => 0) blk_shadow (-1) 8))
    after_first_save.

(** A kernel whose store cannot save anything, with the four bytes of
    [blk2] poisoned under handle [1] issued earlier. *)
Definition exhausted_store : kstate :=
  set_mem (set_origin_slots 1 blk2_origin 0 1
             (memset (fun _ => 0) blk2_shadow (-1) 4))
    (boot 0 [1; 2; 3]).

End Scenario.

(** ** The allocation, copy, DMA and page hooks ([hooks.c], [shadow.c]) *)

(** Modelled from the spec: the further reason tags of the internal header
    ([enum kmsan_bug_reason]), the caller-supplied tag of a report. *)
Definition REASON_COPY_TO_USER : Z := 1.
Definition REASON_SUBMIT_URB : Z := 2.

(** Modelled from the spec: the uninstrumented primitive [__memcpy(d, s, n)],
    a verbatim bulk copy of [n] bytes, used on whole metadata pages. *)
Definition memcpy (m : memory) (d s n : Z) : memory :=
  fun x => if (d <=? x) && (x <? d + n) then m (s + (x - d)) else m x.

(** [enum dma_data_direction] of [linux/dma-direction.h]. *)
Inductive dma_data_direction : Type :=
| DMA_BIDIRECTIONAL
| DMA_TO_DEVICE
| DMA_FROM_DEVICE
| DMA_NONE.

(** A USB request block, as far as the hook looks at it; [None] is the
    [NULL] pointer. *)
Record urb : Type := mk_urb {
  transfer_buffer : Z;
  transfer_buffer_length : Z
}.

(** What the remaining hooks read from mm and arch headers. *)
Class HookEnv : Type := {
  TASK_SIZE : Z;
  PageHighMem : Z -> bool;
  (** [sizeof(struct page)], the stride of a [struct page] array *)
  sizeof_page : Z;
  (** [sizeof(struct pt_regs)] *)
  sizeof_pt_regs : Z
}.

Section Hooks.
Context {PF : Platform} {SD : StackDepot} {HE : HookEnv}.

Notation "x <- c1 ;; c2" := (bind c1 (fun x => c2))
  (at level 61, c1 at next level, right associativity).
Notation "c1 ;; c2" := (bind c1 (fun _ => c2))
  (at level 61, right associativity).

(** *** shadow.c: the page side-table *)

Definition set_shadow_page (page v : Z) (st : kstate) : kstate :=
  mk_kstate (kmsan_ready st) (kmsan_in_runtime_ctr st) (smp_processor_id st)
    (fun p => if p =? page then v else kmsan_shadow st p) (kmsan_origin st)
    (mem st) (depot_st st) (call_stack st) (kmsan_skipped_origins st)
    (console st) (reports st).
Definition set_origin_page (page v : Z) (st : kstate) : kstate :=
  mk_kstate (kmsan_ready st) (kmsan_in_runtime_ctr st) (smp_processor_id st)
    (kmsan_shadow st) (fun p => if p =? page then v else kmsan_origin st p)
    (mem st) (depot_st st) (call_stack st) (kmsan_skipped_origins st)
    (console st) (reports st).

Definition set_no_shadow_origin_page (page : Z) : M unit :=
  modify (set_shadow_page page 0) ;;
  modify (set_origin_page page 0).

(** The [for] loop of [kmsan_setup_meta]: [k] more pages from index [i];
    [&page[i]] is [page + sizeof(struct page) * i]. *)
Fixpoint setup_meta_loop (k : nat) (page shadow origin i : Z) : M unit :=
  match k with
  | O => ret tt
  | S k' =>
    set_no_shadow_origin_page (shadow + sizeof_page * i) ;;
    set_no_shadow_origin_page (origin + sizeof_page * i) ;;
    modify (set_shadow_page (page + sizeof_page * i)
              (shadow + sizeof_page * i)) ;;
    modify (set_origin_page (page + sizeof_page * i)
              (origin + sizeof_page * i)) ;;
    setup_meta_loop k' page shadow origin (i + 1)
  end.

Definition kmsan_setup_meta (page shadow origin order : Z) : M unit :=
  setup_meta_loop (Z.to_nat (s32 (Z.shiftl 1 order))) page shadow origin 0.

(** *** shadow.c: page copy and page allocation *)

Definition kmsan_copy_page_meta (dst src : Z) : M unit :=
  ready <- gets kmsan_ready ;;
  inrt <- kmsan_in_runtime ;;
  if negb ready || inrt then ret tt
  else
    dst_has <- (if nz dst then page_has_metadata dst else ret false) ;;
    if negb dst_has then ret tt
    else
      src_has <- (if nz src then page_has_metadata src else ret false) ;;
      if negb src_has then
        kmsan_internal_unpoison_memory (page_address dst) PAGE_SIZE false
      else
        kmsan_enter_runtime ;;
        shadow_dst <- shadow_ptr_for dst ;;
        shadow_src <- shadow_ptr_for src ;;
        modify (fun st =>
          set_mem (memcpy (mem st) shadow_dst shadow_src PAGE_SIZE) st) ;;
        origin_dst <- origin_ptr_for dst ;;
        origin_src <- origin_ptr_for src ;;
        modify (fun st =>
          set_mem (memcpy (mem st) origin_dst origin_src PAGE_SIZE) st) ;;
        kmsan_leave_runtime.

(** [int pages = 1 << order]; the byte count [PAGE_SIZE * pages] is an
    [unsigned long].  The origin loop runs an [int] index up to
    [PAGE_SIZE * pages / sizeof(handle)]. *)
Definition kmsan_alloc_page (page order gfp : Z) : M unit :=
  ready <- gets kmsan_ready ;;
  let initialized := nz (Z.land gfp __GFP_ZERO) || negb ready in
  let pages := s32 (Z.shiftl 1 order) in
  if negb (nz page) then ret tt
  else
    shadow <- gets (fun st => kmsan_shadow st page) ;;
    origin <- gets (fun st => kmsan_origin st page) ;;
    if initialized then
      modify (fun st =>
        set_mem (memset (mem st) (page_address shadow) 0
                   (u64 (PAGE_SIZE * pages))) st) ;;
      modify (fun st =>
        set_mem (memset (mem st) (page_address origin) 0
                   (u64 (PAGE_SIZE * pages))) st)
    else
      inrt <- kmsan_in_runtime ;;
      if inrt then ret tt
      else
        modify (fun st =>
          set_mem (memset (mem st) (page_address shadow) (-1)
                     (u64 (PAGE_SIZE * pages))) st) ;;
        kmsan_enter_runtime ;;
        handle <- kmsan_save_stack_with_flags gfp 0 ;;
        kmsan_leave_runtime ;;
        modify (fun st =>
          set_mem (set_origin_slots
                     (Z.to_nat (u64 (PAGE_SIZE * pages) / KMSAN_ORIGIN_SIZE))
                     (page_address origin) 0 handle (mem st)) st).

(** *** hooks.c: allocation hooks *)

Definition kmsan_slab_alloc (s : kmem_cache) (object gfp : Z) : M unit :=
  if negb (nz object) then ret tt
  else
    ready <- gets kmsan_ready ;;
    inrt <- kmsan_in_runtime ;;
    if negb ready || inrt then ret tt
    else if nz (ctor s) || nz (Z.land (flags s) SLAB_TYPESAFE_BY_RCU)
    then ret tt
    else
      kmsan_enter_runtime ;;
      (if nz (Z.land gfp __GFP_ZERO) then
         kmsan_internal_unpoison_memory object (object_size s)
           (nz KMSAN_POISON_CHECK)
       else
         kmsan_internal_poison_memory object (object_size s) gfp
           KMSAN_POISON_CHECK) ;;
      kmsan_leave_runtime.

Definition kmsan_kmalloc_large (ptr size gfp : Z) : M unit :=
  if negb (nz ptr) then ret tt
  else
    ready <- gets kmsan_ready ;;
    inrt <- kmsan_in_runtime ;;
    if negb ready || inrt then ret tt
    else
      kmsan_enter_runtime ;;
      (if nz (Z.land gfp __GFP_ZERO) then
         kmsan_internal_unpoison_memory ptr size true
       else
         kmsan_internal_poison_memory ptr size gfp KMSAN_POISON_CHECK) ;;
      kmsan_leave_runtime.

(** *** hooks.c: the user-copy, USB and DMA hooks *)

Definition kmsan_copy_to_user (to from to_copy left : Z) : M unit :=
  ready <- gets kmsan_ready ;;
  inrt <- kmsan_in_runtime ;;
  if negb ready || inrt then ret tt
  else if negb (nz to_copy) then ret tt
  else if to_copy <=? left then ret tt
  else if to <? TASK_SIZE then
    kmsan_internal_check_memory from (u64 (to_copy - left)) to
      REASON_COPY_TO_USER
  else
    kmsan_memmove_metadata to from (u64 (to_copy - left)).

Definition kmsan_handle_urb (u : option urb) (is_out : bool) : M unit :=
  match u with
  | None => ret tt
  | Some u =>
    if is_out then
      kmsan_internal_check_memory (transfer_buffer u)
        (transfer_buffer_length u) 0 REASON_SUBMIT_URB
    else
      kmsan_internal_unpoison_memory (transfer_buffer u)
        (transfer_buffer_length u) false
  end.

Definition kmsan_handle_dma_page (addr size : Z) (dir : dma_data_direction)
  : M unit :=
  match dir with
  | DMA_BIDIRECTIONAL =>
    kmsan_internal_check_memory addr size 0 REASON_ANY ;;
    kmsan_internal_unpoison_memory addr size false
  | DMA_TO_DEVICE => kmsan_internal_check_memory addr size 0 REASON_ANY
  | DMA_FROM_DEVICE => kmsan_internal_unpoison_memory addr size false
  | DMA_NONE => ret tt
  end.

(** The [while (size > 0)] loop of [kmsan_handle_dma]. *)
Fixpoint handle_dma_loop (fuel : nat) (addr size : Z)
    (dir : dma_data_direction) : M unit :=
  if size >? 0 then
    match fuel with
    | O => fun _ => OutOfFuel
    | S fuel' =>
      let page_offset := addr mod PAGE_SIZE in
      let to_go := Z.min (u64 (PAGE_SIZE - page_offset)) size in
      kmsan_handle_dma_page addr to_go dir ;;
      handle_dma_loop fuel' (u64 (addr + to_go)) (u64 (size - to_go)) dir
    end
  else ret tt.

Definition kmsan_handle_dma (page offset size : Z) (dir : dma_data_direction)
  : M unit :=
  if PageHighMem page then ret tt
  else
    let addr := u64 (page_address page + offset) in
    handle_dma_loop (Z.to_nat size) addr size dir.

(** The [for] loop of [kmsan_gup_pgd_range] over an array that holds at
    least [nr] page pointers. *)
Fixpoint gup_loop (k : nat) (pages : list Z) (i : Z) : M unit :=
  match k with
  | O => ret tt
  | S k' =>
    let page := nth (Z.to_nat i) pages 0 in
    (if PageHighMem page then ret tt
     else
       let page_addr := page_address page in
       if (page_addr <? TASK_SIZE) && (u64 (page_addr + PAGE_SIZE) <? TASK_SIZE)
       then kmsan_unpoison_memory page_addr PAGE_SIZE
       else ret tt) ;;
    gup_loop k' pages (i + 1)
  end.

Definition kmsan_gup_pgd_range (pages : list Z) (nr : Z) : M unit :=
  gup_loop (Z.to_nat nr) pages 0.

Definition kmsan_unpoison_pt_regs (regs : Z) : M unit :=
  ready <- gets kmsan_ready ;;
  if negb ready || negb (nz regs) then ret tt
  else kmsan_internal_unpoison_memory regs sizeof_pt_regs true.

End Hooks.

(** ** Vocabulary of the further properties *)

Section GateVocabulary.
Context {PF : Platform} {SD : StackDepot}.

(** The metadata of page [k] of a range at [a] follows that of page
    [k - 1]: shadow and origin pointers are one page further. *)
Definition page_step (st : kstate) (a k : Z) : Prop :=
  meta st (a + PAGE_SIZE * (k - 1)) false
  = u64 (meta st (a + PAGE_SIZE * k) false - PAGE_SIZE)
  /\ meta st (a + PAGE_SIZE * (k - 1)) true
     = u64 (meta st (a + PAGE_SIZE * k) true - PAGE_SIZE).

(** What the gate asks of page [k >= 1] of the range: no metadata at all
    when the first page has no shadow, metadata that follows the previous
    page otherwise. *)
Definition step_ok (st : kstate) (a : Z) (all_untracked : bool) (k : Z)
  : Prop :=
  if all_untracked
  then meta st (a + PAGE_SIZE * k) false = 0
       /\ meta st (a + PAGE_SIZE * k) true = 0
  else page_step st a k.

(** I1 for [n] bytes at [a], page by page: the range is empty, or lies in
    one page, or none of its pages has metadata, or the metadata of each of
    its pages follows that of the page before. *)
Definition contiguous_pages (st : kstate) (a n : Z) : Prop :=
  n = 0
  \/ ALIGN_DOWN (a + n - 1) PAGE_SIZE = ALIGN_DOWN a PAGE_SIZE
  \/ (meta st a false = 0 /\ meta st a true = 0
      /\ forall k, 1 <= k -> PAGE_SIZE * k < n -> step_ok st a true k)
  \/ (meta st a false <> 0
      /\ forall k, 1 <= k -> PAGE_SIZE * k < n -> step_ok st a false k).

End GateVocabulary.

Section EffectVocabulary.
Context {PF : Platform} {SD : StackDepot}.

(** Every byte of [n] bytes at [a] has shadow byte [b] and reads origin
    [h], through the pointers the resolver gives in [st]. *)
Definition filled_with (st : kstate) (a n b h : Z) : Prop :=
  forall j, 0 <= j < n ->
    load8 (mem st) (meta st (a + j) KMSAN_META_SHADOW) = b
    /\ load32 (mem st) (meta st (a + j) KMSAN_META_ORIGIN) = h.

(** Every byte of [n] bytes at [a] is poisoned (nonzero shadow byte) and
    reads origin [h]. *)
Definition poisoned_under (st : kstate) (a n h : Z) : Prop :=
  forall j, 0 <= j < n ->
    load8 (mem st) (meta st (a + j) KMSAN_META_SHADOW) <> 0
    /\ load32 (mem st) (meta st (a + j) KMSAN_META_ORIGIN) = h.

(** The memory outside the shadow bytes [sh, sh + n) and outside the origin
    slots filled for [n] bytes at [a] from [og] is as before. *)
Definition metadata_frame (m m' : memory) (a n sh og : Z) : Prop :=
  forall x, x < sh \/ sh + n <= x ->
            x < og \/ og + KMSAN_ORIGIN_SIZE * filled_slots a n <= x ->
            load8 m' x = load8 m x.

(** Two states differ in memory only. *)
Definition only_mem_changed (st st' : kstate) : Prop :=
  st' = set_mem (mem st') st.

(** Two states differ in the provenance store only. *)
Definition only_depot_changed (st st' : kstate) : Prop :=
  st' = set_depot (depot_st st') st.

End EffectVocabulary.

Section InvariantVocabulary.
Context {PF : Platform} {SD : StackDepot}.

(** A computation that returns has moved the guard counter by [d] and has
    left the readiness flag, the current CPU, the page side-table and the
    call stack as they were. *)
Definition shifts_guard {A} (d : Z) (c : M A) : Prop :=
  forall st r st', c st = Ok r st' ->
    kmsan_ready st' = kmsan_ready st
    /\ kmsan_in_runtime_ctr st' = kmsan_in_runtime_ctr st + d
    /\ layout_eq st st'
    /\ call_stack st' = call_stack st.

End InvariantVocabulary.

Section ScanVocabulary.
Context {PF : Platform} {SD : StackDepot}.

(** The offset at which the chunk of a scan at [addr] that holds offset [j]
    starts: offset 0, or the page boundary below [addr + j]. *)
Definition chunk_start (addr j : Z) : Z :=
  Z.max 0 (ALIGN_DOWN (addr + j) PAGE_SIZE - addr).

(** The shadow byte the scanner reads for offset [j]: through the shadow
    pointer of the first byte of its chunk; a chunk without shadow reads as
    clean. *)
Definition shadow_at (st : kstate) (addr j : Z) : Z :=
  let p := chunk_start addr j in
  let sh := meta st (u64 (addr + p)) KMSAN_META_SHADOW in
  if nz sh then load8 (mem st) (sh + (j - p)) else 0.

(** The tag of offset [j]: the origin handle of its granule when its shadow
    byte is nonzero, [0] otherwise. *)
Definition tag_at (st : kstate) (addr j : Z) : Z :=
  if nz (shadow_at st addr j) then origin_at st addr j else 0.

(** A report of a scan is a maximal run of one nonzero tag. *)
Definition exact_report (tg : Z -> Z) (addr size ua reason : Z) (r : report)
  : Prop :=
  r_origin r <> 0
  /\ r_address r = addr /\ r_size r = size
  /\ r_user_addr r = ua /\ r_reason r = reason
  /\ 0 <= r_off_first r <= r_off_last r /\ r_off_last r < size
  /\ (forall j, r_off_first r <= j <= r_off_last r -> tg j = r_origin r)
  /\ (r_off_first r = 0 \/ tg (r_off_first r - 1) <> r_origin r)
  /\ (r_off_last r = size - 1 \/ tg (r_off_last r + 1) <> r_origin r).

(** The runs of a list of reports come in increasing order, none before
    [lo], each after the end of the one before. *)
Fixpoint ordered_from (lo : Z) (rs : list report) : Prop :=
  match rs with
  | [] => True
  | r :: rs' =>
    lo <= r_off_first r /\ r_off_first r <= r_off_last r
    /\ ordered_from (r_off_last r + 1) rs'
  end.

(** Offset [j] lies in the run of one of the reports. *)
Definition covers (rs : list report) (j : Z) : Prop :=
  exists r, In r rs /\ r_off_first r <= j <= r_off_last r.

(** The cursor of the scanner in front of offset [p]: no run is open and the
    byte before [p] has tag 0, or the run open since [cs] holds the tag [co]
    only and cannot be extended to the left. *)
Definition cursor_inv (tg : Z -> Z) (co cs p : Z) : Prop :=
  (co = 0 /\ (p = 0 \/ tg (p - 1) = 0))
  \/ (co <> 0 /\ 0 <= cs < p
      /\ (forall j, cs <= j < p -> tg j = co)
      /\ (cs = 0 \/ tg (cs - 1) <> co)).

(** The first offset not yet settled by a report. *)
Definition pending_from (co cs p : Z) : Z := if nz co then cs else p.

(** What a part of a scan from [p] to [p'] has achieved: the reports it
    emitted are exact, ordered, lie between the pending offsets before and
    after, and cover every tagged offset between them. *)
Definition scanned_part (tg : Z -> Z) (addr size ua reason : Z)
    (co cs p co' cs' p' : Z) (rs : list report) : Prop :=
  Forall (exact_report tg addr size ua reason) rs
  /\ ordered_from (pending_from co cs p) rs
  /\ Forall (fun r => r_off_last r < pending_from co' cs' p') rs
  /\ pending_from co cs p <= pending_from co' cs' p'
  /\ (forall j, pending_from co cs p <= j < pending_from co' cs' p' ->
                tg j <> 0 -> covers rs j)
  /\ cursor_inv tg co' cs' p'.

End ScanVocabulary.

Section DmaVocabulary.
Context {PF : Platform} {SD : StackDepot}.

(** Memory [m'] differs from [m] only in bytes that became zero. *)
Definition only_zeroed (m m' : memory) : Prop :=
  forall x, load8 m' x = 0 \/ load8 m' x = load8 m x.

(** A buffer of [n] bytes at [a] with metadata for every byte, the shadow
    pointers running along within each page (pages may be unrelated to each
    other). *)
Definition tracked_pagewise (st : kstate) (a n : Z) : Prop :=
  (forall j, 0 <= j < n ->
     meta st (a + j) KMSAN_META_SHADOW <> 0
     /\ meta st (a + j) KMSAN_META_ORIGIN <> 0)
  /\ forall j j', 0 <= j <= j' -> j' < n ->
       (a + j) / PAGE_SIZE = (a + j') / PAGE_SIZE ->
       meta st (a + j') KMSAN_META_SHADOW
       = meta st (a + j) KMSAN_META_SHADOW + (j' - j).

End DmaVocabulary.

Section ChainVocabulary.
Context {PF : Platform} {SD : StackDepot}.

(** What the provenance store answers to the save of the chain record of
    [id] in state [st], as the unsaturated path of
    [kmsan_internal_chain_origin] performs it: the current stack is saved
    first, then the record [magic; stack handle; id], both under the extra
    bits of the next depth.  A first component [0] means that the store
    could not save the record. *)
Definition chain_record_save (id : Z) (st : kstate) : Z * depot :=
  let eb := kmsan_extra_bits (origin_depth id + 1) (origin_uaf id) in
  let r1 :=
    stack_depot_save_extra
      (filter_irq_stacks (firstn KMSAN_STACK_DEPTH (call_stack st))) eb
      (Z.land GFP_ATOMIC (Z.lnot __GFP_DIRECT_RECLAIM)) (depot_st st) in
  stack_depot_save_extra [KMSAN_CHAIN_MAGIC_ORIGIN; fst r1; id] eb GFP_ATOMIC
    (snd r1).

(** Among [k] successive chainings that start from [id] in [st], the store
    failed to save the chain record of one. *)
Fixpoint chain_save_failed (k : nat) (id : Z) (st : kstate) : bool :=
  match k with
  | O => false
  | S k' =>
    (nz id && (origin_depth id <? MAX_CHAIN_DEPTH)
     && (fst (chain_record_save id st) =? 0))
    || match kmsan_internal_chain_origin id st with
       | Ok h st' => chain_save_failed k' h st'
       | _ => false
       end
  end.

End ChainVocabulary.

(** ** The hook environment of the x86-64 platform

    [TASK_SIZE] is the end of the user address space with 4-level paging;
    a [struct page] takes 64 bytes (the stride of [X86.pfn_to_page]), a
    [struct pt_regs] 21 registers of 8 bytes; there is no highmem on
    x86-64. *)
Module X86Env.

#[export] Instance hook_env : HookEnv := {|
  TASK_SIZE := 0x00007ffffffff000;
  PageHighMem := fun _ => false;
  sizeof_page := 64;
  sizeof_pt_regs := 168
|}.

(** The [struct page] of the blocks of the scenarios, and the start of its
    [struct page] array with the arrays of its shadow and origin pages. *)
Definition blk_page : Z := X86.pfn_to_page 0x100.
Definition blk2_page : Z := X86.pfn_to_page 0x101.
Definition data_pages : Z := X86.pfn_to_page 0.
Definition shadow_pages : Z := X86.pfn_to_page (2 ^ 18).
Definition origin_pages : Z := X86.pfn_to_page (2 ^ 19).

(** A handle of the pool depot whose decoded chain depth is
    [MAX_CHAIN_DEPTH]. *)
Definition saturated_handle : Z := 14 * 2 ^ 27 + 1.

(** The kernel with the four bytes of [blk2] poisoned under handle [1],
    its store holding the record of that handle and room for more. *)
Definition fresh_block2 : kstate :=
  set_mem (mem Scenario.exhausted_store) Scenario.after_first_save.

End X86Env.

(** ** Further concrete states, for the boundary cases *)
Module EdgeScenario.
Import X86 PoolDepot Scenario.

(** Whether a computation aborts the kernel. *)
Definition aborts {A} (c : M A) (st : kstate) : bool :=
  match c st with
  | Bug => true
  | _ => false
  end.

(** The kernel of [fresh_block] with a store that has room for 64
    records. *)
Definition roomy_store : kstate :=
  set_depot (PoolDepot.mk [([1; 2; 3], 0)] 64) fresh_block.

(** The last tracked page and its last byte; the first block of the direct
    map with its shadow bytes and origin slots (the origin page of the
    first frame follows the shadow page of the last tracked frame); the
    kernel in which the four bytes of that block are poisoned under
    handle [1]. *)
Definition last_tracked_page : Z := 0xffff88803ffff000.
Definition last_tracked_byte : Z := 0xffff88803fffffff.
Definition blk0 : Z := 0xffff888000000000.
Definition blk0_shadow : Z := 0xffff888040000000.
Definition blk0_origin : Z := 0xffff888080000000.
Definition first_block_poisoned : kstate :=
  set_mem (set_origin_slots 1 blk0_origin 0 1
             (memset (fun _ => 0) blk0_shadow (-1) 4))
    (boot 10 [1; 2; 3]).


End EdgeScenario.
(** ** Basic facts: memory *)

Lemma load8_range m a : 0 <= load8 m a < 256.
Proof. unfold load8. apply Z.mod_pos_bound. lia. Qed.

Lemma load8_store8_same m a v : load8 (store8 m a v) a = v mod 256.
Proof.
  unfold load8, store8. rewrite Z.eqb_refl. apply Z.mod_mod. lia.
Qed.

Lemma load8_store8_other m a v x :
  x <> a -> load8 (store8 m a v) x = load8 m x.
Proof.
  unfold load8, store8. intros Hne.
  destruct (x =? a) eqn:E; [apply Z.eqb_eq in E; contradiction|reflexivity].
Qed.

Lemma load8_store32_other m a v x :
  x < a \/ a + 4 <= x -> load8 (store32 m a v) x = load8 m x.
Proof.
  intros H. unfold store32.
  rewrite !load8_store8_other by lia. reflexivity.
Qed.

Lemma load32_range m a : 0 <= load32 m a < 2 ^ 32.
Proof.
  unfold load32.
  pose proof (load8_range m a). pose proof (load8_range m (a + 1)).
  pose proof (load8_range m (a + 2)). pose proof (load8_range m (a + 3)).
  lia.
Qed.

Ltac load_store8 :=
  repeat match goal with
  | |- context [load8 (store8 ?m ?a ?v) ?x] =>
    first [ rewrite (load8_store8_other m a v x) by lia
          | replace x with a by lia; rewrite (load8_store8_same m a v) ]
  end.

Lemma load32_store32_same m a v :
  0 <= v < 2 ^ 32 -> load32 (store32 m a v) a = v.
Proof.
  intros Hv. unfold load32, store32. load_store8. lia.
Qed.

Lemma load32_store32_other m a v x :
  x + 4 <= a \/ a + 4 <= x -> load32 (store32 m a v) x = load32 m x.
Proof.
  intros H. unfold load32.
  rewrite !load8_store32_other by lia. reflexivity.
Qed.

Lemma load8_memset_in m p b n x :
  p <= x < p + n -> load8 (memset m p b n) x = b mod 256.
Proof.
  intros H. unfold load8, memset.
  replace ((p <=? x) && (x <? p + n)) with true.
  - apply Z.mod_mod. lia.
  - symmetry. apply andb_true_intro. split; [apply Z.leb_le|apply Z.ltb_lt]; lia.
Qed.

Lemma memset_out m p b n x :
  x < p \/ p + n <= x -> memset m p b n x = m x.
Proof.
  intros H. unfold memset.
  destruct ((p <=? x) && (x <? p + n)) eqn:E; [|reflexivity].
  apply andb_prop in E as [E1 E2].
  apply Z.leb_le in E1. apply Z.ltb_lt in E2. lia.
Qed.

Lemma set_origin_slots_out k : forall og i v m x,
  0 <= i ->
  x < og + 4 * i \/ og + 4 * (i + Z.of_nat k) <= x ->
  load8 (set_origin_slots k og i v m) x = load8 m x.
Proof.
  induction k as [|k IH]; intros og i v m x Hi Hx; cbn [set_origin_slots];
    [reflexivity|].
  rewrite IH by lia.
  unfold KMSAN_ORIGIN_SIZE. apply load8_store32_other. lia.
Qed.

Lemma set_origin_slots_in k : forall og i v m s,
  0 <= v < 2 ^ 32 -> 0 <= i ->
  i <= s < i + Z.of_nat k ->
  load32 (set_origin_slots k og i v m) (og + 4 * s) = v.
Proof.
  induction k as [|k IH]; intros og i v m s Hv Hi Hs; cbn [set_origin_slots];
    [lia|].
  destruct (Z.eq_dec s i) as [->|Hne].
  - unfold load32. rewrite !set_origin_slots_out by lia.
    unfold KMSAN_ORIGIN_SIZE. apply load32_store32_same. exact Hv.
  - apply IH; lia.
Qed.

(** ** Basic facts: the monad and the resolver *)

Section Facts.
Context {PF : Platform} {SD : StackDepot}.

Ltac unfold_monad :=
  unfold BUG_ON, when in *; unfold bind, gets, ret, modify, BUG in *.

Lemma aligned_down_is_aligned a (o : bool) :
  o && negb (IS_ALIGNED
       (if o && negb (IS_ALIGNED a KMSAN_ORIGIN_SIZE)
        then a - a mod KMSAN_ORIGIN_SIZE else a) KMSAN_ORIGIN_SIZE) = false.
Proof.
  destruct o; [|reflexivity]. cbn [andb].
  destruct (IS_ALIGNED a KMSAN_ORIGIN_SIZE) eqn:E; cbn [negb].
  - now rewrite E.
  - unfold IS_ALIGNED, KMSAN_ORIGIN_SIZE.
    replace ((a - a mod 4) mod 4 =? 0) with true; [reflexivity|].
    symmetry. apply Z.eqb_eq. lia.
Qed.

(** The resolver never aborts and leaves the state alone. *)
Lemma kmsan_get_metadata_pure a o st :
  kmsan_get_metadata a o st = Ok (meta st a o) st.
Proof.
  assert (H : exists p, kmsan_get_metadata a o st = Ok p st).
  { unfold kmsan_get_metadata, vmalloc_meta, get_cea_meta_or_null,
      page_has_metadata, origin_ptr_for, shadow_ptr_for.
    unfold_monad.
    rewrite (aligned_down_is_aligned a o). cbv beta iota.
    repeat match goal with
           | |- context [if ?c then _ else _] => destruct c; cbv beta iota
           end; eauto. }
  destruct H as [p H]. unfold meta. now rewrite H.
Qed.

Lemma meta_ext st st' a o :
  layout_eq st st' -> meta st a o = meta st' a o.
Proof.
  intros (Hc & Hs & Ho). unfold meta.
  unfold kmsan_get_metadata, vmalloc_meta, get_cea_meta_or_null,
    page_has_metadata, origin_ptr_for, shadow_ptr_for.
  unfold_monad.
  rewrite (aligned_down_is_aligned a o). cbv beta iota.
  repeat (cbv beta iota; try rewrite Hc; try rewrite Hs; try rewrite Ho;
          match goal with
          | |- context [if ?c then _ else _] => destruct c
          end);
    cbv beta iota; reflexivity.
Qed.

Lemma layout_eq_refl st : layout_eq st st.
Proof. now repeat split. Qed.

Lemma layout_eq_set_mem m st : layout_eq st (set_mem m st).
Proof. now repeat split. Qed.

Lemma layout_eq_trans a b c : layout_eq a b -> layout_eq b c -> layout_eq a c.
Proof.
  intros (A1 & A2 & A3) (B1 & B2 & B3). repeat split; congruence.
Qed.


Lemma contiguous_report_false a n st :
  contiguous_report a n st
  = Ok false (add_console (TwoShadowRanges a n) st).
Proof.
  unfold contiguous_report. unfold_monad.
  now rewrite kmsan_get_metadata_pure.
Qed.

(** A passing contiguity gate leaves the state alone, and passes in every
    state with the same layout. *)
Lemma contiguous_loop_true fuel : forall a n au next cs co st st1,
  contiguous_loop fuel a n au next cs co st = Ok true st1 ->
  st1 = st
  /\ forall st', layout_eq st st' ->
       contiguous_loop fuel a n au next cs co st' = Ok true st'.
Proof.
  induction fuel as [|fuel IH]; intros a n au next cs co st st1;
    cbn [contiguous_loop]; destruct (next <? u64 (a + n)).
  - discriminate.
  - unfold ret. intros [= <-]. split; [reflexivity|]. reflexivity.
  - unfold bind at 1 2. rewrite !kmsan_get_metadata_pure.
    intros H.
    assert (G : forall st', layout_eq st st' ->
              meta st' next false = meta st next false
              /\ meta st' next true = meta st next true).
    { intros st' L. now rewrite <- !(meta_ext st st') by exact L. }
    destruct au.
    + destruct (nz (meta st next false) || nz (meta st next true)) eqn:E1.
      { rewrite contiguous_report_false in H. discriminate. }
      destruct (negb (nz (meta st next false))
                && negb (nz (meta st next true))) eqn:E2.
      * apply IH in H as [-> H]. split; [reflexivity|].
        intros st' L. unfold bind. rewrite !kmsan_get_metadata_pure.
        destruct (G st' L) as [-> ->]. rewrite E1, E2. now apply H.
      * destruct ((cs =? u64 (meta st next false - PAGE_SIZE))
                  && (co =? u64 (meta st next true - PAGE_SIZE))) eqn:E3.
        -- apply IH in H as [-> H]. split; [reflexivity|].
           intros st' L. unfold bind. rewrite !kmsan_get_metadata_pure.
           destruct (G st' L) as [-> ->]. rewrite E1, E2, E3. now apply H.
        -- rewrite contiguous_report_false in H. discriminate.
    + destruct ((cs =? u64 (meta st next false - PAGE_SIZE))
                && (co =? u64 (meta st next true - PAGE_SIZE))) eqn:E3.
      * apply IH in H as [-> H]. split; [reflexivity|].
        intros st' L. unfold bind. rewrite !kmsan_get_metadata_pure.
        destruct (G st' L) as [-> ->]. rewrite E3. now apply H.
      * rewrite contiguous_report_false in H. discriminate.
  - unfold ret. intros [= <-]. split; reflexivity.
Qed.

Lemma contiguous_true a n st st1 :
  kmsan_metadata_is_contiguous a n st = Ok true st1 ->
  st1 = st
  /\ forall st', layout_eq st st' ->
       kmsan_metadata_is_contiguous a n st' = Ok true st'.
Proof.
  unfold kmsan_metadata_is_contiguous.
  destruct (negb (nz n)); [unfold ret; intros [= <-]; now split|].
  destruct (_ =? _); [unfold ret; intros [= <-]; now split|].
  unfold bind at 1 2. rewrite !kmsan_get_metadata_pure.
  intros H.
  destruct (negb (nz (meta st a false)) && nz (meta st a true)) eqn:E.
  { rewrite contiguous_report_false in H. discriminate. }
  apply contiguous_loop_true in H as [-> H]. split; [reflexivity|].
  intros st' L. unfold bind. rewrite !kmsan_get_metadata_pure.
  rewrite <- !(meta_ext st st') by exact L. rewrite E. now apply H.
Qed.

(** Within one page-sized access the gate can only fail on a location whose
    shadow is absent while its origin is present. *)
Lemma contiguous_small a n st :
  0 <= a -> a + n <= 2 ^ 64 -> 0 <= n <= PAGE_SIZE ->
  meta st a false <> 0 \/ meta st a true = 0 ->
  kmsan_metadata_is_contiguous a n st = Ok true st.
Proof.
  intros Ha Han Hn Hm. unfold kmsan_metadata_is_contiguous.
  destruct (negb (nz n)) eqn:En; [reflexivity|].
  destruct (_ =? _) eqn:Epage; [reflexivity|].
  unfold bind. rewrite !kmsan_get_metadata_pure.
  replace (negb (nz (meta st a false)) && nz (meta st a true)) with false.
  2:{ unfold nz. destruct Hm as [Hm|Hm].
      - apply Z.eqb_neq in Hm. now rewrite Hm.
      - rewrite Hm. cbn. now rewrite andb_false_r. }
  replace (Z.to_nat (n / PAGE_SIZE) + 1)%nat
    with (S (Z.to_nat (n / PAGE_SIZE))) by lia.
  cbn [contiguous_loop].
  replace (u64 (a + PAGE_SIZE) <? u64 (a + n)) with false; [reflexivity|].
  symmetry. apply Z.ltb_ge.
  apply Z.eqb_neq in Epage.
  unfold nz in En. apply negb_false_iff in En. apply negb_true_iff in En.
  apply Z.eqb_neq in En.
  unfold ALIGN_DOWN, u64, PAGE_SIZE in *.
  lia.
Qed.


(** Away from the last page of the address space the loop of the gate ends
    within its fuel. *)
Lemma contiguous_loop_fuel fuel : forall a n au next cs co st,
  0 <= next -> 0 <= a + n -> a + n + PAGE_SIZE <= 2 ^ 64 ->
  a + n - next < PAGE_SIZE * Z.of_nat fuel ->
  contiguous_loop fuel a n au next cs co st <> OutOfFuel.
Proof.
  induction fuel as [|fuel IH]; intros a n au next cs co st Hn Han Htop Hf;
    cbn [contiguous_loop]; destruct (next <? u64 (a + n)) eqn:Elt;
    try (unfold ret; discriminate).
  - apply Z.ltb_lt in Elt. unfold u64, PAGE_SIZE in *. lia.
  - apply Z.ltb_lt in Elt.
    assert (Hnext : u64 (next + PAGE_SIZE) = next + PAGE_SIZE)
      by (unfold u64, PAGE_SIZE in *; lia).
    unfold bind. rewrite !kmsan_get_metadata_pure. rewrite Hnext.
    assert (Hc : forall s o, contiguous_loop fuel a n au (next + PAGE_SIZE)
                               s o st <> OutOfFuel).
    { intros s o. apply IH; unfold PAGE_SIZE in *; lia. }
    repeat match goal with
           | |- context [if ?c then _ else _] => destruct c
           end;
      try (rewrite contiguous_report_false; discriminate); apply Hc.
Qed.

Lemma contiguous_fuel a n st :
  0 <= a -> 0 <= n -> a + n + PAGE_SIZE <= 2 ^ 64 ->
  kmsan_metadata_is_contiguous a n st <> OutOfFuel.
Proof.
  intros Ha Hn Htop. unfold kmsan_metadata_is_contiguous.
  destruct (negb (nz n)) eqn:En; [unfold ret; discriminate|].
  destruct (_ =? _); [unfold ret; discriminate|].
  unfold bind. rewrite !kmsan_get_metadata_pure.
  destruct (_ && _); [rewrite contiguous_report_false; discriminate|].
  apply negb_false_iff, negb_true_iff, Z.eqb_neq in En.
  apply contiguous_loop_fuel; unfold u64, PAGE_SIZE in *; lia.
Qed.

End Facts.

(** ** The scanner: every report is a run of bytes of one nonzero origin *)

Section Scanner.
Context {PF : Platform} {SD : StackDepot}.

Ltac unfold_monad :=
  unfold BUG_ON, when in *; unfold bind, gets, ret, modify, BUG in *.

Lemma scan_frame_refl st : scan_frame st st.
Proof. split; [reflexivity|apply layout_eq_refl]. Qed.

Lemma scan_frame_add_report st0 st r :
  scan_frame st0 st -> scan_frame st0 (add_report r st).
Proof. intros [Hm (L1 & L2 & L3)]. repeat split; assumption. Qed.

Lemma add_reports_cons r rs st :
  add_reports (r :: rs) st = add_reports rs (add_report r st).
Proof. reflexivity. Qed.

Lemma add_reports_mem rs : forall st, mem (add_reports rs st) = mem st.
Proof.
  induction rs as [|r rs IH]; intros st; [reflexivity|].
  now rewrite add_reports_cons, IH.
Qed.

Lemma add_reports_layout rs : forall st, layout_eq st (add_reports rs st).
Proof.
  induction rs as [|r rs IH]; intros st; [apply layout_eq_refl|].
  rewrite add_reports_cons.
  eapply layout_eq_trans; [|apply IH]. now repeat split.
Qed.

Lemma add_reports_reports rs : forall st,
  reports (add_reports rs st) = reports st ++ rs.
Proof.
  induction rs as [|r rs IH]; intros st.
  - cbn. now rewrite app_nil_r.
  - rewrite add_reports_cons, IH. cbn. now rewrite <- app_assoc.
Qed.

Lemma report_if_open_eq co addr size cs last ua reason st :
  report_if_open co addr size cs last ua reason st
  = Ok tt (if nz co
           then add_report (mk_report co addr size cs last ua reason) st
           else st).
Proof.
  unfold report_if_open, kmsan_enter_runtime, kmsan_report,
    kmsan_leave_runtime.
  unfold_monad. destruct (nz co); [|reflexivity].
  destruct st. unfold add_report, set_in_runtime. cbn. do 2 f_equal. lia.
Qed.

Lemma nz_true x : nz x = true <-> x <> 0.
Proof.
  unfold nz. rewrite negb_true_iff. apply Z.eqb_neq.
Qed.

Lemma nz_false x : nz x = false <-> x = 0.
Proof.
  unfold nz. rewrite negb_false_iff. apply Z.eqb_eq.
Qed.

Section OneScan.
Variables (st0 : kstate) (addr size ua reason : Z).
Hypothesis size_int : size < 2 ^ 31.

Let oa : Z -> Z := origin_at st0 addr.

(** Closing the open run at [p] yields a sound report. *)
Lemma closing_report_sound co cs p :
  open_run oa co cs p -> p <= size -> nz co = true ->
  sound_report oa addr size ua reason
    (mk_report co addr size cs (s32 (u64 (p - 1))) ua reason).
Proof.
  intros Hrun Hp Hco. apply nz_true in Hco.
  destruct (Hrun Hco) as [Hcs Hall].
  assert (E : s32 (u64 (p - 1)) = p - 1) by (unfold s32, u64; lia).
  unfold sound_report; cbn. rewrite E.
  repeat split; try lia; try assumption.
  intros j Hj. apply Hall. lia.
Qed.

Lemma check_chunk_sound shadow pos k : forall i co cs st,
  scan_frame st0 st -> 0 <= pos -> 0 <= i ->
  pos + i + Z.of_nat k <= size ->
  open_run oa co cs (pos + i) ->
  match check_chunk k addr size ua reason shadow pos i co cs st with
  | Ok res st' =>
    exists rs, st' = add_reports rs st
      /\ Forall (sound_report oa addr size ua reason) rs
      /\ open_run oa (fst res) (snd res) (pos + i + Z.of_nat k)
  | Bug => True
  | OutOfFuel => False
  end.
Proof.
  induction k as [|k IH]; intros i co cs st Hfr Hpos Hi Hk Hrun.
  - unfold check_chunk, ret. exists [].
    split; [reflexivity|]. split; [constructor|]. cbn [fst snd].
    replace (pos + i + Z.of_nat 0) with (pos + i) by lia. exact Hrun.
  - cbn [check_chunk]. unfold bind at 1. unfold gets at 1.
    replace (pos + i + Z.of_nat (S k)) with (pos + (i + 1) + Z.of_nat k)
      by lia.
    destruct (negb (nz (load8 (mem st) (shadow + i)))).
    + unfold bind. rewrite report_if_open_eq.
      set (st2 := if nz co then _ else st).
      assert (Hfr2 : scan_frame st0 st2).
      { subst st2. destruct (nz co); [now apply scan_frame_add_report|easy]. }
      specialize (IH (i + 1) 0 (-1) st2 Hfr2 Hpos ltac:(lia) ltac:(lia)).
      destruct (check_chunk k _ _ _ _ _ _ _ _ _ st2) as [res st'| |];
        [|exact I|apply IH; intros ?; congruence].
      destruct IH as (rs & -> & Hrs & Hrun'); [intros ?; congruence|].
      subst st2. destruct (nz co) eqn:Eco.
      * eexists (_ :: rs). split; [reflexivity|]. split; [|exact Hrun'].
        constructor; [|exact Hrs].
        replace (pos + i - 1) with ((pos + i) - 1) by lia.
        apply closing_report_sound; [exact Hrun|lia|exact Eco].
      * exists rs. auto.
    + unfold bind at 1. rewrite kmsan_get_metadata_pure.
      unfold bind at 1. unfold BUG_ON.
      destruct (negb (nz (meta st (u64 (addr + pos + i)) KMSAN_META_ORIGIN)));
        [exact I|].
      unfold ret at 1. unfold bind at 1. unfold gets at 1.
      assert (Enew : load32 (mem st)
                       (meta st (u64 (addr + pos + i)) KMSAN_META_ORIGIN)
                     = oa (pos + i)).
      { destruct Hfr as [Hm L]. subst oa. unfold origin_at.
        rewrite Hm, <- (meta_ext st0 st) by exact L.
        now rewrite Z.add_assoc. }
      rewrite Enew.
      assert (Eoff : s32 (u64 (pos + i)) = pos + i)
        by (unfold s32, u64; lia).
      destruct (negb (co =? oa (pos + i))) eqn:Ene.
      * unfold bind. rewrite report_if_open_eq.
        set (st2 := if nz co then _ else st).
        assert (Hfr2 : scan_frame st0 st2).
        { subst st2. destruct (nz co); [now apply scan_frame_add_report|easy]. }
        rewrite Eoff.
        specialize (IH (i + 1) (oa (pos + i)) (pos + i) st2 Hfr2 Hpos
                      ltac:(lia) ltac:(lia)).
        assert (Hrun2 : open_run oa (oa (pos + i)) (pos + i) (pos + (i + 1))).
        { intros _. split; [lia|]. intros j Hj.
          now replace j with (pos + i) by lia. }
        specialize (IH Hrun2).
        destruct (check_chunk k _ _ _ _ _ _ _ _ _ st2) as [res st'| |];
          [|exact I|exact IH].
        destruct IH as (rs & -> & Hrs & Hrun').
        subst st2. destruct (nz co) eqn:Eco.
        -- eexists (_ :: rs). split; [reflexivity|]. split; [|exact Hrun'].
           constructor; [|exact Hrs].
           replace (pos + i - 1) with ((pos + i) - 1) by lia.
           apply closing_report_sound; [exact Hrun|lia|exact Eco].
        -- exists rs. auto.
      * apply negb_false_iff, Z.eqb_eq in Ene.
        apply IH; try assumption; try lia.
        intros Hco. destruct (Hrun Hco) as [Hcs Hall].
        split; [lia|]. intros j Hj.
        destruct (Z.eq_dec j (pos + i)) as [->|Hne]; [congruence|].
        apply Hall. lia.
Qed.

Lemma add_reports_app rs rs' st :
  add_reports (rs ++ rs') st = add_reports rs' (add_reports rs st).
Proof. unfold add_reports. apply fold_left_app. Qed.

Lemma scan_frame_add_reports st rs :
  scan_frame st0 st -> scan_frame st0 (add_reports rs st).
Proof.
  intros [Hm L]. split.
  - now rewrite add_reports_mem.
  - eapply layout_eq_trans; [exact L|apply add_reports_layout].
Qed.

Lemma check_loop_sound fuel : forall pos co cs st,
  scan_frame st0 st -> 0 <= pos <= size ->
  size - pos <= Z.of_nat fuel ->
  open_run oa co cs pos ->
  match check_loop fuel addr size ua reason pos co cs st with
  | Ok res st' =>
    fst (fst res) = size
    /\ exists rs, st' = add_reports rs st
         /\ Forall (sound_report oa addr size ua reason) rs
         /\ open_run oa (snd (fst res)) (snd res) size
  | Bug => True
  | OutOfFuel => False
  end.
Proof.
  induction fuel as [|fuel IH]; intros pos co cs st Hfr Hpos Hfuel Hrun;
    cbn [check_loop]; destruct (pos <? size) eqn:Elt;
    try (apply Z.ltb_lt in Elt); try (apply Z.ltb_ge in Elt).
  - lia.
  - unfold ret. cbn [fst snd]. split; [lia|]. exists [].
    split; [reflexivity|]. split; [constructor|].
    now replace size with pos by lia.
  - remember (s32 (Z.min (u64 (size - pos))
                 (u64 (PAGE_SIZE - u64 (addr + pos) mod PAGE_SIZE))))
      as chunk eqn:Ech.
    assert (Hchunk : 1 <= chunk <= PAGE_SIZE /\ pos + chunk <= size).
    { subst chunk. unfold s32, u64, PAGE_SIZE. lia. }
    assert (Enext : u64 (pos + chunk) = pos + chunk)
      by (unfold u64, PAGE_SIZE in *; lia).
    rewrite Enext.
    unfold bind at 1. rewrite kmsan_get_metadata_pure.
    destruct (negb (nz (meta st (u64 (addr + pos)) KMSAN_META_SHADOW))).
    + unfold bind. rewrite report_if_open_eq.
      set (st2 := if nz co then _ else st).
      assert (Hfr2 : scan_frame st0 st2).
      { subst st2. destruct (nz co); [now apply scan_frame_add_report|easy]. }
      specialize (IH (pos + chunk) 0 (-1) st2 Hfr2 ltac:(lia) ltac:(lia)).
      destruct (check_loop fuel _ _ _ _ _ _ _ st2) as [res st'| |];
        [|exact I|apply IH; intros ?; congruence].
      destruct IH as (Hp & rs & -> & Hrs & Hrun'); [intros ?; congruence|].
      split; [exact Hp|].
      subst st2. destruct (nz co) eqn:Eco.
      * eexists (_ :: rs). split; [reflexivity|]. split; [|exact Hrun'].
        constructor; [|exact Hrs].
        apply closing_report_sound; [exact Hrun|lia|exact Eco].
      * exists rs. auto.
    + unfold bind at 1.
      pose proof (check_chunk_sound
        (meta st (u64 (addr + pos)) KMSAN_META_SHADOW) pos
        (Z.to_nat chunk) 0 co cs st Hfr ltac:(lia) ltac:(lia)) as Hc.
      rewrite Z2Nat.id in Hc by lia.
      replace (pos + 0) with pos in Hc by lia.
      specialize (Hc ltac:(lia) Hrun).
      destruct (check_chunk _ _ _ _ _ _ _ _ _ _ st) as [c st1| |];
        [|exact I|exact Hc].
      destruct Hc as (rs1 & -> & Hrs1 & Hrun1).
      specialize (IH (pos + chunk) (fst c) (snd c) (add_reports rs1 st)
                    (scan_frame_add_reports st rs1 Hfr)
                    ltac:(lia) ltac:(lia) Hrun1).
      destruct (check_loop fuel _ _ _ _ _ _ _ _) as [res st'| |];
        [|exact I|exact IH].
      destruct IH as (Hp & rs & -> & Hrs & Hrun').
      split; [exact Hp|].
      exists (rs1 ++ rs). split; [now rewrite add_reports_app|].
      split; [|exact Hrun']. apply Forall_app. now split.
  - unfold ret. cbn [fst snd]. split; [lia|]. exists [].
    split; [reflexivity|]. split; [constructor|].
    now replace size with pos by lia.
Qed.

End OneScan.

(** C9.  Every report event that [kmsan_internal_check_memory] emits carries
    a nonzero origin handle, and every byte inside the reported run was read
    with exactly that handle: a byte whose origin granule holds handle 0
    neither opens a run nor lies inside one.  Hence a range whose origin
    handles are all 0 yields no report at all, whatever its shadow.  (The
    scan itself either aborts on a [BUG_ON] or ends; it never runs out of
    steps.) *)
Theorem check_memory_reports_nonzero_origin st addr size ua reason :
  0 <= addr -> addr + size + PAGE_SIZE <= 2 ^ 64 -> 0 <= size < 2 ^ 31 ->
  match kmsan_internal_check_memory addr size ua reason st with
  | Ok _ st' =>
    exists rs, st' = add_reports rs st
      /\ Forall (sound_report (origin_at st addr) addr size ua reason) rs
      /\ ((forall j, 0 <= j < size -> origin_at st addr j = 0) -> rs = [])
  | Bug => True
  | OutOfFuel => False
  end.
Proof.
  intros Haddr Htop Hsize.
  assert (G : forall rs,
    Forall (sound_report (origin_at st addr) addr size ua reason) rs ->
    (forall j, 0 <= j < size -> origin_at st addr j = 0) -> rs = []).
  { intros [|r rs] Hrs Hz; [reflexivity|]. exfalso.
    apply Forall_inv in Hrs.
    destruct Hrs as (Ho & _ & _ & _ & _ & Hfl & Hl & Hall).
    apply Ho. rewrite <- (Hall (r_off_first r)) by lia. apply Hz. lia. }
  unfold kmsan_internal_check_memory.
  destruct (negb (nz size)).
  { unfold ret. exists []. split; [reflexivity|]. split; [constructor|auto]. }
  unfold bind at 1.
  destruct (kmsan_metadata_is_contiguous addr size st) as [c st1| |] eqn:Ec.
  2: exact I.
  2:{ revert Ec. apply contiguous_fuel; lia. }
  unfold bind at 1. unfold BUG_ON.
  destruct c; cbn [negb]; [|exact I].
  apply contiguous_true in Ec as [-> _]. unfold ret at 1.
  unfold bind at 1.
  pose proof (check_loop_sound st addr size ua reason ltac:(lia)
                (Z.to_nat size) 0 0 (-1) st (scan_frame_refl st)
                ltac:(lia) ltac:(lia)) as H.
  destruct (check_loop _ _ _ _ _ _ _ _ st) as [[[p co] cs] st1| |];
    [|exact I|apply H; intros ?; congruence].
  destruct H as (Hp & rs & -> & Hrs & Hrun); [intros ?; congruence|].
  cbn [fst snd] in *. subst p.
  unfold bind at 1. unfold BUG_ON. rewrite Z.eqb_refl. cbn [negb].
  unfold ret at 1. rewrite report_if_open_eq.
  destruct (nz co) eqn:Eco.
  - eexists (rs ++ [_]).
    split; [now rewrite add_reports_app|].
    assert (Hall : Forall (sound_report (origin_at st addr) addr size ua reason)
              (rs ++ [mk_report co addr size cs (s32 (u64 (size - 1)))
                        ua reason])).
    { apply Forall_app. split; [exact Hrs|]. constructor; [|constructor].
      apply closing_report_sound; [lia|exact Hrun|lia|exact Eco]. }
    split; [exact Hall|]. intros Hz. now apply G.
  - exists rs. split; [reflexivity|]. split; [exact Hrs|]. intros Hz. now apply G.
Qed.

End Scanner.

(** ** The scanner on clean ranges and on uniformly poisoned ranges *)

Section ExactScans.
Context {PF : Platform} {SD : StackDepot}.
Variables (addr size ua reason : Z).

Lemma check_chunk_clean shadow pos k : forall i cs st,
  (forall t, i <= t < i + Z.of_nat k -> load8 (mem st) (shadow + t) = 0) ->
  exists cs',
    check_chunk k addr size ua reason shadow pos i 0 cs st = Ok (0, cs') st.
Proof.
  induction k as [|k IH]; intros i cs st Hz.
  - exists cs. reflexivity.
  - cbn [check_chunk]. unfold bind at 1. unfold gets at 1.
    rewrite Hz by lia. cbn [nz Z.eqb negb].
    unfold bind. rewrite report_if_open_eq. cbn [nz Z.eqb negb].
    apply IH. intros t Ht. apply Hz. lia.
Qed.

Lemma check_loop_clean sh fuel : forall pos cs st,
  0 <= pos <= size -> size < 2 ^ 64 ->
  size - pos <= Z.of_nat fuel ->
  (forall j, pos <= j < size ->
     meta st (u64 (addr + j)) KMSAN_META_SHADOW = sh + j) ->
  (forall j, pos <= j < size -> load8 (mem st) (sh + j) = 0) ->
  exists cs',
    check_loop fuel addr size ua reason pos 0 cs st = Ok (size, 0, cs') st.
Proof.
  induction fuel as [|fuel IH]; intros pos cs st Hpos Hsz Hfuel Hm Hz;
    cbn [check_loop]; destruct (pos <? size) eqn:Elt;
    try (apply Z.ltb_lt in Elt); try (apply Z.ltb_ge in Elt).
  - lia.
  - exists cs. unfold ret. do 3 f_equal. lia.
  - remember (s32 (Z.min (u64 (size - pos))
                 (u64 (PAGE_SIZE - u64 (addr + pos) mod PAGE_SIZE))))
      as chunk eqn:Ech.
    assert (Hchunk : 1 <= chunk <= PAGE_SIZE /\ pos + chunk <= size).
    { subst chunk. unfold s32, u64, PAGE_SIZE. lia. }
    assert (Enext : u64 (pos + chunk) = pos + chunk)
      by (unfold u64, PAGE_SIZE in *; lia).
    rewrite Enext.
    assert (Hrest : forall cs0, exists cs',
              check_loop fuel addr size ua reason (pos + chunk) 0 cs0 st
              = Ok (size, 0, cs') st).
    { intros cs0. apply IH; try lia.
      - intros j Hj. apply Hm. lia.
      - intros j Hj. apply Hz. lia. }
    unfold bind at 1. rewrite kmsan_get_metadata_pure.
    destruct (negb (nz (meta st (u64 (addr + pos)) KMSAN_META_SHADOW))).
    + unfold bind. rewrite report_if_open_eq. cbn [nz Z.eqb negb].
      apply Hrest.
    + rewrite Hm by lia. unfold bind at 1.
      destruct (check_chunk_clean (sh + pos) pos (Z.to_nat chunk) 0 cs st)
        as [cs1 ->].
      { intros t Ht. replace (sh + pos + t) with (sh + (pos + t)) by lia.
        apply Hz. lia. }
      cbn [fst snd]. apply Hrest.
  - exists cs. unfold ret. do 3 f_equal. lia.
Qed.

Lemma check_chunk_uniform h shadow pos k : h <> 0 -> forall i co cs st,
  0 <= pos -> 0 <= i -> pos + i + Z.of_nat k < 2 ^ 31 ->
  (forall t, i <= t < i + Z.of_nat k ->
     load8 (mem st) (shadow + t) <> 0
     /\ meta st (u64 (addr + pos + t)) KMSAN_META_ORIGIN <> 0
     /\ load32 (mem st) (meta st (u64 (addr + pos + t)) KMSAN_META_ORIGIN)
        = h) ->
  uniform_cursor h co cs (pos + i) ->
  exists co' cs',
    check_chunk k addr size ua reason shadow pos i co cs st
    = Ok (co', cs') st
    /\ uniform_cursor h co' cs' (pos + i + Z.of_nat k).
Proof.
  intros Hh. induction k as [|k IH]; intros i co cs st Hpos Hi Hk Hall Hcur.
  - exists co, cs. split; [reflexivity|].
    now replace (pos + i + Z.of_nat 0) with (pos + i) by lia.
  - cbn [check_chunk]. unfold bind at 1. unfold gets at 1.
    destruct (Hall i ltac:(lia)) as (Hsh & Hog & Hld).
    apply nz_true in Hsh. rewrite Hsh. cbn [negb].
    unfold bind at 1. rewrite kmsan_get_metadata_pure.
    unfold bind at 1. unfold BUG_ON.
    apply nz_true in Hog. rewrite Hog. cbn [negb]. unfold ret at 1.
    unfold bind at 1. unfold gets at 1. rewrite Hld.
    replace (pos + i + Z.of_nat (S k)) with (pos + (i + 1) + Z.of_nat k)
      by lia.
    assert (Hall' : forall t, i + 1 <= t < i + 1 + Z.of_nat k ->
       load8 (mem st) (shadow + t) <> 0
       /\ meta st (u64 (addr + pos + t)) KMSAN_META_ORIGIN <> 0
       /\ load32 (mem st) (meta st (u64 (addr + pos + t)) KMSAN_META_ORIGIN)
          = h).
    { intros t Ht. apply Hall. lia. }
    destruct Hcur as [[-> Hp]|[-> ->]].
    + replace (negb (0 =? h)) with true
        by (symmetry; apply negb_true_iff, Z.eqb_neq; congruence).
      unfold bind. rewrite report_if_open_eq. cbn [nz Z.eqb negb].
      rewrite Hp. apply IH; try lia; try assumption.
      right. split; reflexivity.
    + rewrite Z.eqb_refl. cbn [negb].
      apply IH; try lia; try assumption. right. split; reflexivity.
Qed.

Lemma check_loop_uniform h sh fuel : h <> 0 -> forall pos co cs st,
  0 <= pos <= size -> size < 2 ^ 31 -> 0 < sh ->
  size - pos <= Z.of_nat fuel ->
  (forall j, pos <= j < size ->
     meta st (u64 (addr + j)) KMSAN_META_SHADOW = sh + j
     /\ load8 (mem st) (sh + j) <> 0
     /\ meta st (u64 (addr + j)) KMSAN_META_ORIGIN <> 0
     /\ load32 (mem st) (meta st (u64 (addr + j)) KMSAN_META_ORIGIN) = h) ->
  uniform_cursor h co cs pos ->
  exists co' cs',
    check_loop fuel addr size ua reason pos co cs st
    = Ok (size, co', cs') st
    /\ uniform_cursor h co' cs' size.
Proof.
  intros Hh.
  induction fuel as [|fuel IH]; intros pos co cs st Hpos Hsz Hsh Hfuel Hall Hcur;
    cbn [check_loop]; destruct (pos <? size) eqn:Elt;
    try (apply Z.ltb_lt in Elt); try (apply Z.ltb_ge in Elt).
  - lia.
  - exists co, cs. replace size with pos by lia. now split.
  - remember (s32 (Z.min (u64 (size - pos))
                 (u64 (PAGE_SIZE - u64 (addr + pos) mod PAGE_SIZE))))
      as chunk eqn:Ech.
    assert (Hchunk : 1 <= chunk <= PAGE_SIZE /\ pos + chunk <= size).
    { subst chunk. unfold s32, u64, PAGE_SIZE. lia. }
    assert (Enext : u64 (pos + chunk) = pos + chunk)
      by (unfold u64, PAGE_SIZE in *; lia).
    rewrite Enext.
    unfold bind at 1. rewrite kmsan_get_metadata_pure.
    destruct (Hall pos ltac:(lia)) as (Hm & _).
    rewrite Hm.
    replace (negb (nz (sh + pos))) with false
      by (symmetry; apply negb_false_iff, nz_true; lia).
    unfold bind at 1.
    destruct (check_chunk_uniform h (sh + pos) pos (Z.to_nat chunk) Hh
                0 co cs st) as (co1 & cs1 & -> & Hcur1); try lia.
    { intros t Ht. destruct (Hall (pos + t) ltac:(lia)) as (_ & A & B & C).
      rewrite <- !Z.add_assoc. auto. }
    { now replace (pos + 0) with pos by lia. }
    cbn [fst snd].
    apply IH; try lia.
    + intros j Hj. apply Hall. lia.
    + now replace (pos + 0 + Z.of_nat (Z.to_nat chunk)) with (pos + chunk)
        in Hcur1 by lia.
  - exists co, cs. replace size with pos by lia. now split.
Qed.

End ExactScans.

(** ** Poisoning primitives on a tracked range *)

Section Poisoning.
Context {PF : Platform} {SD : StackDepot}.

Lemma meta_origin_aligned st a :
  meta st (a - a mod KMSAN_ORIGIN_SIZE) KMSAN_META_ORIGIN
  = meta st a KMSAN_META_ORIGIN.
Proof.
  assert (E : (if KMSAN_META_ORIGIN
                  && negb (IS_ALIGNED (a - a mod KMSAN_ORIGIN_SIZE)
                             KMSAN_ORIGIN_SIZE)
               then (a - a mod KMSAN_ORIGIN_SIZE)
                    - (a - a mod KMSAN_ORIGIN_SIZE) mod KMSAN_ORIGIN_SIZE
               else a - a mod KMSAN_ORIGIN_SIZE)
              = (if KMSAN_META_ORIGIN
                    && negb (IS_ALIGNED a KMSAN_ORIGIN_SIZE)
                 then a - a mod KMSAN_ORIGIN_SIZE else a)).
  { unfold IS_ALIGNED, KMSAN_ORIGIN_SIZE, KMSAN_META_ORIGIN. cbn [andb].
    destruct (Z.eqb_spec ((a - a mod 4) mod 4) 0);
      destruct (Z.eqb_spec (a mod 4) 0); cbn [negb]; lia. }
  unfold meta, kmsan_get_metadata. cbv zeta. rewrite E. reflexivity.
Qed.

Lemma save_stack_eq gfp eb st :
  kmsan_save_stack_with_flags gfp eb st
  = let r := stack_depot_save_extra
               (filter_irq_stacks (firstn KMSAN_STACK_DEPTH (call_stack st)))
               eb (Z.land gfp (Z.lnot __GFP_DIRECT_RECLAIM)) (depot_st st) in
    Ok (fst r) (set_depot (snd r) st).
Proof. reflexivity. Qed.

Lemma save_stack_frame gfp eb st h st' :
  kmsan_save_stack_with_flags gfp eb st = Ok h st' ->
  0 <= h < 2 ^ 32 /\ mem st' = mem st /\ layout_eq st st'
  /\ reports st' = reports st
  /\ kmsan_in_runtime_ctr st' = kmsan_in_runtime_ctr st
  /\ kmsan_ready st' = kmsan_ready st.
Proof.
  rewrite save_stack_eq. cbv zeta. intros [= <- <-].
  split; [apply depot_handle_u32|]. repeat split.
Qed.

(** [kmsan_internal_set_shadow_origin] on a tracked location: the shadow
    bytes of the range are filled, then every origin slot the range
    touches. *)
Lemma set_shadow_origin_tracked st a n b origin checked sh og :
  0 <= n -> n + 3 < 2 ^ 64 ->
  kmsan_metadata_is_contiguous a n st = Ok true st ->
  meta st a KMSAN_META_SHADOW = sh -> sh <> 0 ->
  meta st a KMSAN_META_ORIGIN = og -> og <> 0 ->
  kmsan_internal_set_shadow_origin a n b origin checked st
  = Ok tt (set_mem
      (set_origin_slots (Z.to_nat (filled_slots a n))
         og 0 (u32 origin) (memset (mem st) sh b n)) st).
Proof.
  intros Hn Hn64 Hgate Hsh Hsh0 Hog Hog0.
  unfold kmsan_internal_set_shadow_origin, filled_slots.
  unfold bind at 1. rewrite Hgate.
  unfold bind at 1. unfold BUG_ON at 1. cbn [negb]. unfold ret at 1.
  unfold bind at 1. rewrite kmsan_get_metadata_pure, Hsh.
  apply nz_true in Hsh0. rewrite Hsh0. cbn [negb].
  unfold bind at 1. unfold modify at 1.
  apply nz_true in Hog0.
  destruct (negb (IS_ALIGNED a KMSAN_ORIGIN_SIZE)) eqn:Eal.
  - unfold bind at 1. rewrite kmsan_get_metadata_pure.
    rewrite <- (meta_ext st) by apply layout_eq_set_mem.
    rewrite meta_origin_aligned, Hog.
    unfold bind at 1. unfold BUG_ON at 1. rewrite Hog0. cbn [negb].
    unfold ret at 1. unfold modify.
    replace (u64 (n + a mod KMSAN_ORIGIN_SIZE))
      with (n + a mod KMSAN_ORIGIN_SIZE)
      by (unfold u64, KMSAN_ORIGIN_SIZE; lia).
    reflexivity.
  - unfold bind at 1. rewrite kmsan_get_metadata_pure.
    rewrite <- (meta_ext st) by apply layout_eq_set_mem.
    rewrite Hog.
    unfold bind at 1. unfold BUG_ON at 1. rewrite Hog0. cbn [negb].
    unfold ret at 1. unfold modify.
    apply negb_false_iff in Eal. unfold IS_ALIGNED in Eal.
    apply Z.eqb_eq in Eal. rewrite Eal, Z.add_0_r.
    reflexivity.
Qed.


(** The origin slots touched by [n] bytes at [a]. *)
Lemma origin_span_bound a n :
  0 <= n -> n + 6 < 2 ^ 64 ->
  let K := ALIGN (n + a mod KMSAN_ORIGIN_SIZE) KMSAN_ORIGIN_SIZE
           / KMSAN_ORIGIN_SIZE in
  0 <= K /\ KMSAN_ORIGIN_SIZE * K <= n + 6
  /\ forall j, 0 <= j < n ->
       0 <= (a + j) / KMSAN_ORIGIN_SIZE - a / KMSAN_ORIGIN_SIZE < K.
Proof.
  intros Hn Hn64. unfold ALIGN, ALIGN_DOWN, u64, KMSAN_ORIGIN_SIZE.
  cbv zeta. split; [lia|]. split; [lia|]. intros j Hj. lia.
Qed.

(** The memory after filling shadow and origin of a tracked range whose
    shadow bytes and origin slots do not overlap. *)
Lemma filled_memory m a n b v sh og :
  0 <= n -> n + 6 < 2 ^ 64 -> 0 <= v < 2 ^ 32 ->
  metadata_apart a n sh og ->
  let m' := set_origin_slots (Z.to_nat (filled_slots a n)) og 0 v
              (memset m sh b n) in
  (forall j, 0 <= j < n -> load8 m' (sh + j) = b mod 256)
  /\ (forall j, 0 <= j < n ->
        load32 m' (og + KMSAN_ORIGIN_SIZE
                        * ((a + j) / KMSAN_ORIGIN_SIZE
                           - a / KMSAN_ORIGIN_SIZE)) = v)
  /\ (forall x, (x < sh \/ sh + n <= x) ->
                (x < og \/ og + KMSAN_ORIGIN_SIZE * filled_slots a n <= x) ->
                load8 m' x = load8 m x).
Proof.
  intros Hn Hn64 Hv Hdis m'.
  destruct (origin_span_bound a n Hn Hn64) as (HK0 & HK & Hslot).
  fold (filled_slots a n) in HK0, HK, Hslot.
  unfold metadata_apart in Hdis.
  set (K := filled_slots a n) in *. unfold KMSAN_ORIGIN_SIZE in *.
  repeat split.
  - intros j Hj. subst m'.
    rewrite set_origin_slots_out by lia.
    apply load8_memset_in. lia.
  - intros j Hj. subst m'.
    apply set_origin_slots_in; try lia. specialize (Hslot j Hj). lia.
  - intros x Hx1 Hx2. subst m'.
    rewrite set_origin_slots_out by lia.
    unfold load8. now rewrite memset_out.
Qed.

Lemma u32_small v : 0 <= v < 2 ^ 32 -> u32 v = v.
Proof. intros H. unfold u32. apply Z.mod_small. exact H. Qed.

(** Poisoning a tracked range: shadow all ones, every origin slot of the
    range holds the handle the depot issued for the captured stack. *)
Lemma poison_tracked st a n gfp pf sh og h st_d :
  0 <= n -> n + 3 < 2 ^ 64 ->
  kmsan_metadata_is_contiguous a n st = Ok true st ->
  meta st a KMSAN_META_SHADOW = sh -> sh <> 0 ->
  meta st a KMSAN_META_ORIGIN = og -> og <> 0 ->
  kmsan_save_stack_with_flags gfp
    (kmsan_extra_bits 0 (nz (Z.land pf KMSAN_POISON_FREE))) st = Ok h st_d ->
  kmsan_internal_poison_memory a n gfp pf st
  = Ok tt (set_mem
      (set_origin_slots (Z.to_nat (filled_slots a n))
         og 0 h (memset (mem st) sh (-1) n)) st_d).
Proof.
  intros Hn Hn64 Hgate Hsh Hsh0 Hog Hog0 Hsave.
  unfold kmsan_internal_poison_memory. unfold bind. rewrite Hsave.
  destruct (save_stack_frame _ _ _ _ _ Hsave) as (Hh & Hm & L & _).
  rewrite (set_shadow_origin_tracked st_d a n (-1) h _ sh og); try assumption.
  - now rewrite Hm, u32_small.
  - apply (contiguous_true a n st st Hgate). exact L.
  - now rewrite <- (meta_ext st st_d).
  - now rewrite <- (meta_ext st st_d).
Qed.

End Poisoning.

(** ** Poison, copy and scan together *)

Section RoundTrips.
Context {PF : Platform} {SD : StackDepot}.

Lemma layout_eq_sym a b : layout_eq a b -> layout_eq b a.
Proof. intros (A1 & A2 & A3). now repeat split. Qed.

(** Poisoning [n] tracked bytes and scanning them yields one report, the
    whole range, under the handle the depot issued, if that is not [0]. *)
Lemma poison_then_check st x n gfp pf ua reason sh og h st_d :
  0 <= x -> 0 < n < 2 ^ 31 -> x + n <= 2 ^ 64 ->
  tracked_range st x n sh og ->
  metadata_apart x n sh og ->
  kmsan_metadata_is_contiguous x n st = Ok true st ->
  kmsan_save_stack_with_flags gfp
    (kmsan_extra_bits 0 (nz (Z.land pf KMSAN_POISON_FREE))) st = Ok h st_d ->
  h <> 0 ->
  exists st1,
    kmsan_internal_poison_memory x n gfp pf st = Ok tt st1
    /\ kmsan_internal_check_memory x n ua reason st1
       = Ok tt (add_report (mk_report h x n 0 (n - 1) ua reason) st1).
Proof.
  intros Hx Hn Hxn (Hsh0 & Hog0 & Hsh & Hog) Hdis Hgate Hsave Hh.
  destruct (save_stack_frame _ _ _ _ _ Hsave) as (Hhr & Hm & L & _).
  pose proof (Hsh 0 ltac:(lia)) as Hsh_x. pose proof (Hog 0 ltac:(lia)) as Hog_x.
  rewrite Z.add_0_r in Hsh_x, Hog_x.
  replace (og + KMSAN_ORIGIN_SIZE * (x / KMSAN_ORIGIN_SIZE
                                    - x / KMSAN_ORIGIN_SIZE))
    with og in Hog_x by lia.
  replace (sh + 0) with sh in Hsh_x by lia.
  eexists. split.
  { apply (poison_tracked st x n gfp pf sh og h st_d);
      try assumption; unfold PAGE_SIZE in *; lia. }
  set (K := filled_slots x n).
  set (st1 := set_mem _ st_d).
  assert (L1 : layout_eq st st1).
  { eapply layout_eq_trans; [exact L|apply layout_eq_set_mem]. }
  destruct (filled_memory (mem st) x n (-1) h sh og) as (F1 & F2 & _);
    try lia; try exact Hdis.
  destruct (origin_span_bound x n) as (_ & _ & Hslot); try lia.
  unfold kmsan_internal_check_memory.
  replace (negb (nz n)) with false
    by (symmetry; apply negb_false_iff, nz_true; lia).
  unfold bind at 1.
  rewrite (proj2 (contiguous_true x n st st Hgate) st1 L1).
  unfold bind at 1. unfold BUG_ON at 1. cbn [negb]. unfold ret at 1.
  unfold bind at 1.
  destruct (check_loop_uniform x n ua reason h sh (Z.to_nat n) Hh 0 0 (-1) st1)
    as (co & cs & -> & Hcur); try lia.
  { intros j Hj.
    assert (Eu : u64 (x + j) = x + j) by (unfold u64; lia).
    rewrite Eu, <- !(meta_ext st st1) by exact L1.
    rewrite Hsh, Hog by lia.
    specialize (Hslot j Hj). unfold KMSAN_ORIGIN_SIZE in *.
    split; [reflexivity|]. split.
    { subst st1. cbn [mem set_mem]. fold K. rewrite F1 by lia. discriminate. }
    split; [lia|].
    subst st1. cbn [mem set_mem]. fold K. now apply F2. }
  { left. split; reflexivity. }
  destruct Hcur as [[_ Hn0]|[-> ->]]; [lia|].
  unfold bind at 1. unfold BUG_ON at 1. rewrite Z.eqb_refl. cbn [negb].
  unfold ret at 1. rewrite report_if_open_eq.
  replace (nz h) with true by (symmetry; now apply nz_true).
  replace (s32 (u64 (n - 1))) with (n - 1) by (unfold s32, u64; lia).
  reflexivity.
Qed.

(** C7 (amended).  Round trip: for a tracked, metadata-backed address [x]
    whose eight bytes have consecutive shadow bytes and origin slots that do
    not overlap, [poison(x, 8)] followed by [check(x, 8, ...)] emits exactly
    one report, with run offsets [0,7] and the origin handle that the
    provenance store issued for the captured stack, provided that handle is
    nonzero, that is, provided the store could save the record. *)
Theorem poison_check_roundtrip st x gfp pf ua reason sh og h st_d :
  0 <= x -> x + 8 <= 2 ^ 64 ->
  tracked_range st x 8 sh og ->
  sh + 8 <= og \/ og + 12 <= sh ->
  kmsan_save_stack_with_flags gfp
    (kmsan_extra_bits 0 (nz (Z.land pf KMSAN_POISON_FREE))) st = Ok h st_d ->
  h <> 0 ->
  exists st1,
    kmsan_internal_poison_memory x 8 gfp pf st = Ok tt st1
    /\ kmsan_internal_check_memory x 8 ua reason st1
       = Ok tt (add_report (mk_report h x 8 0 7 ua reason) st1).
Proof.
  intros Hx Hx8 Htr Hdis Hsave Hh.
  apply (poison_then_check st x 8 gfp pf ua reason sh og h st_d);
    try assumption; try lia.
  { unfold metadata_apart, filled_slots, ALIGN, ALIGN_DOWN, u64,
      KMSAN_ORIGIN_SIZE. clear - Hdis. lia. }
  apply contiguous_small; try lia; [unfold PAGE_SIZE; lia|].
  left. destruct Htr as (Hsh0 & _ & Hsh & _).
  rewrite <- (Z.add_0_r x), Hsh by lia. lia.
Qed.

(** A copy from an untracked source zero-fills the destination shadow. *)
Lemma memmove_untracked_src st dst src n sh :
  meta st dst KMSAN_META_SHADOW = sh -> sh <> 0 ->
  meta st src KMSAN_META_SHADOW = 0 ->
  kmsan_metadata_is_contiguous dst n st = Ok true st ->
  kmsan_memmove_metadata dst src n st
  = Ok tt (set_mem (memset (mem st) sh 0 n) st).
Proof.
  intros Hsh Hsh0 Hsrc Hgate. unfold kmsan_memmove_metadata.
  unfold bind at 1. rewrite kmsan_get_metadata_pure, Hsh.
  apply nz_true in Hsh0. rewrite Hsh0. cbn [negb].
  unfold bind at 1. rewrite Hgate.
  unfold bind at 1. unfold BUG_ON at 1. cbn [negb]. unfold ret at 1.
  unfold bind at 1. rewrite kmsan_get_metadata_pure, Hsrc.
  reflexivity.
Qed.

(** C6 (amended).  For every [moveMetadata(dst, src, n)] where the
    destination shadow resolves for every byte of the range, consecutively
    from the shadow of [dst], and the range passes the contiguity gate
    (I1), but the source shadow resolves to none, the destination shadow is
    zero-filled for [n] bytes, no other byte of memory (in particular no
    origin slot) is touched and nothing else changes, and a following
    check over [dst, dst+n) emits no report. *)
Theorem memmove_from_untracked_is_clean st dst src n sh ua reason :
  0 < dst -> 0 <= n -> dst + n <= 2 ^ 64 ->
  meta st dst KMSAN_META_SHADOW = sh -> sh <> 0 ->
  (forall j, 0 <= j < n -> meta st (dst + j) KMSAN_META_SHADOW = sh + j) ->
  meta st src KMSAN_META_SHADOW = 0 ->
  kmsan_metadata_is_contiguous dst n st = Ok true st ->
  exists st1,
    kmsan_memmove_metadata dst src n st = Ok tt st1
    /\ (forall j, 0 <= j < n -> load8 (mem st1) (sh + j) = 0)
    /\ (forall a, a < sh \/ sh + n <= a -> mem st1 a = mem st a)
    /\ st1 = set_mem (mem st1) st
    /\ kmsan_internal_check_memory dst n ua reason st1 = Ok tt st1.
Proof.
  intros Hdst Hn Hdn Hsh Hsh0 Hrange Hsrc Hgate.
  eexists. split; [now apply (memmove_untracked_src st dst src n sh)|].
  set (st1 := set_mem _ st).
  split; [|split; [|split]].
  - intros j Hj. subst st1. cbn [mem set_mem].
    rewrite load8_memset_in by lia. reflexivity.
  - intros a Ha. subst st1. cbn [mem set_mem]. now apply memset_out.
  - reflexivity.
  - unfold kmsan_internal_check_memory.
    destruct (negb (nz n)) eqn:En; [reflexivity|].
    apply negb_false_iff, nz_true in En.
    unfold bind at 1.
    rewrite (proj2 (contiguous_true dst n st st Hgate) st1
               (layout_eq_set_mem _ st)).
    unfold bind at 1. unfold BUG_ON at 1. cbn [negb]. unfold ret at 1.
    unfold bind at 1.
    destruct (check_loop_clean dst n ua reason sh (Z.to_nat n) 0 (-1) st1)
      as (cs & ->); try lia.
    { intros j Hj. replace (u64 (dst + j)) with (dst + j)
        by (unfold u64; lia).
      rewrite <- (meta_ext st st1) by apply layout_eq_set_mem.
      apply Hrange. lia. }
    { intros j Hj. subst st1. cbn [mem set_mem].
      rewrite load8_memset_in by lia. reflexivity. }
    unfold bind at 1. unfold BUG_ON at 1. rewrite Z.eqb_refl. cbn [negb].
    unfold ret at 1. rewrite report_if_open_eq. reflexivity.
Qed.

End RoundTrips.

(** ** The resolver, the access layer and the chain manager *)

Section ResolverAndChain.
Context {PF : Platform} {SD : StackDepot}.

Lemma gtb_false a b : a <= b -> (a >? b) = false.
Proof. intros H. rewrite Z.gtb_ltb. now apply Z.ltb_ge. Qed.

Lemma gtb_true a b : b < a -> (a >? b) = true.
Proof. intros H. rewrite Z.gtb_ltb. now apply Z.ltb_lt. Qed.

Lemma shadow_origin_ptr_not_ready st address size store :
  size <= PAGE_SIZE ->
  kmsan_ready st = false \/ kmsan_in_runtime_ctr st <> 0 ->
  kmsan_get_shadow_origin_ptr address size store st
  = Ok (dummy_page store, dummy_page store) st.
Proof.
  intros Hsize Hguard. unfold kmsan_get_shadow_origin_ptr.
  unfold bind at 1. unfold BUG_ON at 1.
  rewrite gtb_false by exact Hsize.
  unfold ret at 1. unfold bind at 1. unfold gets at 1.
  unfold bind at 1. unfold kmsan_in_runtime, gets.
  replace (negb (kmsan_ready st) || nz (kmsan_in_runtime_ctr st)) with true.
  - unfold dummy_page. now destruct store.
  - symmetry. destruct Hguard as [-> | H]; [reflexivity|].
    apply nz_true in H. rewrite H. apply orb_true_r.
Qed.


(** C2 (amended).  For every address and metadata kind, the resolver
    [kmsan_get_metadata] is side-effect-free and never aborts, and its
    result does not depend on the readiness flag or on the re-entrancy
    guard: it is the same pointer whatever their values, the state
    entering through the current CPU and the page side-table only.
    Answering with no metadata when the subsystem is not ready or the
    context is inside the runtime is done by its caller
    [kmsan_get_shadow_origin_ptr], which then returns the dummy page of
    the access kind, for every access of at most one page, without
    changing the state. *)
Theorem resolver_pure_and_guard_independent st a is_origin ready guard :
  kmsan_get_metadata a is_origin st = Ok (meta st a is_origin) st
  /\ kmsan_get_metadata a is_origin (set_ready ready (set_in_runtime guard st))
     = Ok (meta st a is_origin) (set_ready ready (set_in_runtime guard st))
  /\ (forall st',
        smp_processor_id st' = smp_processor_id st ->
        kmsan_shadow st' = kmsan_shadow st ->
        kmsan_origin st' = kmsan_origin st ->
        kmsan_get_metadata a is_origin st' = Ok (meta st a is_origin) st')
  /\ (forall size store,
        size <= PAGE_SIZE -> ready = false \/ guard <> 0 ->
        kmsan_get_shadow_origin_ptr a size store
          (set_ready ready (set_in_runtime guard st))
        = Ok (dummy_page store, dummy_page store)
             (set_ready ready (set_in_runtime guard st))).
Proof.
  split; [apply kmsan_get_metadata_pure|]. split; [|split].
  - rewrite kmsan_get_metadata_pure. f_equal.
    symmetry. apply meta_ext. now repeat split.
  - intros st' Hc Hs Ho. rewrite kmsan_get_metadata_pure. f_equal.
    symmetry. apply meta_ext. repeat split; congruence.
  - intros size store Hsize Hguard.
    apply shadow_origin_ptr_not_ready; [exact Hsize|].
    destruct Hguard as [->|Hg]; [now left|now right].
Qed.


Lemma extra_bits_roundtrip d u :
  0 <= d <= MAX_CHAIN_DEPTH ->
  0 <= kmsan_extra_bits d u < 2 ^ STACK_DEPOT_EXTRA_BITS
  /\ s32 (kmsan_depth_from_eb (kmsan_extra_bits d u)) = d
  /\ kmsan_uaf_from_eb (kmsan_extra_bits d u) = u.
Proof.
  unfold MAX_CHAIN_DEPTH. intros Hd.
  assert (H : d = 0 \/ d = 1 \/ d = 2 \/ d = 3 \/ d = 4 \/ d = 5 \/ d = 6
              \/ d = 7) by lia.
  repeat (destruct H as [-> | H]); try subst d; destruct u;
    vm_compute; intuition congruence.
Qed.

Lemma origin_depth_range id : 0 <= origin_depth id < 16.
Proof.
  unfold origin_depth, kmsan_depth_from_eb.
  pose proof (depot_extra_bits_range id) as H.
  unfold STACK_DEPOT_EXTRA_BITS in H.
  rewrite Z.shiftr_div_pow2 by lia. unfold s32. lia.
Qed.

(** One chaining step, case by case. *)
Lemma chain_origin_cases id st :
  exists h st',
    kmsan_internal_chain_origin id st = Ok h st'
    /\ ((id = 0 /\ h = 0 /\ st' = st)
        \/ (id <> 0 /\ MAX_CHAIN_DEPTH <= origin_depth id /\ h = id)
        \/ (id <> 0 /\ origin_depth id < MAX_CHAIN_DEPTH
            /\ (h = 0
                \/ (h <> 0 /\ origin_depth h = origin_depth id + 1
                    /\ origin_uaf h = origin_uaf id)))).
Proof.
  unfold kmsan_internal_chain_origin.
  destruct (nz id) eqn:Eid; cbn [negb].
  2:{ apply nz_false in Eid. subst id. exists 0, st. split; [reflexivity|].
      left. auto. }
  apply nz_true in Eid. fold (origin_depth id). fold (origin_uaf id).
  destruct (origin_depth id >=? MAX_CHAIN_DEPTH) eqn:Ed.
  - apply Z.geb_le in Ed.
    unfold bind at 1. unfold modify at 1. unfold bind at 1. unfold gets at 1.
    unfold bind at 1. unfold when.
    destruct (Z.rem _ _ =? 0); unfold modify, ret; eexists _, _;
      (split; [reflexivity|]); right; left; auto.
  - rewrite Z.geb_leb in Ed. apply Z.leb_gt in Ed.
    pose proof (origin_depth_range id) as Hr.
    destruct (extra_bits_roundtrip (origin_depth id + 1) (origin_uaf id))
      as (Heb & Hdep & Huaf); [lia|].
    unfold bind. rewrite save_stack_eq. cbv zeta. unfold depot_save.
    match goal with
    | |- context [stack_depot_save_extra ?es ?eb GFP_ATOMIC ?d] =>
      pose proof (depot_extra_bits es eb GFP_ATOMIC d Heb) as Hlaw;
      set (R := stack_depot_save_extra es eb GFP_ATOMIC d) in *
    end.
    eexists _, _. split; [reflexivity|]. right. right.
    split; [exact Eid|]. split; [exact Ed|].
    destruct (Z.eq_dec (fst R) 0) as [E0|E0]; [now left|right].
    split; [exact E0|].
    unfold origin_depth at 1, origin_uaf at 1.
    rewrite (Hlaw E0). now split.
Qed.

(** One chaining step, with the answer of the store. *)
Lemma chain_origin_exact id st :
  exists h st',
    kmsan_internal_chain_origin id st = Ok h st'
    /\ ((id = 0 /\ h = 0 /\ st' = st)
        \/ (id <> 0 /\ MAX_CHAIN_DEPTH <= origin_depth id /\ h = id)
        \/ (id <> 0 /\ origin_depth id < MAX_CHAIN_DEPTH
            /\ h = fst (chain_record_save id st)
            /\ depot_st st' = snd (chain_record_save id st)
            /\ (h <> 0 -> origin_depth h = origin_depth id + 1
                          /\ origin_uaf h = origin_uaf id))).
Proof.
  unfold kmsan_internal_chain_origin.
  destruct (nz id) eqn:Eid; cbn [negb].
  2:{ apply nz_false in Eid. subst id. exists 0, st. split; [reflexivity|].
      left. auto. }
  apply nz_true in Eid. fold (origin_depth id). fold (origin_uaf id).
  destruct (origin_depth id >=? MAX_CHAIN_DEPTH) eqn:Ed.
  - apply Z.geb_le in Ed.
    unfold bind at 1. unfold modify at 1. unfold bind at 1. unfold gets at 1.
    unfold bind at 1. unfold when.
    destruct (Z.rem _ _ =? 0); unfold modify, ret; eexists _, _;
      (split; [reflexivity|]); right; left; auto.
  - rewrite Z.geb_leb in Ed. apply Z.leb_gt in Ed.
    pose proof (origin_depth_range id) as Hr.
    destruct (extra_bits_roundtrip (origin_depth id + 1) (origin_uaf id))
      as (Heb & Hdep & Huaf); [lia|].
    unfold bind. rewrite save_stack_eq. cbv zeta. unfold depot_save.
    cbn [depot_st set_depot fst snd].
    eexists _, _. split; [reflexivity|]. right. right.
    split; [exact Eid|]. split; [exact Ed|].
    split; [reflexivity|]. split; [reflexivity|].
    intros E0. unfold chain_record_save in *. cbv zeta in *.
    pose proof (depot_extra_bits _ _ _ _ Heb E0) as Hlaw.
    set (R := stack_depot_save_extra (_ :: _) _ GFP_ATOMIC _) in *.
    clearbody R.
    split; [unfold origin_depth at 1|unfold origin_uaf at 1];
      rewrite Hlaw; assumption.
Qed.

Lemma chain_times_zero k : forall st, chain_times k 0 st = Ok 0 st.
Proof.
  induction k as [|k IH]; intros st; [reflexivity|].
  cbn [chain_times]. unfold bind.
  unfold kmsan_internal_chain_origin at 1. cbn [nz Z.eqb negb].
  unfold ret. apply IH.
Qed.

Lemma chain_times_exact k : forall id st d,
  id <> 0 -> origin_depth id = d -> 0 <= d <= MAX_CHAIN_DEPTH ->
  exists h st',
    chain_times k id st = Ok h st'
    /\ (chain_save_failed k id st = true -> h = 0)
    /\ (chain_save_failed k id st = false ->
        h <> 0
        /\ origin_depth h = Z.min (d + Z.of_nat k) MAX_CHAIN_DEPTH
        /\ origin_uaf h = origin_uaf id).
Proof.
  induction k as [|k IH]; intros id st d Hid Hd Hdr.
  - exists id, st. split; [reflexivity|]. split; [discriminate|].
    intros _. split; [exact Hid|]. split; [lia|reflexivity].
  - cbn [chain_times chain_save_failed]. unfold bind.
    destruct (chain_origin_exact id st) as (h & st' & E & H). rewrite E.
    pose proof Hid as Hnz. apply nz_true in Hnz. rewrite Hnz.
    cbn [andb].
    destruct H as [(H & _)|[(_ & Hsat & ->)|(_ & Hlt & Hh & _ & Hnext)]].
    + contradiction.
    + replace (origin_depth id <? MAX_CHAIN_DEPTH) with false
        by (symmetry; apply Z.ltb_ge; exact Hsat).
      cbn [andb orb].
      destruct (IH id st' d Hid Hd Hdr) as (h & st2 & -> & A & B).
      exists h, st2. split; [reflexivity|]. split; [exact A|].
      intros F. destruct (B F) as (B1 & B2 & B3).
      split; [exact B1|]. split; [|exact B3].
      rewrite B2. unfold MAX_CHAIN_DEPTH in *. lia.
    + replace (origin_depth id <? MAX_CHAIN_DEPTH) with true
        by (symmetry; apply Z.ltb_lt; exact Hlt).
      cbn [andb]. rewrite <- Hh.
      destruct (Z.eqb_spec h 0) as [->|Hh0].
      * cbn [orb]. exists 0, st'. split; [apply chain_times_zero|].
        split; [reflexivity|discriminate].
      * cbn [orb]. destruct (Hnext Hh0) as [Hhd Hhu].
        destruct (IH h st' (d + 1) Hh0 ltac:(lia)
                    ltac:(unfold MAX_CHAIN_DEPTH in *; lia))
          as (h2 & st2 & -> & A & B).
        exists h2, st2. split; [reflexivity|]. split; [exact A|].
        intros F. destruct (B F) as (B1 & B2 & B3).
        split; [exact B1|]. split; [|congruence].
        rewrite B2. lia.
Qed.

(** C3 (amended).  For every origin handle [h]: [chain(h)] returns 0 when
    [h] is 0; when the decoded chain depth of [h] has reached
    [MAX_CHAIN_DEPTH = 7] it returns [h] itself; otherwise it returns what
    the provenance store answers to the save of the new chain record: 0
    when the store fails to save it, and else a handle whose decoded depth
    is the depth of [h] plus one and whose use-after-free bit equals that
    of [h].  The call never aborts.  So chaining a fresh depth-0 handle [k]
    times yields 0 when the store failed to save the record of one of the
    chainings, and otherwise a nonzero handle of depth [min k 7] with the
    same use-after-free bit: depth 7 after [MAX_DEPTH + 1] and after any
    larger number of calls, a call on a depth-7 handle returning that very
    handle. *)
Theorem chain_origin_spec :
  (forall id st, exists h st',
     kmsan_internal_chain_origin id st = Ok h st'
     /\ ((id = 0 /\ h = 0 /\ st' = st)
         \/ (id <> 0 /\ MAX_CHAIN_DEPTH <= origin_depth id /\ h = id)
         \/ (id <> 0 /\ origin_depth id < MAX_CHAIN_DEPTH
             /\ h = fst (chain_record_save id st)
             /\ depot_st st' = snd (chain_record_save id st)
             /\ (h <> 0 -> origin_depth h = origin_depth id + 1
                           /\ origin_uaf h = origin_uaf id))))
  /\ (forall k id st, id <> 0 -> origin_depth id = 0 ->
      exists h st',
        chain_times k id st = Ok h st'
        /\ (chain_save_failed k id st = true -> h = 0)
        /\ (chain_save_failed k id st = false ->
            h <> 0
            /\ origin_depth h = Z.min (Z.of_nat k) MAX_CHAIN_DEPTH
            /\ origin_uaf h = origin_uaf id)).
Proof.
  split; [exact chain_origin_exact|].
  intros k id st Hid Hd.
  apply (chain_times_exact k id st 0 Hid Hd). unfold MAX_CHAIN_DEPTH. lia.
Qed.

End ResolverAndChain.

(** ** The free hooks *)

Section FreeHooks.
Context {PF : Platform} {SD : StackDepot}.

(** Poisoning a tracked range under the runtime guard. *)
Lemma guarded_poison st a n gfp pf sh og :
  0 < n -> n + 6 < 2 ^ 64 ->
  tracked_range st a n sh og ->
  metadata_apart a n sh og ->
  kmsan_metadata_is_contiguous a n st = Ok true st ->
  exists st1,
    bind kmsan_enter_runtime (fun _ =>
      bind (kmsan_internal_poison_memory a n gfp pf) (fun _ =>
        kmsan_leave_runtime)) st = Ok tt st1
    /\ poisoned_with st1 a n (poison_handle st gfp pf)
    /\ kmsan_in_runtime_ctr st1 = kmsan_in_runtime_ctr st
    /\ kmsan_ready st1 = kmsan_ready st
    /\ reports st1 = reports st
    /\ layout_eq st st1.
Proof.
  intros Hn Hn64 (Hsh0 & Hog0 & Hsh & Hog) Hdis Hgate.
  pose proof (Hsh 0 ltac:(lia)) as Hsh_a. pose proof (Hog 0 ltac:(lia)) as Hog_a.
  rewrite Z.add_0_r in Hsh_a, Hog_a.
  replace (og + KMSAN_ORIGIN_SIZE * (a / KMSAN_ORIGIN_SIZE
                                    - a / KMSAN_ORIGIN_SIZE))
    with og in Hog_a by lia.
  replace (sh + 0) with sh in Hsh_a by lia.
  unfold bind at 1. unfold kmsan_enter_runtime at 1. unfold modify at 1.
  set (st_e := set_in_runtime _ st).
  assert (Le : layout_eq st st_e) by now repeat split.
  unfold bind at 1.
  rewrite (poison_tracked st_e a n gfp pf sh og (poison_handle st gfp pf)
             (set_depot (snd (stack_depot_save_extra
                (filter_irq_stacks (firstn KMSAN_STACK_DEPTH (call_stack st)))
                (kmsan_extra_bits 0 (nz (Z.land pf KMSAN_POISON_FREE)))
                (Z.land gfp (Z.lnot __GFP_DIRECT_RECLAIM)) (depot_st st)))
                st_e));
    try lia.
  2: apply (contiguous_true a n st st Hgate); exact Le.
  2: now rewrite <- (meta_ext st st_e).
  2: now rewrite <- (meta_ext st st_e).
  2: reflexivity.
  unfold kmsan_leave_runtime, modify.
  eexists. split; [reflexivity|].
  set (st1 := set_in_runtime _ _).
  assert (L1 : layout_eq st st1) by now repeat split.
  destruct (filled_memory (mem st) a n (-1) (poison_handle st gfp pf) sh og)
    as (F1 & F2 & _); try lia; try exact Hdis.
  { apply depot_handle_u32. }
  split; [|split; [|split; [|split]]]; try reflexivity; try exact L1.
  - intros j Hj. rewrite <- !(meta_ext st st1) by exact L1.
    rewrite Hsh, Hog by lia. split.
    + subst st1 st_e. cbn [mem set_mem set_in_runtime set_depot].
      now rewrite F1.
    + subst st1 st_e. cbn [mem set_mem set_in_runtime set_depot].
      now apply F2.
  - subst st1 st_e. cbn. lia.
Qed.

Lemma free_poison_flags :
  nz (Z.land (Z.lor KMSAN_POISON_CHECK KMSAN_POISON_FREE) KMSAN_POISON_FREE)
  = true.
Proof. reflexivity. Qed.

(** A handle issued for a free-time poisoning is a depth-0 handle with the
    use-after-free bit. *)
Lemma free_handle_uaf st gfp :
  let h := poison_handle st gfp (Z.lor KMSAN_POISON_CHECK KMSAN_POISON_FREE) in
  h <> 0 -> origin_uaf h = true /\ origin_depth h = 0.
Proof.
  cbv zeta. unfold poison_handle. rewrite free_poison_flags. intros Hh.
  unfold origin_uaf, origin_depth.
  rewrite depot_extra_bits; [now vm_compute| now vm_compute | exact Hh].
Qed.

(** C5 (amended).  On a slab free ([kmsan_slab_free]) and on a large kmalloc
    free ([kmsan_kfree_large]) of a tracked block, with the subsystem ready
    and the caller outside the runtime, the block is re-poisoned: every
    shadow byte becomes [0xff] and every origin slot of the block holds the
    handle saved for the freeing call stack (tagged use-after-free).  The
    slab hook leaves the metadata unchanged when the cache is
    [SLAB_TYPESAFE_BY_RCU] or [SLAB_POISON] or has a constructor; both hooks
    leave it unchanged when the subsystem is not ready or the caller is
    inside the runtime. *)
Theorem free_repoisons st sh og :
  (forall s object,
     kmsan_ready st = false \/ kmsan_in_runtime_ctr st <> 0
     \/ Z.land (flags s) (Z.lor SLAB_TYPESAFE_BY_RCU SLAB_POISON) <> 0
     \/ ctor s <> 0 ->
     kmsan_slab_free s object st = Ok tt st)
  /\ (forall s object,
      kmsan_ready st = true -> kmsan_in_runtime_ctr st = 0 ->
      Z.land (flags s) (Z.lor SLAB_TYPESAFE_BY_RCU SLAB_POISON) = 0 ->
      ctor s = 0 ->
      0 < object_size s -> object_size s + 6 < 2 ^ 64 ->
      tracked_range st object (object_size s) sh og ->
      metadata_apart object (object_size s) sh og ->
      kmsan_metadata_is_contiguous object (object_size s) st = Ok true st ->
      let h := poison_handle st GFP_KERNEL
                 (Z.lor KMSAN_POISON_CHECK KMSAN_POISON_FREE) in
      exists st1,
        kmsan_slab_free s object st = Ok tt st1
        /\ poisoned_with st1 object (object_size s) h
        /\ (h <> 0 -> origin_uaf h = true /\ origin_depth h = 0)
        /\ kmsan_in_runtime_ctr st1 = 0)
  /\ (forall ptr,
      kmsan_ready st = false \/ kmsan_in_runtime_ctr st <> 0 ->
      kmsan_kfree_large ptr st = Ok tt st)
  /\ (forall ptr,
      kmsan_ready st = true -> kmsan_in_runtime_ctr st = 0 ->
      ptr = page_address (virt_to_head_page ptr) ->
      let n := u64 (Z.shiftl PAGE_SIZE
                      (compound_order (virt_to_head_page ptr))) in
      0 < n -> n + 6 < 2 ^ 64 ->
      tracked_range st ptr n sh og ->
      metadata_apart ptr n sh og ->
      kmsan_metadata_is_contiguous ptr n st = Ok true st ->
      let h := poison_handle st GFP_KERNEL
                 (Z.lor KMSAN_POISON_CHECK KMSAN_POISON_FREE) in
      exists st1,
        kmsan_kfree_large ptr st = Ok tt st1
        /\ poisoned_with st1 ptr n h
        /\ (h <> 0 -> origin_uaf h = true /\ origin_depth h = 0)
        /\ kmsan_in_runtime_ctr st1 = 0).
Proof.
  split; [|split; [|split]].
  - intros s object H. unfold kmsan_slab_free.
    unfold bind at 1. unfold gets at 1. unfold bind at 1.
    unfold kmsan_in_runtime, gets.
    destruct H as [H|[H|[H|H]]].
    + now rewrite H.
    + apply nz_true in H. rewrite H. now rewrite orb_true_r.
    + destruct (negb (kmsan_ready st) || nz (kmsan_in_runtime_ctr st));
        [reflexivity|].
      apply nz_true in H. now rewrite H.
    + destruct (negb (kmsan_ready st) || nz (kmsan_in_runtime_ctr st));
        [reflexivity|].
      destruct (nz (Z.land _ _)); [reflexivity|].
      apply nz_true in H. now rewrite H.
  - intros s object Hready Hctr Hflags Hctor Hn Hn64 Htr Hdis Hgate h.
    destruct (guarded_poison st object (object_size s) GFP_KERNEL
                (Z.lor KMSAN_POISON_CHECK KMSAN_POISON_FREE) sh og
                Hn Hn64 Htr Hdis Hgate)
      as (st1 & E & Hp & Hc & _).
    exists st1. unfold kmsan_slab_free.
    unfold bind at 1. unfold gets at 1. unfold bind at 1.
    unfold kmsan_in_runtime, gets.
    rewrite Hready, Hctr, Hflags, Hctor. cbn [negb nz Z.eqb orb].
    split; [exact E|]. split; [exact Hp|].
    split; [apply free_handle_uaf|]. now rewrite Hc.
  - intros ptr H. unfold kmsan_kfree_large.
    unfold bind at 1. unfold gets at 1. unfold bind at 1.
    unfold kmsan_in_runtime, gets.
    destruct H as [H|H].
    + now rewrite H.
    + apply nz_true in H. rewrite H. now rewrite orb_true_r.
  - intros ptr Hready Hctr Hptr n Hn Hn64 Htr Hdis Hgate h.
    destruct (guarded_poison st ptr n GFP_KERNEL
                (Z.lor KMSAN_POISON_CHECK KMSAN_POISON_FREE) sh og
                Hn Hn64 Htr Hdis Hgate)
      as (st1 & E & Hp & Hc & _).
    exists st1. unfold kmsan_kfree_large.
    unfold bind at 1. unfold gets at 1. unfold bind at 1.
    unfold kmsan_in_runtime, gets.
    rewrite Hready, Hctr. cbn [negb nz Z.eqb orb].
    split; [|split; [exact Hp|split; [apply free_handle_uaf|now rewrite Hc]]].
    rewrite <- E. unfold bind at 1 3. unfold kmsan_enter_runtime, modify.
    unfold bind at 1. unfold BUG_ON.
    rewrite <- Hptr, Z.eqb_refl. cbn [negb]. unfold ret. reflexivity.
Qed.

(** [kmsan_free_page] does nothing: a page free leaves every shadow byte and
    origin slot as it was, against the comment on its declaration ("KMSAN
    marks freed memory as uninitialized"). *)
Lemma free_page_leaves_metadata page order st :
  kmsan_free_page page order st = Ok tt st.
Proof. reflexivity. Qed.

(** The ad hoc API is a no-op before readiness and inside the runtime. *)
Lemma adhoc_api_guarded st a n gfp :
  kmsan_ready st = false \/ kmsan_in_runtime_ctr st <> 0 ->
  kmsan_poison_memory a n gfp st = Ok tt st
  /\ kmsan_unpoison_memory a n st = Ok tt st.
Proof.
  intros H.
  assert (E : negb (kmsan_ready st) || nz (kmsan_in_runtime_ctr st) = true).
  { destruct H as [-> | H]; [reflexivity|].
    apply nz_true in H. rewrite H. apply orb_true_r. }
  unfold kmsan_poison_memory, kmsan_unpoison_memory, kmsan_in_runtime.
  unfold bind, gets. rewrite E. split; reflexivity.
Qed.

End FreeHooks.

(** ** The propagation engine when the origin cannot be chained *)

Section Propagation.
Context {PF : Platform} {SD : StackDepot}.

(** One step of the origin loop. *)
Lemma memmove_origins_step k src n src_slots os od asrc iter i old new st :
  memmove_origins (S k) src n src_slots os od asrc iter i old new st
  = if i <? 0 then Bug
    else
      let shadow := masked_shadow (mem st) asrc src n src_slots i in
      let osrc := load32 (mem st) (os + KMSAN_ORIGIN_SIZE * i) in
      match
        (if nz osrc && negb (osrc =? old) && nz shadow
         then bind (kmsan_internal_chain_origin osrc)
                (fun c => if nz c then ret (osrc, c) else ret (osrc, osrc))
         else ret (old, new)) st
      with
      | Ok on st2 =>
        memmove_origins k src n src_slots os od asrc iter (s32 (i + iter))
          (fst on) (snd on)
          (set_mem (store32 (mem st2) (od + KMSAN_ORIGIN_SIZE * i)
                      (if nz shadow then snd on else 0)) st2)
      | Bug => Bug
      | OutOfFuel => OutOfFuel
      end.
Proof.
  cbn [memmove_origins]. unfold bind at 1. unfold BUG_ON at 1.
  destruct (i <? 0); [reflexivity|]. unfold ret at 1.
  unfold bind at 1. unfold gets at 1.
  unfold bind at 1. unfold gets at 1.
  unfold bind at 1. cbv zeta. unfold masked_shadow. cbv zeta.
  match goal with
  | |- match ?c st with _ => _ end = match ?c' st with _ => _ end =>
    change c' with c; destruct (c st) as [on st2| |]; try reflexivity
  end.
Qed.

(** Chaining never touches memory; with an exhausted store it leaves the
    store exhausted and yields [0] or the handle it was given. *)
Lemma chain_origin_frame id st :
  exists h st',
    kmsan_internal_chain_origin id st = Ok h st'
    /\ mem st' = mem st
    /\ (0 <= id < 2 ^ 32 -> 0 <= h < 2 ^ 32)
    /\ (depot_exhausted st -> depot_exhausted st' /\ (h = 0 \/ h = id)).
Proof.
  unfold kmsan_internal_chain_origin.
  destruct (nz id); cbn [negb].
  2:{ exists id, st. split; [reflexivity|]. split; [reflexivity|].
      split; [auto|]. intros H. split; [exact H|now right]. }
  destruct (_ >=? MAX_CHAIN_DEPTH).
  - unfold bind at 1. unfold modify at 1. unfold bind at 1. unfold gets at 1.
    unfold bind at 1. unfold when.
    destruct (Z.rem _ _ =? 0); unfold modify, ret; eexists _, _;
      (split; [reflexivity|]); (split; [reflexivity|]); (split; [auto|]);
      intros H; (split; [exact H|now right]).
  - unfold bind. rewrite save_stack_eq. unfold depot_save.
    cbv beta iota zeta. cbn [depot_st set_depot].
    eexists _, _. split; [reflexivity|]. split; [reflexivity|].
    split; [intros _; apply depot_handle_u32|].
    intros Hex. rewrite !Hex. cbn [fst snd]. rewrite ?Hex. cbn [fst snd].
    split; [|now left].
    intros es eb fl. cbn [depot_st set_depot]. apply Hex.
Qed.

Lemma load32_frame m m' a :
  (forall x, a <= x < a + 4 -> load8 m' x = load8 m x) ->
  load32 m' a = load32 m a.
Proof.
  intros H. unfold load32. rewrite !H by lia. reflexivity.
Qed.


Section Loop.
Variables (src n src_slots os od asrc iter slots : Z).
Variable exhausted : Prop.
Hypothesis iter_unit : iter = 1 \/ iter = -1.
Hypothesis slots_int : slots < 2 ^ 31.
Hypothesis dst_not_shadow :
  od + KMSAN_ORIGIN_SIZE * slots <= asrc
  \/ asrc + KMSAN_ORIGIN_SIZE * slots <= od.
Hypothesis dst_not_src :
  od + KMSAN_ORIGIN_SIZE * slots <= os
  \/ os + KMSAN_ORIGIN_SIZE * slots <= od.


End Loop.

Lemma origin_slots_bounds p n :
  0 <= p -> 0 < n < 2 ^ 31 -> p + n + 3 < 2 ^ 64 ->
  origin_slots p n
  = (p mod KMSAN_ORIGIN_SIZE + n + 3) / KMSAN_ORIGIN_SIZE.
Proof.
  intros Hp Hn Htop.
  unfold origin_slots, ALIGN, ALIGN_DOWN, s32, u64, KMSAN_ORIGIN_SIZE.
  lia.
Qed.

Lemma memmove_out m d s n x :
  x < d \/ d + n <= x -> memmove m d s n x = m x.
Proof.
  intros H. unfold memmove.
  destruct ((d <=? x) && (x <? d + n)) eqn:E; [|reflexivity].
  apply andb_prop in E as [E1 E2].
  apply Z.leb_le in E1. apply Z.ltb_lt in E2. lia.
Qed.

End Propagation.


(** ** The contiguity gate, page by page *)

Section Gate.
Context {PF : Platform} {SD : StackDepot}.

Lemma contiguous_loop_cases fuel : forall k st a n au,
  0 <= a -> 1 <= k -> 0 <= n -> a + n + PAGE_SIZE <= 2 ^ 64 ->
  PAGE_SIZE * (k - 1) < n ->
  n - PAGE_SIZE * k < PAGE_SIZE * Z.of_nat fuel ->
  let r := contiguous_loop fuel a n au (a + PAGE_SIZE * k)
             (meta st (a + PAGE_SIZE * (k - 1)) false)
             (meta st (a + PAGE_SIZE * (k - 1)) true) st in
  (r = Ok true st
   /\ forall j, k <= j -> PAGE_SIZE * j < n -> step_ok st a au j)
  \/ (r = Ok false (add_console (TwoShadowRanges a n) st)
      /\ exists j, k <= j /\ PAGE_SIZE * j < n /\ ~ step_ok st a au j).
Proof.
  induction fuel as [|fuel IH]; intros k st a n au Ha Hk Hn Htop Hprev Hfuel;
    cbv zeta; cbn [contiguous_loop];
    destruct (a + PAGE_SIZE * k <? u64 (a + n)) eqn:Elt;
    try (apply Z.ltb_lt in Elt); try (apply Z.ltb_ge in Elt).
  - exfalso. unfold u64, PAGE_SIZE in *. lia.
  - left. split; [reflexivity|]. intros j Hj Hjn. exfalso.
    unfold u64, PAGE_SIZE in *. lia.
  - assert (Hkn : PAGE_SIZE * k < n) by (unfold u64, PAGE_SIZE in *; lia).
    assert (Enext : u64 (a + PAGE_SIZE * k + PAGE_SIZE)
                    = a + PAGE_SIZE * (k + 1))
      by (unfold u64, PAGE_SIZE in *; lia).
    unfold bind. rewrite !kmsan_get_metadata_pure.
    cbv beta iota zeta. rewrite Enext.
    specialize (IH (k + 1) st a n au Ha ltac:(lia) Hn Htop).
    replace (k + 1 - 1) with k in IH by lia.
    specialize (IH Hkn ltac:(unfold PAGE_SIZE in *; lia)). cbv zeta in IH.
    set (ns := meta st (a + PAGE_SIZE * k) false) in *.
    set (no := meta st (a + PAGE_SIZE * k) true) in *.
    assert (Hcont :
      step_ok st a au k ->
      (contiguous_loop fuel a n au (a + PAGE_SIZE * (k + 1)) ns no st
       = Ok true st
       /\ forall j, k <= j -> PAGE_SIZE * j < n -> step_ok st a au j)
      \/ (contiguous_loop fuel a n au (a + PAGE_SIZE * (k + 1)) ns no st
          = Ok false (add_console (TwoShadowRanges a n) st)
          /\ exists j, k <= j /\ PAGE_SIZE * j < n /\ ~ step_ok st a au j)).
    { intros Hok. destruct IH as [[E H]|[E (j & Hj & Hjn & Hbad)]].
      - left. split; [exact E|]. intros j Hj Hjn.
        destruct (Z.eq_dec j k) as [->|Hne]; [exact Hok|].
        apply H; lia.
      - right. split; [exact E|]. exists j. split; [lia|]. now split. }
    assert (Hfail :
      ~ step_ok st a au k ->
      contiguous_report a n st
      = Ok false (add_console (TwoShadowRanges a n) st)
      /\ exists j, k <= j /\ PAGE_SIZE * j < n /\ ~ step_ok st a au j).
    { intros Hbad. split; [apply contiguous_report_false|].
      exists k. split; [lia|]. now split. }
    destruct au.
    + destruct (nz ns || nz no) eqn:E1.
      * right. apply Hfail. unfold step_ok. fold ns no. intros [A B].
        rewrite A, B in E1. discriminate.
      * apply orb_false_iff in E1 as [A B].
        rewrite A, B. cbn [negb andb].
        apply Hcont. unfold step_ok. fold ns no.
        apply nz_false in A, B. now split.
    + destruct ((meta st (a + PAGE_SIZE * (k - 1)) false
                 =? u64 (ns - PAGE_SIZE))
                && (meta st (a + PAGE_SIZE * (k - 1)) true
                    =? u64 (no - PAGE_SIZE))) eqn:E3.
      * apply andb_prop in E3 as [A B].
        apply Z.eqb_eq in A, B.
        apply Hcont. unfold step_ok, page_step. fold ns no. now split.
      * right. apply Hfail. unfold step_ok, page_step. fold ns no.
        intros [A B]. rewrite A, B, !Z.eqb_refl in E3. discriminate.
  - left. split; [reflexivity|]. intros j Hj Hjn. exfalso.
    unfold u64, PAGE_SIZE in *. lia.
Qed.

Lemma contiguous_gate_cases st a n :
  0 <= a -> 0 <= n -> a + n + PAGE_SIZE <= 2 ^ 64 ->
  (kmsan_metadata_is_contiguous a n st = Ok true st
   /\ contiguous_pages st a n)
  \/ (kmsan_metadata_is_contiguous a n st
      = Ok false (add_console (TwoShadowRanges a n) st)
      /\ ~ contiguous_pages st a n).
Proof.
  intros Ha Hn Htop.
  unfold kmsan_metadata_is_contiguous.
  destruct (negb (nz n)) eqn:En.
  { left. split; [reflexivity|]. left.
    now apply negb_true_iff, nz_false in En. }
  apply negb_false_iff, nz_true in En.
  replace (u64 (a + n - 1)) with (a + n - 1)
    by (unfold u64, PAGE_SIZE in *; lia).
  destruct (ALIGN_DOWN (a + n - 1) PAGE_SIZE =? ALIGN_DOWN a PAGE_SIZE)
    eqn:Epage.
  { left. split; [reflexivity|]. right. left. now apply Z.eqb_eq. }
  apply Z.eqb_neq in Epage.
  unfold bind. rewrite !kmsan_get_metadata_pure.
  cbv beta iota zeta.
  assert (HP : PAGE_SIZE * (1 - 1) < n) by lia.
  assert (Enext : u64 (a + PAGE_SIZE) = a + PAGE_SIZE * 1)
    by (unfold u64, PAGE_SIZE in *; lia).
  rewrite Enext.
  assert (Hfuel : n - PAGE_SIZE * 1
                  < PAGE_SIZE * Z.of_nat (Z.to_nat (n / PAGE_SIZE) + 1)).
  { rewrite Nat2Z.inj_add, Z2Nat.id by (unfold PAGE_SIZE; lia).
    unfold PAGE_SIZE. lia. }
  pose proof (contiguous_loop_cases (Z.to_nat (n / PAGE_SIZE) + 1) 1 st a n
                (negb (nz (meta st a false))) Ha ltac:(lia) Hn Htop HP
                Hfuel) as L.
  cbv zeta in L.
  replace (a + PAGE_SIZE * (1 - 1)) with a in L by lia.
  destruct (nz (meta st a false)) eqn:Es; cbn [negb andb] in *.
  - apply nz_true in Es.
    destruct L as [[E H]|[E (j & Hj & Hjn & Hbad)]].
    + left. split; [exact E|]. right. right. right. now split.
    + right. split; [exact E|].
      intros [C|[C|[(C & _)|(_ & C)]]]; try contradiction.
      apply Hbad. now apply C.
  - apply nz_false in Es.
    destruct (nz (meta st a true)) eqn:Eo.
    + right. split; [apply contiguous_report_false|].
      apply nz_true in Eo.
      intros [C|[C|[(_ & C & _)|(C & _)]]]; contradiction.
    + apply nz_false in Eo.
      destruct L as [[E H]|[E (j & Hj & Hjn & Hbad)]].
      * left. split; [exact E|]. right. right. left.
        split; [exact Es|split; [exact Eo|exact H]].
      * right. split; [exact E|].
        intros [C|[C|[(_ & _ & C)|(C & _)]]]; try contradiction.
        apply Hbad. now apply C.
Qed.

Lemma contiguous_pages_pass st a n :
  0 <= a -> 0 <= n -> a + n + PAGE_SIZE <= 2 ^ 64 ->
  contiguous_pages st a n ->
  kmsan_metadata_is_contiguous a n st = Ok true st.
Proof.
  intros Ha Hn Htop Hc.
  destruct (contiguous_gate_cases st a n Ha Hn Htop) as [[E _]|[_ Hbad]];
    [exact E|contradiction].
Qed.

(** X1.  The verdict of [kmsan_metadata_is_contiguous] on a range away from
    the top of the address space.  It answers [true], leaving the state
    alone, exactly when the range is empty, or lies within one page, or
    none of the pages it samples (the first byte and every [PAGE_SIZE]
    bytes after it) has shadow or origin, or the first byte has shadow and
    the shadow and origin pointers at every further sample are those of the
    sample before plus one page.  Otherwise it answers [false] after
    logging the two-ranges diagnostic.  It never aborts and always ends. *)
Theorem contiguity_gate_verdict st a n :
  0 <= a -> 0 <= n -> a + n + PAGE_SIZE <= 2 ^ 64 ->
  (contiguous_pages st a n ->
   kmsan_metadata_is_contiguous a n st = Ok true st)
  /\ (~ contiguous_pages st a n ->
      kmsan_metadata_is_contiguous a n st
      = Ok false (add_console (TwoShadowRanges a n) st)).
Proof.
  intros Ha Hn Htop.
  pose proof (contiguous_gate_cases st a n Ha Hn Htop) as H.
  split.
  - intros Hc. destruct H as [[E _]|[_ Hbad]]; [exact E|contradiction].
  - intros Hc. destruct H as [[_ Hok]|[E _]]; [contradiction|exact E].
Qed.

End Gate.

(** ** Poisoning and unpoisoning: effect, frame and edge cases *)

Section PoisonEffects.
Context {PF : Platform} {SD : StackDepot}.

Lemma only_mem_changed_refl (st : kstate) : only_mem_changed st st.
Proof. unfold only_mem_changed. now destruct st. Qed.

Lemma only_mem_changed_set_mem m (st : kstate) :
  only_mem_changed st (set_mem m st).
Proof. reflexivity. Qed.

Lemma only_mem_changed_trans (a b c : kstate) :
  only_mem_changed a b -> only_mem_changed b c -> only_mem_changed a c.
Proof.
  unfold only_mem_changed. intros H1 H2. rewrite H2. rewrite H1.
  reflexivity.
Qed.

Lemma only_mem_changed_layout (st st' : kstate) :
  only_mem_changed st st' -> layout_eq st st'.
Proof. intros H. rewrite H. apply layout_eq_set_mem. Qed.

Lemma tracked_first st a n sh og :
  0 < n -> tracked_range st a n sh og ->
  meta st a KMSAN_META_SHADOW = sh /\ sh <> 0
  /\ meta st a KMSAN_META_ORIGIN = og /\ og <> 0.
Proof.
  intros Hn (Hsh0 & Hog0 & Hsh & Hog).
  pose proof (Hsh 0 ltac:(lia)) as A. pose proof (Hog 0 ltac:(lia)) as B.
  rewrite Z.add_0_r in A, B.
  replace (og + KMSAN_ORIGIN_SIZE * (a / KMSAN_ORIGIN_SIZE
                                    - a / KMSAN_ORIGIN_SIZE))
    with og in B by lia.
  replace (sh + 0) with sh in A by lia.
  repeat split; try assumption; lia.
Qed.

Lemma tracked_range_ext st st' a n sh og :
  layout_eq st st' -> tracked_range st a n sh og ->
  tracked_range st' a n sh og.
Proof.
  intros L (Hsh0 & Hog0 & Hsh & Hog).
  split; [exact Hsh0|]. split; [exact Hog0|].
  split; intros j Hj; rewrite <- (meta_ext st st') by exact L; auto.
Qed.

(** Filling a tracked range: what memory holds afterwards. *)
Lemma set_shadow_origin_filled st a n b origin checked sh og :
  0 < n -> n + 6 < 2 ^ 64 ->
  tracked_range st a n sh og ->
  metadata_apart a n sh og ->
  kmsan_metadata_is_contiguous a n st = Ok true st ->
  exists st1,
    kmsan_internal_set_shadow_origin a n b origin checked st = Ok tt st1
    /\ only_mem_changed st st1
    /\ filled_with st1 a n (b mod 256) (u32 origin)
    /\ metadata_frame (mem st) (mem st1) a n sh og.
Proof.
  intros Hn Hn64 Htr Hdis Hgate.
  destruct (tracked_first st a n sh og Hn Htr) as (Hsa & Hs0 & Hoa & Ho0).
  destruct Htr as (_ & _ & Hsh & Hog).
  eexists. split.
  { apply (set_shadow_origin_tracked st a n b origin checked sh og);
      try assumption; lia. }
  set (st1 := set_mem _ st).
  assert (L : layout_eq st st1) by apply layout_eq_set_mem.
  destruct (filled_memory (mem st) a n b (u32 origin) sh og)
    as (F1 & F2 & F3); try lia; try exact Hdis.
  { unfold u32. lia. }
  split; [reflexivity|]. split.
  - intros j Hj. rewrite <- !(meta_ext st st1) by exact L.
    rewrite Hsh, Hog by lia. subst st1. cbn [mem set_mem].
    split; [now apply F1|now apply F2].
  - intros x Hx1 Hx2. subst st1. cbn [mem set_mem]. now apply F3.
Qed.

(** X2.  [kmsan_internal_set_shadow_origin] on a tracked range whose shadow
    bytes and origin slots do not overlap: afterwards every byte of the
    range has shadow byte [b] (its low eight bits) and reads the origin
    handle given, nothing but memory changed, and in memory nothing changed
    outside the [n] shadow bytes and the origin slots of the granules the
    range touches. *)
Theorem set_shadow_origin_effect st a n b origin checked sh og :
  0 < n -> n + 6 < 2 ^ 64 ->
  tracked_range st a n sh og ->
  metadata_apart a n sh og ->
  kmsan_metadata_is_contiguous a n st = Ok true st ->
  exists st1,
    kmsan_internal_set_shadow_origin a n b origin checked st = Ok tt st1
    /\ only_mem_changed st st1
    /\ filled_with st1 a n (b mod 256) (u32 origin)
    /\ metadata_frame (mem st) (mem st1) a n sh og.
Proof. exact (set_shadow_origin_filled st a n b origin checked sh og). Qed.

(** On a location without shadow the primitive stops after the gate. *)
Lemma set_shadow_origin_untracked st a n b origin checked :
  kmsan_metadata_is_contiguous a n st = Ok true st ->
  meta st a KMSAN_META_SHADOW = 0 ->
  kmsan_internal_set_shadow_origin a n b origin checked st
  = if checked then Bug else Ok tt st.
Proof.
  intros Hgate Hs. unfold kmsan_internal_set_shadow_origin.
  unfold bind at 1. rewrite Hgate.
  unfold bind at 1. unfold BUG_ON at 1. cbn [negb]. unfold ret at 1.
  unfold bind at 1. rewrite kmsan_get_metadata_pure, Hs.
  cbn [nz Z.eqb negb]. destruct checked; reflexivity.
Qed.

(** Poisoning and unpoisoning a range whose first byte has no shadow. *)
Lemma poison_untracked st a n gfp pf :
  kmsan_metadata_is_contiguous a n st = Ok true st ->
  meta st a KMSAN_META_SHADOW = 0 ->
  kmsan_internal_unpoison_memory a n false st = Ok tt st
  /\ kmsan_internal_unpoison_memory a n true st = Bug
  /\ (Z.land pf KMSAN_POISON_CHECK = 0 ->
      exists st1,
        kmsan_internal_poison_memory a n gfp pf st = Ok tt st1
        /\ only_depot_changed st st1)
  /\ (Z.land pf KMSAN_POISON_CHECK <> 0 ->
      kmsan_internal_poison_memory a n gfp pf st = Bug).
Proof.
  intros Hgate Hs.
  split; [now apply set_shadow_origin_untracked|].
  split; [now apply set_shadow_origin_untracked|].
  assert (G :
    kmsan_internal_poison_memory a n gfp pf st
    = bind (kmsan_save_stack_with_flags gfp
              (kmsan_extra_bits 0 (nz (Z.land pf KMSAN_POISON_FREE))))
        (fun handle => kmsan_internal_set_shadow_origin a n (-1) handle
                         (nz (Z.land pf KMSAN_POISON_CHECK))) st)
    by reflexivity.
  rewrite G. unfold bind. rewrite save_stack_eq. cbv beta iota zeta.
  set (st_d := set_depot _ st).
  assert (L : layout_eq st st_d) by now repeat split.
  rewrite set_shadow_origin_untracked.
  2: apply (contiguous_true a n st st Hgate); exact L.
  2: now rewrite <- (meta_ext st st_d).
  split.
  - intros Hc. apply nz_false in Hc. rewrite Hc.
    exists st_d. split; reflexivity.
  - intros Hc. apply nz_true in Hc. now rewrite Hc.
Qed.

(** X3.  Memory without shadow.  When the resolver has no shadow for the
    first byte of a range that passes the gate, unchecked unpoisoning is a
    no-op and unchecked poisoning changes nothing but the provenance store
    (the stack of the call is still saved), while the checked variants
    abort the kernel ([BUG()]). *)
Theorem poisoning_without_shadow st a n gfp pf :
  kmsan_metadata_is_contiguous a n st = Ok true st ->
  meta st a KMSAN_META_SHADOW = 0 ->
  kmsan_internal_unpoison_memory a n false st = Ok tt st
  /\ kmsan_internal_unpoison_memory a n true st = Bug
  /\ (Z.land pf KMSAN_POISON_CHECK = 0 ->
      exists st1,
        kmsan_internal_poison_memory a n gfp pf st = Ok tt st1
        /\ only_depot_changed st st1)
  /\ (Z.land pf KMSAN_POISON_CHECK <> 0 ->
      kmsan_internal_poison_memory a n gfp pf st = Bug).
Proof. exact (poison_untracked st a n gfp pf). Qed.

Lemma filled_slots_zero a :
  filled_slots a 0 = if a mod KMSAN_ORIGIN_SIZE =? 0 then 0 else 1.
Proof.
  unfold filled_slots, ALIGN, ALIGN_DOWN, u64, KMSAN_ORIGIN_SIZE.
  destruct (Z.eqb_spec (a mod 4) 0); lia.
Qed.

(** X4.  The empty range.  [kmsan_internal_set_shadow_origin] with size 0
    on a location with metadata changes no shadow byte; at a
    granule-aligned address it changes nothing at all, but at an address
    inside a granule it still overwrites the origin slot of that granule
    with the handle given (the range is padded out to granule boundaries
    before the origin slots are counted). *)
Theorem set_shadow_origin_empty st a b origin checked sh og :
  meta st a KMSAN_META_SHADOW = sh -> sh <> 0 ->
  meta st a KMSAN_META_ORIGIN = og -> og <> 0 ->
  exists st1,
    kmsan_internal_set_shadow_origin a 0 b origin checked st = Ok tt st1
    /\ only_mem_changed st st1
    /\ (a mod KMSAN_ORIGIN_SIZE = 0 -> forall x, mem st1 x = mem st x)
    /\ (a mod KMSAN_ORIGIN_SIZE <> 0 ->
        load32 (mem st1) og = u32 origin
        /\ forall x, x < og \/ og + KMSAN_ORIGIN_SIZE <= x ->
                     mem st1 x = mem st x).
Proof.
  intros Hs Hs0 Ho Ho0.
  eexists. split.
  { apply (set_shadow_origin_tracked st a 0 b origin checked sh og);
      try assumption; try lia. reflexivity. }
  split; [reflexivity|]. cbn [mem set_mem]. rewrite filled_slots_zero.
  split.
  - intros Ha. rewrite Ha. cbn [Z.eqb Z.to_nat set_origin_slots].
    intros x. apply memset_out. lia.
  - intros Ha. apply Z.eqb_neq in Ha. rewrite Ha.
    change (Z.to_nat 1) with 1%nat. cbn [set_origin_slots].
    rewrite Z.mul_0_r, Z.add_0_r. split.
    + apply load32_store32_same. unfold u32. lia.
    + intros x Hx. unfold store32, store8, KMSAN_ORIGIN_SIZE in *.
      repeat match goal with
             | |- context [x =? ?y] =>
               destruct (Z.eqb_spec x y); [lia|]
             end.
      apply memset_out. lia.
Qed.

End PoisonEffects.

(** ** Scans that report nothing, and the ad hoc API round trips *)

Section QuietScans.
Context {PF : Platform} {SD : StackDepot}.
Variables (addr size ua reason : Z).

(** A chunk in which every byte is clean or poisoned under origin 0. *)
Lemma check_chunk_quiet shadow pos k : forall i cs st,
  (forall t, i <= t < i + Z.of_nat k ->
     load8 (mem st) (shadow + t) = 0
     \/ (meta st (u64 (addr + pos + t)) KMSAN_META_ORIGIN <> 0
         /\ load32 (mem st) (meta st (u64 (addr + pos + t)) KMSAN_META_ORIGIN)
            = 0)) ->
  exists cs',
    check_chunk k addr size ua reason shadow pos i 0 cs st = Ok (0, cs') st.
Proof.
  induction k as [|k IH]; intros i cs st Hq.
  - exists cs. reflexivity.
  - cbn [check_chunk]. unfold bind at 1. unfold gets at 1.
    assert (Hq' : forall t, i + 1 <= t < i + 1 + Z.of_nat k ->
       load8 (mem st) (shadow + t) = 0
       \/ (meta st (u64 (addr + pos + t)) KMSAN_META_ORIGIN <> 0
           /\ load32 (mem st)
                (meta st (u64 (addr + pos + t)) KMSAN_META_ORIGIN) = 0)).
    { intros t Ht. apply Hq. lia. }
    destruct (nz (load8 (mem st) (shadow + i))) eqn:Eb; cbn [negb].
    + destruct (Hq i ltac:(lia)) as [Hz|[Ho Hl]].
      { apply nz_true in Eb. contradiction. }
      unfold bind at 1. rewrite kmsan_get_metadata_pure.
      unfold bind at 1. unfold BUG_ON.
      apply nz_true in Ho. rewrite Ho. cbn [negb]. unfold ret at 1.
      unfold bind at 1. unfold gets at 1. rewrite Hl.
      cbn [Z.eqb negb]. now apply IH.
    + unfold bind. rewrite report_if_open_eq. cbn [nz Z.eqb negb].
      now apply IH.
Qed.

Lemma check_loop_quiet sh fuel : forall pos cs st,
  0 <= pos <= size -> size < 2 ^ 64 ->
  size - pos <= Z.of_nat fuel ->
  (forall j, pos <= j < size ->
     meta st (u64 (addr + j)) KMSAN_META_SHADOW = sh + j) ->
  (forall j, pos <= j < size ->
     load8 (mem st) (sh + j) = 0
     \/ (meta st (u64 (addr + j)) KMSAN_META_ORIGIN <> 0
         /\ load32 (mem st) (meta st (u64 (addr + j)) KMSAN_META_ORIGIN)
            = 0)) ->
  exists cs',
    check_loop fuel addr size ua reason pos 0 cs st = Ok (size, 0, cs') st.
Proof.
  induction fuel as [|fuel IH]; intros pos cs st Hpos Hsz Hfuel Hm Hq;
    cbn [check_loop]; destruct (pos <? size) eqn:Elt;
    try (apply Z.ltb_lt in Elt); try (apply Z.ltb_ge in Elt).
  - lia.
  - exists cs. unfold ret. do 3 f_equal. lia.
  - remember (s32 (Z.min (u64 (size - pos))
                 (u64 (PAGE_SIZE - u64 (addr + pos) mod PAGE_SIZE))))
      as chunk eqn:Ech.
    assert (Hchunk : 1 <= chunk <= PAGE_SIZE /\ pos + chunk <= size).
    { subst chunk. unfold s32, u64, PAGE_SIZE. lia. }
    assert (Enext : u64 (pos + chunk) = pos + chunk)
      by (unfold u64, PAGE_SIZE in *; lia).
    rewrite Enext.
    assert (Hrest : forall cs0, exists cs',
              check_loop fuel addr size ua reason (pos + chunk) 0 cs0 st
              = Ok (size, 0, cs') st).
    { intros cs0. apply IH; try lia.
      - intros j Hj. apply Hm. lia.
      - intros j Hj. apply Hq. lia. }
    unfold bind at 1. rewrite kmsan_get_metadata_pure.
    destruct (negb (nz (meta st (u64 (addr + pos)) KMSAN_META_SHADOW))).
    + unfold bind. rewrite report_if_open_eq. cbn [nz Z.eqb negb].
      apply Hrest.
    + rewrite Hm by lia. unfold bind at 1.
      destruct (check_chunk_quiet (sh + pos) pos (Z.to_nat chunk) 0 cs st)
        as [cs1 ->].
      { intros t Ht. replace (sh + pos + t) with (sh + (pos + t)) by lia.
        rewrite <- Z.add_assoc. apply Hq. lia. }
      cbn [fst snd]. apply Hrest.
  - exists cs. unfold ret. do 3 f_equal. lia.
Qed.

End QuietScans.

Section ApiRoundTrips.
Context {PF : Platform} {SD : StackDepot}.

Lemma tracked_origin_nonzero st a n sh og j :
  tracked_range st a n sh og -> 0 <= j < n ->
  meta st (a + j) KMSAN_META_ORIGIN <> 0.
Proof.
  intros (_ & Hog0 & _ & Hog) Hj. rewrite Hog by exact Hj.
  unfold KMSAN_ORIGIN_SIZE. lia.
Qed.

(** A scan of a tracked range whose bytes are clean or carry origin 0
    reports nothing. *)
Lemma check_quiet_range st a n ua reason sh og b :
  0 <= a -> 0 <= n < 2 ^ 64 -> a + n <= 2 ^ 64 ->
  tracked_range st a n sh og ->
  filled_with st a n b 0 \/ (exists h, filled_with st a n 0 h) ->
  kmsan_metadata_is_contiguous a n st = Ok true st ->
  kmsan_internal_check_memory a n ua reason st = Ok tt st.
Proof.
  intros Ha Hn Htop Htr Hfill Hgate.
  unfold kmsan_internal_check_memory.
  destruct (negb (nz n)) eqn:En; [reflexivity|].
  unfold bind at 1. rewrite Hgate.
  unfold bind at 1. unfold BUG_ON at 1. cbn [negb]. unfold ret at 1.
  unfold bind at 1.
  assert (Eu : forall j, 0 <= j < n -> u64 (a + j) = a + j)
    by (intros j Hj; unfold u64; lia).
  destruct (check_loop_quiet a n ua reason sh (Z.to_nat n) 0 (-1) st)
    as (cs & ->); try lia.
  { intros j Hj. rewrite Eu by lia. destruct Htr as (_ & _ & Hsh & _).
    now apply Hsh. }
  { intros j Hj. rewrite Eu by lia.
    pose proof (tracked_origin_nonzero st a n sh og j Htr ltac:(lia)) as Ho.
    destruct Htr as (_ & _ & Hsh & _).
    destruct Hfill as [F|[h F]]; destruct (F j ltac:(lia)) as [F1 F2].
    - right. now split.
    - left. now rewrite <- Hsh by lia. }
  unfold bind at 1. unfold BUG_ON at 1. rewrite Z.eqb_refl. cbn [negb].
  unfold ret at 1. rewrite report_if_open_eq. reflexivity.
Qed.

(** A scan of a tracked range poisoned under one nonzero origin reports
    the whole range once. *)
Lemma check_uniform_range st a n ua reason sh og h :
  0 <= a -> 0 < n < 2 ^ 31 -> a + n <= 2 ^ 64 -> h <> 0 ->
  tracked_range st a n sh og ->
  poisoned_under st a n h ->
  kmsan_metadata_is_contiguous a n st = Ok true st ->
  kmsan_internal_check_memory a n ua reason st
  = Ok tt (add_report (mk_report h a n 0 (n - 1) ua reason) st).
Proof.
  intros Ha Hn Htop Hh Htr Hfill Hgate.
  unfold kmsan_internal_check_memory.
  replace (negb (nz n)) with false
    by (symmetry; apply negb_false_iff, nz_true; lia).
  unfold bind at 1. rewrite Hgate.
  unfold bind at 1. unfold BUG_ON at 1. cbn [negb]. unfold ret at 1.
  unfold bind at 1.
  assert (Eu : forall j, 0 <= j < n -> u64 (a + j) = a + j)
    by (intros j Hj; unfold u64; lia).
  destruct (check_loop_uniform a n ua reason h sh (Z.to_nat n) Hh 0 0 (-1) st)
    as (co & cs & -> & Hcur); try lia.
  { destruct Htr as (Hsh0 & _). exact Hsh0. }
  { intros j Hj. rewrite Eu by lia.
    pose proof (tracked_origin_nonzero st a n sh og j Htr ltac:(lia)) as Ho.
    destruct Htr as (_ & _ & Hsh & _).
    destruct (Hfill j ltac:(lia)) as [F1 F2].
    split; [now apply Hsh|]. split; [|now split].
    now rewrite <- Hsh by lia. }
  { left. split; reflexivity. }
  destruct Hcur as [[_ Hn0]|[-> ->]]; [lia|].
  unfold bind at 1. unfold BUG_ON at 1. rewrite Z.eqb_refl. cbn [negb].
  unfold ret at 1. rewrite report_if_open_eq.
  replace (nz h) with true by (symmetry; now apply nz_true).
  replace (s32 (u64 (n - 1))) with (n - 1) by (unfold s32, u64; lia).
  reflexivity.
Qed.

(** Unpoisoning a tracked range under the runtime guard. *)
Lemma guarded_unpoison st a n checked sh og :
  0 < n -> n + 6 < 2 ^ 64 ->
  tracked_range st a n sh og ->
  metadata_apart a n sh og ->
  kmsan_metadata_is_contiguous a n st = Ok true st ->
  exists st1,
    bind kmsan_enter_runtime (fun _ =>
      bind (kmsan_internal_unpoison_memory a n checked) (fun _ =>
        kmsan_leave_runtime)) st = Ok tt st1
    /\ only_mem_changed st st1
    /\ filled_with st1 a n 0 0
    /\ metadata_frame (mem st) (mem st1) a n sh og.
Proof.
  intros Hn Hn64 Htr Hdis Hgate.
  unfold bind at 1. unfold kmsan_enter_runtime at 1. unfold modify at 1.
  set (st_e := set_in_runtime _ st).
  assert (Le : layout_eq st st_e) by now repeat split.
  destruct (set_shadow_origin_filled st_e a n 0 0 checked sh og Hn Hn64)
    as (st1 & E & Hm & Hf & Hfr); try assumption.
  { now apply (tracked_range_ext st st_e). }
  { apply (contiguous_true a n st st Hgate). exact Le. }
  unfold kmsan_internal_unpoison_memory. unfold bind. rewrite E.
  unfold kmsan_leave_runtime, modify.
  eexists. split; [reflexivity|].
  set (st2 := set_in_runtime _ st1).
  assert (L2 : layout_eq st1 st2) by now repeat split.
  split; [|split].
  - unfold only_mem_changed in *. subst st2. rewrite Hm.
    subst st_e. destruct st. unfold set_mem, set_in_runtime. cbn.
    do 2 f_equal. lia.
  - intros j Hj. rewrite <- !(meta_ext st1 st2) by exact L2.
    subst st2. cbn [mem set_in_runtime]. now apply Hf.
  - exact Hfr.
Qed.

(** X5.  Round trips through the ad hoc API, for a tracked range in a ready
    kernel outside the runtime.  After [kmsan_unpoison_memory(a, n)] a
    [kmsan_check_memory(a, n)] reports nothing.  After
    [kmsan_poison_memory(a, n, flags)] it emits exactly one report, which
    covers the whole range [0, n-1] under the handle issued for the
    poisoning call, and no report at all when the provenance store issued
    no handle (handle 0). *)
Theorem adhoc_api_roundtrip st a n gfp sh og :
  kmsan_ready st = true -> kmsan_in_runtime_ctr st = 0 ->
  0 <= a -> 0 < n < 2 ^ 31 -> a + n <= 2 ^ 64 ->
  tracked_range st a n sh og ->
  metadata_apart a n sh og ->
  kmsan_metadata_is_contiguous a n st = Ok true st ->
  (exists st1,
     kmsan_unpoison_memory a n st = Ok tt st1
     /\ kmsan_check_memory a n st1 = Ok tt st1)
  /\ (exists st1,
        kmsan_poison_memory a n gfp st = Ok tt st1
        /\ let h := poison_handle st gfp KMSAN_POISON_NOCHECK in
           kmsan_check_memory a n st1
           = Ok tt (if nz h
                    then add_report (mk_report h a n 0 (n - 1) 0 REASON_ANY)
                           st1
                    else st1)).
Proof.
  intros Hready Hctr Ha Hn Htop Htr Hdis Hgate.
  assert (Hn64 : n + 6 < 2 ^ 64) by lia.
  split.
  - destruct (guarded_unpoison st a n (nz KMSAN_POISON_NOCHECK) sh og)
      as (st1 & E & Hm & Hf & _); try assumption; try lia.
    exists st1. unfold kmsan_unpoison_memory.
    unfold bind at 1. unfold gets at 1. unfold bind at 1.
    unfold kmsan_in_runtime, gets.
    rewrite Hready, Hctr. cbn [negb nz Z.eqb orb].
    split; [exact E|].
    assert (L : layout_eq st st1) by (rewrite Hm; apply layout_eq_set_mem).
    apply (check_quiet_range st1 a n 0 REASON_ANY sh og 0); try lia.
    + now apply (tracked_range_ext st st1).
    + left. exact Hf.
    + apply (contiguous_true a n st st Hgate). exact L.
  - destruct (guarded_poison st a n gfp KMSAN_POISON_NOCHECK sh og)
      as (st1 & E & Hp & _ & _ & _ & L); try assumption; try lia.
    exists st1. unfold kmsan_poison_memory.
    unfold bind at 1. unfold gets at 1. unfold bind at 1.
    unfold kmsan_in_runtime, gets.
    rewrite Hready, Hctr. cbn [negb nz Z.eqb orb].
    split; [exact E|]. cbv zeta. unfold kmsan_check_memory.
    destruct (nz (poison_handle st gfp KMSAN_POISON_NOCHECK)) eqn:Eh.
    + apply nz_true in Eh.
      apply (check_uniform_range st1 a n 0 REASON_ANY sh og); try lia;
        try assumption.
      * now apply (tracked_range_ext st st1).
      * intros j Hj. destruct (Hp j Hj) as [A B]. split; [|exact B].
        rewrite A. discriminate.
      * apply (contiguous_true a n st st Hgate). exact L.
    + apply nz_false in Eh. rewrite Eh in Hp.
      apply (check_quiet_range st1 a n 0 REASON_ANY sh og 255); try lia.
      * now apply (tracked_range_ext st st1).
      * left. exact Hp.
      * apply (contiguous_true a n st st Hgate). exact L.
Qed.

End ApiRoundTrips.

(** ** The resolver by zone *)

Section ResolverZones.
Context {PF : Platform} {SD : StackDepot}.

Lemma virt_addr_invalid_below_direct_map x :
  0 <= x < PAGE_OFFSET -> PAGE_OFFSET < __START_KERNEL_map < 2 ^ 64 ->
  kmsan_virt_addr_valid x = false.
Proof.
  intros Hx Hmap. unfold kmsan_virt_addr_valid. cbv zeta.
  assert (Ey : u64 (x - __START_KERNEL_map) = x - __START_KERNEL_map + 2 ^ 64)
    by (unfold u64; lia).
  rewrite Ey.
  rewrite gtb_false by lia.
  assert (Ex : u64 (x - __START_KERNEL_map + 2 ^ 64
                    + u64 (__START_KERNEL_map - PAGE_OFFSET))
               = x - PAGE_OFFSET + 2 ^ 64) by (unfold u64; lia).
  rewrite Ex. rewrite gtb_true by lia. reflexivity.
Qed.

(** X6.  Addresses below the direct map (user-space addresses among them)
    that lie below the vmalloc, module and CPU-entry areas have no struct
    page for the resolver ([kmsan_virt_addr_valid] rejects them through the
    carry of [x - __START_KERNEL_map]), so [kmsan_get_metadata] returns
    none for them, for shadow and origin alike. *)
Theorem low_addresses_untracked st x is_origin :
  0 <= x < PAGE_OFFSET -> PAGE_OFFSET < __START_KERNEL_map < 2 ^ 64 ->
  x < VMALLOC_START -> x < MODULES_VADDR -> x < CPU_ENTRY_AREA_BASE ->
  kmsan_virt_addr_valid x = false
  /\ kmsan_get_metadata x is_origin st = Ok 0 st.
Proof.
  intros Hx Hmap Hv Hm Hc.
  split; [now apply virt_addr_invalid_below_direct_map|].
  unfold kmsan_get_metadata. cbv zeta.
  set (x' := if is_origin && negb (IS_ALIGNED x KMSAN_ORIGIN_SIZE)
             then x - x mod KMSAN_ORIGIN_SIZE else x).
  assert (Hx' : 0 <= x' <= x).
  { subst x'. destruct (_ && _); unfold KMSAN_ORIGIN_SIZE; lia. }
  clearbody x'.
  unfold kmsan_internal_is_vmalloc_addr, kmsan_internal_is_module_addr.
  replace (VMALLOC_START <=? x') with false by (symmetry; apply Z.leb_gt; lia).
  replace (MODULES_VADDR <=? x') with false by (symmetry; apply Z.leb_gt; lia).
  cbn [andb orb].
  unfold get_cea_meta_or_null. unfold bind at 1. unfold bind at 1.
  unfold gets at 1.
  replace (x' <? CPU_ENTRY_AREA_BASE) with true
    by (symmetry; apply Z.ltb_lt; lia).
  cbn [orb]. unfold ret at 1. cbn [nz Z.eqb negb].
  unfold virt_to_page_or_null.
  rewrite virt_addr_invalid_below_direct_map by lia.
  reflexivity.
Qed.

(** X7.  The four bytes of a granule share one origin slot: the origin
    pointer the resolver gives for any address is the one it gives for the
    granule base of that address, in every zone. *)
Theorem origin_pointer_per_granule st a j :
  a mod KMSAN_ORIGIN_SIZE = 0 -> 0 <= j < KMSAN_ORIGIN_SIZE ->
  kmsan_get_metadata (a + j) KMSAN_META_ORIGIN st
  = Ok (meta st a KMSAN_META_ORIGIN) st.
Proof.
  intros Ha Hj. rewrite kmsan_get_metadata_pure. f_equal.
  rewrite <- (meta_origin_aligned st (a + j)). f_equal.
  unfold KMSAN_ORIGIN_SIZE in *. lia.
Qed.


Lemma vmalloc_meta_linear st x (is_origin : bool) :
  0 <= VMALLOC_START -> VMALLOC_START mod KMSAN_ORIGIN_SIZE = 0 ->
  VMALLOC_START <= x < VMALLOC_END ->
  let start := if is_origin then KMSAN_VMALLOC_ORIGIN_START
               else KMSAN_VMALLOC_SHADOW_START in
  0 <= start -> start + (VMALLOC_END - VMALLOC_START) <= 2 ^ 64 ->
  meta st x is_origin
  = (if is_origin then x - x mod KMSAN_ORIGIN_SIZE else x)
    - VMALLOC_START + start.
Proof.
  intros Hvs Hal Hx start Hs Htop.
  unfold meta, kmsan_get_metadata. cbv zeta.
  set (x' := if is_origin && negb (IS_ALIGNED x KMSAN_ORIGIN_SIZE)
             then x - x mod KMSAN_ORIGIN_SIZE else x).
  assert (Ex' : x' = if is_origin then x - x mod KMSAN_ORIGIN_SIZE else x).
  { subst x'. destruct is_origin; [|reflexivity]. cbn [andb].
    unfold IS_ALIGNED.
    destruct (Z.eqb_spec (x mod KMSAN_ORIGIN_SIZE) 0) as [E|E]; cbn [negb];
      [lia|reflexivity]. }
  assert (Hx' : VMALLOC_START <= x' < VMALLOC_END).
  { rewrite Ex'. destruct is_origin; [|exact Hx].
    unfold KMSAN_ORIGIN_SIZE in *. lia. }
  assert (Hal' : is_origin && negb (IS_ALIGNED x' KMSAN_ORIGIN_SIZE) = false).
  { rewrite Ex'. destruct is_origin; [|reflexivity]. cbn [andb].
    apply negb_false_iff. unfold IS_ALIGNED. apply Z.eqb_eq.
    unfold KMSAN_ORIGIN_SIZE. lia. }
  rewrite <- Ex'. clearbody x'.
  unfold kmsan_internal_is_vmalloc_addr at 1.
  replace (VMALLOC_START <=? x') with true by (symmetry; apply Z.leb_le; lia).
  replace (x' <? VMALLOC_END) with true by (symmetry; apply Z.ltb_lt; lia).
  cbn [andb orb].
  unfold vmalloc_meta. unfold bind. rewrite Hal'. unfold BUG_ON, ret.
  unfold kmsan_internal_is_vmalloc_addr.
  replace (VMALLOC_START <=? x') with true by (symmetry; apply Z.leb_le; lia).
  replace (x' <? VMALLOC_END) with true by (symmetry; apply Z.ltb_lt; lia).
  cbn [andb].
  subst start. destruct is_origin; unfold u64; lia.
Qed.

(** X8.  I1 holds by construction in the vmalloc area.  With a layout
    whose vmalloc shadow and origin areas lie within the address space,
    every range inside the vmalloc area has shadow bytes consecutive from
    [a - VMALLOC_START + KMSAN_VMALLOC_SHADOW_START] and origin slots
    consecutive from the slot of the granule of [a] in the vmalloc origin
    area, and it passes [kmsan_metadata_is_contiguous], whatever its
    length. *)
Theorem vmalloc_ranges_are_contiguous st a n :
  0 <= VMALLOC_START -> VMALLOC_START mod KMSAN_ORIGIN_SIZE = 0 ->
  VMALLOC_END + PAGE_SIZE <= 2 ^ 64 ->
  0 < KMSAN_VMALLOC_SHADOW_START ->
  KMSAN_VMALLOC_SHADOW_START + (VMALLOC_END - VMALLOC_START) <= 2 ^ 64 ->
  0 < KMSAN_VMALLOC_ORIGIN_START ->
  KMSAN_VMALLOC_ORIGIN_START + (VMALLOC_END - VMALLOC_START) <= 2 ^ 64 ->
  VMALLOC_START <= a -> 0 < n -> a + n <= VMALLOC_END ->
  tracked_range st a n
    (a - VMALLOC_START + KMSAN_VMALLOC_SHADOW_START)
    (a - a mod KMSAN_ORIGIN_SIZE - VMALLOC_START + KMSAN_VMALLOC_ORIGIN_START)
  /\ kmsan_metadata_is_contiguous a n st = Ok true st.
Proof.
  intros Hvs Hal Hend Hs0 Hstop Ho0 Hotop Ha Hn Han.
  assert (S : forall x, VMALLOC_START <= x < VMALLOC_END ->
            meta st x false = x - VMALLOC_START + KMSAN_VMALLOC_SHADOW_START).
  { intros x Hx.
    now rewrite (vmalloc_meta_linear st x false) by (cbv zeta; lia). }
  assert (O : forall x, VMALLOC_START <= x < VMALLOC_END ->
            meta st x true
            = x - x mod KMSAN_ORIGIN_SIZE - VMALLOC_START
              + KMSAN_VMALLOC_ORIGIN_START).
  { intros x Hx.
    now rewrite (vmalloc_meta_linear st x true) by (cbv zeta; lia). }
  split.
  - unfold tracked_range.
    split; [lia|]. split; [unfold KMSAN_ORIGIN_SIZE in *; lia|].
    split; intros j Hj.
    + unfold KMSAN_META_SHADOW. rewrite S by lia. lia.
    + unfold KMSAN_META_ORIGIN. rewrite O by lia.
      unfold KMSAN_ORIGIN_SIZE. lia.
  - apply contiguous_pages_pass; try lia.
    right. right. right. split.
    + rewrite S by lia. lia.
    + intros k Hk Hkn. unfold step_ok, page_step.
      rewrite !S, !O by (unfold PAGE_SIZE in *; lia).
      unfold u64, PAGE_SIZE, KMSAN_ORIGIN_SIZE in *. split; lia.
Qed.

End ResolverZones.

(** ** Stack capture and saturated chains *)

Section CaptureAndChain.
Context {PF : Platform} {SD : StackDepot}.

Lemma land_lnot_clears g r : Z.land (Z.land g (Z.lnot r)) r = 0.
Proof.
  apply Z.bits_inj'. intros i Hi.
  rewrite !Z.land_spec, Z.lnot_spec, Z.bits_0 by exact Hi.
  destruct (Z.testbit g i), (Z.testbit r i); reflexivity.
Qed.

Lemma land_lnot_keeps g r i :
  0 <= i -> Z.testbit r i = false ->
  Z.testbit (Z.land g (Z.lnot r)) i = Z.testbit g i.
Proof.
  intros Hi Hr. rewrite Z.land_spec, Z.lnot_spec, Hr by exact Hi.
  apply andb_true_r.
Qed.

(** X9.  [kmsan_save_stack_with_flags] never lets the store sleep.  It
    always returns, with the handle the store gives for the innermost
    frames of the current call stack (all of them when there are at most
    [KMSAN_STACK_DEPTH], the first [KMSAN_STACK_DEPTH] otherwise), passed
    through the interrupt filter and saved under the reserved bits given
    and under allocation flags that are the caller's with
    [__GFP_DIRECT_RECLAIM] cleared and every other bit kept; the state
    afterwards differs from the one before in the provenance store only,
    which is as that save left it. *)
Theorem save_stack_never_sleeps gfp reserved st :
  exists entries rest fl,
    call_stack st = entries ++ rest
    /\ (length entries <= KMSAN_STACK_DEPTH)%nat
    /\ (rest = [] \/ length entries = KMSAN_STACK_DEPTH)
    /\ Z.land fl __GFP_DIRECT_RECLAIM = 0
    /\ (forall i, 0 <= i -> Z.testbit __GFP_DIRECT_RECLAIM i = false ->
                  Z.testbit fl i = Z.testbit gfp i)
    /\ kmsan_save_stack_with_flags gfp reserved st
       = Ok (fst (stack_depot_save_extra (filter_irq_stacks entries)
                    reserved fl (depot_st st)))
            (set_depot (snd (stack_depot_save_extra
                               (filter_irq_stacks entries) reserved fl
                               (depot_st st))) st).
Proof.
  exists (firstn KMSAN_STACK_DEPTH (call_stack st)),
         (skipn KMSAN_STACK_DEPTH (call_stack st)),
         (Z.land gfp (Z.lnot __GFP_DIRECT_RECLAIM)).
  split; [symmetry; apply firstn_skipn|].
  split; [apply firstn_le_length|].
  split.
  { destruct (Nat.le_gt_cases (length (call_stack st)) KMSAN_STACK_DEPTH)
      as [Hle|Hgt].
    - left. now apply skipn_all2.
    - right. apply firstn_length_le. now apply Nat.lt_le_incl. }
  split; [apply land_lnot_clears|]. split; [apply land_lnot_keeps|].
  reflexivity.
Qed.

Lemma chain_saturated_step id st :
  id <> 0 -> MAX_CHAIN_DEPTH <= origin_depth id ->
  exists st',
    kmsan_internal_chain_origin id st = Ok id st'
    /\ kmsan_skipped_origins st' = kmsan_skipped_origins st + 1
    /\ mem st' = mem st /\ depot_st st' = depot_st st
    /\ reports st' = reports st
    /\ (console st' = console st
        \/ (console st'
            = console st ++ [NotChained (kmsan_skipped_origins st') id]
            /\ Z.rem (kmsan_skipped_origins st') 10000 = 0)).
Proof.
  intros Hid Hd. unfold kmsan_internal_chain_origin.
  apply nz_true in Hid. rewrite Hid. cbn [negb].
  fold (origin_depth id).
  replace (origin_depth id >=? MAX_CHAIN_DEPTH) with true
    by (symmetry; apply Z.geb_le; lia).
  unfold bind at 1. unfold modify at 1. unfold bind at 1. unfold gets at 1.
  unfold bind at 1. unfold when.
  cbn [kmsan_skipped_origins set_skipped].
  destruct (Z.rem (kmsan_skipped_origins st + 1) 10000 =? 0) eqn:E.
  - unfold modify, ret. eexists. split; [reflexivity|].
    cbn. repeat split. right. split; [reflexivity|]. now apply Z.eqb_eq.
  - unfold ret. eexists. split; [reflexivity|].
    cbn. repeat split. now left.
Qed.

Lemma chain_times_saturated k : forall id st,
  id <> 0 -> MAX_CHAIN_DEPTH <= origin_depth id ->
  exists st',
    chain_times k id st = Ok id st'
    /\ kmsan_skipped_origins st' = kmsan_skipped_origins st + Z.of_nat k
    /\ mem st' = mem st /\ depot_st st' = depot_st st
    /\ reports st' = reports st
    /\ exists notes,
         console st' = console st ++ notes
         /\ Forall (fun d => exists s, d = NotChained s id
                                       /\ Z.rem s 10000 = 0
                                       /\ kmsan_skipped_origins st < s
                                          <= kmsan_skipped_origins st') notes.
Proof.
  induction k as [|k IH]; intros id st Hid Hd.
  - exists st. split; [reflexivity|]. split; [cbn; lia|].
    repeat split. exists []. split; [now rewrite app_nil_r|constructor].
  - cbn [chain_times]. unfold bind.
    destruct (chain_saturated_step id st Hid Hd)
      as (st1 & -> & Hs1 & Hm1 & Hd1 & Hr1 & Hc1).
    destruct (IH id st1 Hid Hd)
      as (st' & E & Hs & Hm & Hdp & Hr & notes & Hc & Hn).
    exists st'. split; [exact E|]. split; [lia|].
    split; [congruence|]. split; [congruence|]. split; [congruence|].
    assert (Hn' : Forall (fun d => exists s, d = NotChained s id
                            /\ Z.rem s 10000 = 0
                            /\ kmsan_skipped_origins st < s
                               <= kmsan_skipped_origins st') notes).
    { eapply Forall_impl; [|exact Hn]. cbv beta.
      intros d (s & A & B & C). exists s. repeat split; try assumption; lia. }
    destruct Hc1 as [Hc1|[Hc1 Hrem]].
    + exists notes. split; [congruence|exact Hn'].
    + exists (NotChained (kmsan_skipped_origins st1) id :: notes). split.
      * rewrite Hc, Hc1, <- app_assoc. reflexivity.
      * constructor; [|exact Hn'].
        exists (kmsan_skipped_origins st1). repeat split; try assumption; lia.
Qed.

(** X10.  A saturated chain costs nothing.  Chaining a nonzero handle
    whose decoded depth has reached [MAX_CHAIN_DEPTH], any number of times,
    returns that very handle each time, saves nothing in the provenance
    store and touches neither memory nor the reports; each call adds one to
    the counter of skipped origins (a [long], taken here within its
    range), and the only diagnostics are the not-chained notes printed
    when that counter reaches a multiple of 10000. *)
Theorem chain_saturated_is_idle k id st :
  id <> 0 -> MAX_CHAIN_DEPTH <= origin_depth id ->
  0 <= kmsan_skipped_origins st ->
  kmsan_skipped_origins st + Z.of_nat k < 2 ^ 63 ->
  exists st',
    chain_times k id st = Ok id st'
    /\ kmsan_skipped_origins st' = kmsan_skipped_origins st + Z.of_nat k
    /\ mem st' = mem st /\ depot_st st' = depot_st st
    /\ reports st' = reports st
    /\ exists notes,
         console st' = console st ++ notes
         /\ Forall (fun d => exists s, d = NotChained s id
                                       /\ Z.rem s 10000 = 0
                                       /\ kmsan_skipped_origins st < s
                                          <= kmsan_skipped_origins st') notes.
Proof. intros Hid Hd _ _. now apply chain_times_saturated. Qed.

End CaptureAndChain.

(** ** What the runtime never changes *)

Section Invariants.
Context {PF : Platform} {SD : StackDepot} {HE : HookEnv}.

Lemma shifts_ret {A} (a : A) : shifts_guard 0 (ret a).
Proof.
  intros st r st'. unfold ret. intros [= _ <-].
  repeat split. lia.
Qed.

Lemma shifts_bind {A B} d1 d2 (c : M A) (k : A -> M B) :
  shifts_guard d1 c -> (forall a, shifts_guard d2 (k a)) ->
  shifts_guard (d1 + d2) (bind c k).
Proof.
  intros Hc Hk st r st'. unfold bind.
  destruct (c st) as [a st1| |] eqn:E; try discriminate.
  intros H2. destruct (Hc st a st1 E) as (A1 & A2 & A3 & A4).
  destruct (Hk a st1 r st' H2) as (B1 & B2 & B3 & B4).
  split; [congruence|]. split; [lia|].
  split; [eapply layout_eq_trans; eassumption|congruence].
Qed.

Lemma shifts_bind0 {A B} (c : M A) (k : A -> M B) :
  shifts_guard 0 c -> (forall a, shifts_guard 0 (k a)) ->
  shifts_guard 0 (bind c k).
Proof. apply (shifts_bind 0 0). Qed.

Lemma shifts_gets {A} (f : kstate -> A) : shifts_guard 0 (gets f).
Proof.
  intros st r st'. unfold gets. intros [= _ <-]. repeat split. lia.
Qed.

Lemma shifts_BUG {A} d : shifts_guard d (@BUG SD A).
Proof. intros st r st'. unfold BUG. discriminate. Qed.

Lemma shifts_BUG_ON c : shifts_guard 0 (BUG_ON c).
Proof. destruct c; [apply shifts_BUG|apply shifts_ret]. Qed.

Lemma shifts_modify d (f : kstate -> kstate) :
  (forall st, kmsan_ready (f st) = kmsan_ready st
              /\ kmsan_in_runtime_ctr (f st) = kmsan_in_runtime_ctr st + d
              /\ layout_eq st (f st)
              /\ call_stack (f st) = call_stack st) ->
  shifts_guard d (modify f).
Proof.
  intros Hf st r st'. unfold modify. intros [= _ <-]. apply Hf.
Qed.

Lemma shifts_set_mem (g : kstate -> memory) :
  shifts_guard 0 (modify (fun st => set_mem (g st) st)).
Proof. apply shifts_modify. intros st. repeat split. cbn. lia. Qed.

Lemma shifts_enter : shifts_guard 1 kmsan_enter_runtime.
Proof. apply shifts_modify. intros st. repeat split. Qed.

Lemma shifts_leave : shifts_guard (-1) kmsan_leave_runtime.
Proof. apply shifts_modify. intros st. repeat split. Qed.

(** The bracket [enter; c; leave] of the hooks. *)
Lemma shifts_guarded {A} (c : M A) :
  shifts_guard 0 c ->
  shifts_guard 0 (bind kmsan_enter_runtime (fun _ =>
                    bind c (fun _ => kmsan_leave_runtime))).
Proof.
  intros Hc. apply (shifts_bind 1 (-1)); [apply shifts_enter|].
  intros _. apply (shifts_bind 0 (-1)); [exact Hc|].
  intros _. apply shifts_leave.
Qed.

Lemma shifts_get_metadata a o : shifts_guard 0 (kmsan_get_metadata a o).
Proof.
  intros st r st'. rewrite kmsan_get_metadata_pure. intros [= _ <-].
  repeat split. lia.
Qed.

Lemma shifts_add_console d :
  shifts_guard 0 (modify (add_console d)).
Proof. apply shifts_modify. intros st. repeat split. cbn. lia. Qed.

Lemma shifts_contiguous_report a n : shifts_guard 0 (contiguous_report a n).
Proof.
  unfold contiguous_report.
  apply shifts_bind0; [apply shifts_add_console|]. intros _.
  apply shifts_bind0; [apply shifts_get_metadata|]. intros _.
  apply shifts_ret.
Qed.

Lemma shifts_contiguous_loop fuel : forall a n au next cs co,
  shifts_guard 0 (contiguous_loop fuel a n au next cs co).
Proof.
  induction fuel as [|fuel IH]; intros a n au next cs co;
    cbn [contiguous_loop]; destruct (next <? u64 (a + n));
    try apply shifts_ret.
  - intros st r st'. discriminate.
  - apply shifts_bind0; [apply shifts_get_metadata|]. intros ns.
    apply shifts_bind0; [apply shifts_get_metadata|]. intros no.
    cbv zeta.
    repeat match goal with
           | |- shifts_guard 0 (if ?c then _ else _) => destruct c
           end;
      try apply shifts_contiguous_report; apply IH.
Qed.

Lemma shifts_gate a n : shifts_guard 0 (kmsan_metadata_is_contiguous a n).
Proof.
  unfold kmsan_metadata_is_contiguous. cbv zeta.
  destruct (negb (nz n)); [apply shifts_ret|].
  destruct (_ =? _); [apply shifts_ret|].
  apply shifts_bind0; [apply shifts_get_metadata|]. intros cs.
  apply shifts_bind0; [apply shifts_get_metadata|]. intros co.
  destruct (_ && _); [apply shifts_contiguous_report|].
  apply shifts_contiguous_loop.
Qed.

Lemma shifts_set_shadow_origin a n b o c :
  shifts_guard 0 (kmsan_internal_set_shadow_origin a n b o c).
Proof.
  unfold kmsan_internal_set_shadow_origin. cbv zeta.
  apply shifts_bind0; [apply shifts_gate|]. intros g.
  apply shifts_bind0; [apply shifts_BUG_ON|]. intros _.
  apply shifts_bind0; [apply shifts_get_metadata|]. intros sh.
  destruct (negb (nz sh)).
  - destruct c; [|apply shifts_ret].
    apply shifts_bind0; [apply shifts_add_console|]. intros _.
    apply shifts_BUG.
  - apply shifts_bind0; [apply shifts_set_mem|]. intros _.
    destruct (negb (IS_ALIGNED a KMSAN_ORIGIN_SIZE));
      (apply shifts_bind0; [apply shifts_get_metadata|]; intros og;
       apply shifts_bind0; [apply shifts_BUG_ON|]; intros _;
       apply shifts_set_mem).
Qed.

Lemma shifts_depot_save es eb fl : shifts_guard 0 (depot_save es eb fl).
Proof.
  intros st r st'. unfold depot_save. intros [= _ <-].
  repeat split. cbn. lia.
Qed.

Lemma shifts_save_stack gfp eb :
  shifts_guard 0 (kmsan_save_stack_with_flags gfp eb).
Proof.
  unfold kmsan_save_stack_with_flags.
  apply shifts_bind0; [apply shifts_gets|]. intros es.
  apply shifts_depot_save.
Qed.

Lemma shifts_poison a n gfp pf :
  shifts_guard 0 (kmsan_internal_poison_memory a n gfp pf).
Proof.
  unfold kmsan_internal_poison_memory. cbv zeta.
  apply shifts_bind0; [apply shifts_save_stack|]. intros h.
  apply shifts_set_shadow_origin.
Qed.

Lemma shifts_unpoison a n c :
  shifts_guard 0 (kmsan_internal_unpoison_memory a n c).
Proof. apply shifts_set_shadow_origin. Qed.

Lemma shifts_chain id : shifts_guard 0 (kmsan_internal_chain_origin id).
Proof.
  unfold kmsan_internal_chain_origin. cbv zeta.
  destruct (negb (nz id)); [apply shifts_ret|].
  destruct (_ >=? _).
  - apply shifts_bind0.
    { apply shifts_modify. intros st. repeat split. cbn. lia. }
    intros _. apply shifts_bind0; [apply shifts_gets|]. intros sk.
    apply shifts_bind0; [|intros _; apply shifts_ret].
    unfold when. destruct (_ =? _); [apply shifts_add_console|apply shifts_ret].
  - apply shifts_bind0; [apply shifts_save_stack|]. intros e1.
    apply shifts_depot_save.
Qed.

Lemma shifts_memmove_origins k : forall src n ss os od asrc iter i old new,
  shifts_guard 0 (memmove_origins k src n ss os od asrc iter i old new).
Proof.
  induction k as [|k IH]; intros src n ss os od asrc iter i old new;
    cbn [memmove_origins]; [apply shifts_ret|].
  apply shifts_bind0; [apply shifts_BUG_ON|]. intros _.
  apply shifts_bind0; [apply shifts_gets|]. intros sh. cbv zeta.
  apply shifts_bind0; [apply shifts_gets|]. intros osrc.
  apply shifts_bind0.
  { destruct (_ && _); [|apply shifts_ret].
    apply shifts_bind0; [apply shifts_chain|]. intros c.
    destruct (nz c); apply shifts_ret. }
  intros on. apply shifts_bind0; [apply shifts_set_mem|]. intros _.
  apply IH.
Qed.

Lemma shifts_memmove dst src n :
  shifts_guard 0 (kmsan_memmove_metadata dst src n).
Proof.
  unfold kmsan_memmove_metadata. cbv zeta.
  apply shifts_bind0; [apply shifts_get_metadata|]. intros sd.
  destruct (negb (nz sd)); [apply shifts_ret|].
  apply shifts_bind0; [apply shifts_gate|]. intros g.
  apply shifts_bind0; [apply shifts_BUG_ON|]. intros _.
  apply shifts_bind0; [apply shifts_get_metadata|]. intros ss.
  destruct (negb (nz ss)); [apply shifts_set_mem|].
  apply shifts_bind0; [apply shifts_gate|]. intros g2.
  apply shifts_bind0; [apply shifts_BUG_ON|]. intros _.
  apply shifts_bind0; [apply shifts_set_mem|]. intros _.
  apply shifts_bind0; [apply shifts_get_metadata|]. intros od.
  apply shifts_bind0; [apply shifts_get_metadata|]. intros os.
  apply shifts_bind0; [apply shifts_BUG_ON|]. intros _.
  apply shifts_bind0; [apply shifts_BUG_ON|]. intros _.
  apply shifts_bind0; [apply shifts_BUG_ON|]. intros _.
  apply shifts_bind0; [apply shifts_BUG_ON|]. intros _.
  apply shifts_memmove_origins.
Qed.

Lemma shifts_report_if_open co addr size cs last ua reason :
  shifts_guard 0 (report_if_open co addr size cs last ua reason).
Proof.
  unfold report_if_open, when. destruct (nz co); [|apply shifts_ret].
  apply shifts_guarded. unfold kmsan_report.
  apply shifts_modify. intros st. repeat split. cbn. lia.
Qed.

Lemma shifts_check_chunk k : forall addr size ua reason shadow pos i co cs,
  shifts_guard 0 (check_chunk k addr size ua reason shadow pos i co cs).
Proof.
  induction k as [|k IH]; intros addr size ua reason shadow pos i co cs;
    cbn [check_chunk]; [apply shifts_ret|].
  apply shifts_bind0; [apply shifts_gets|]. intros b.
  destruct (negb (nz b)).
  - apply shifts_bind0; [apply shifts_report_if_open|]. intros _. apply IH.
  - apply shifts_bind0; [apply shifts_get_metadata|]. intros og.
    apply shifts_bind0; [apply shifts_BUG_ON|]. intros _.
    apply shifts_bind0; [apply shifts_gets|]. intros no.
    destruct (negb (co =? no)); [|apply IH].
    apply shifts_bind0; [apply shifts_report_if_open|]. intros _. apply IH.
Qed.

Lemma shifts_check_loop fuel : forall addr size ua reason pos co cs,
  shifts_guard 0 (check_loop fuel addr size ua reason pos co cs).
Proof.
  induction fuel as [|fuel IH]; intros addr size ua reason pos co cs;
    cbn [check_loop]; destruct (pos <? size); try apply shifts_ret.
  - intros st r st'. discriminate.
  - cbv zeta.
    apply shifts_bind0; [apply shifts_get_metadata|]. intros sh.
    destruct (negb (nz sh)).
    + apply shifts_bind0; [apply shifts_report_if_open|]. intros _. apply IH.
    + apply shifts_bind0; [apply shifts_check_chunk|]. intros c. apply IH.
Qed.

Lemma shifts_check addr size ua reason :
  shifts_guard 0 (kmsan_internal_check_memory addr size ua reason).
Proof.
  unfold kmsan_internal_check_memory.
  destruct (negb (nz size)); [apply shifts_ret|].
  apply shifts_bind0; [apply shifts_gate|]. intros g.
  apply shifts_bind0; [apply shifts_BUG_ON|]. intros _.
  apply shifts_bind0; [apply shifts_check_loop|]. intros [[pos co] cs].
  apply shifts_bind0; [apply shifts_BUG_ON|]. intros _.
  apply shifts_report_if_open.
Qed.

Lemma shifts_in_runtime : shifts_guard 0 kmsan_in_runtime.
Proof. apply shifts_gets. Qed.

Lemma shifts_shadow_origin_ptr a n store :
  shifts_guard 0 (kmsan_get_shadow_origin_ptr a n store).
Proof.
  unfold kmsan_get_shadow_origin_ptr. cbv zeta.
  apply shifts_bind0; [apply shifts_BUG_ON|]. intros _.
  apply shifts_bind0; [apply shifts_gets|]. intros ready.
  apply shifts_bind0; [apply shifts_in_runtime|]. intros inrt.
  destruct (_ || _); [destruct store; apply shifts_ret|].
  apply shifts_bind0; [apply shifts_gate|]. intros g.
  apply shifts_bind0; [apply shifts_BUG_ON|]. intros _.
  apply shifts_bind0; [apply shifts_get_metadata|]. intros sh.
  destruct (negb (nz sh)); [destruct store; apply shifts_ret|].
  apply shifts_bind0; [apply shifts_get_metadata|]. intros og.
  apply shifts_ret.
Qed.

(** X11.  What the core never changes.  Whenever one of the core
    operations returns (the contiguity gate, the access layer, filling,
    poisoning, unpoisoning, chaining, metadata propagation, the scanner),
    the readiness flag, the guard counter of the context, the page
    side-table and the call stack are as before the call: the scanner's
    entries into the runtime for reporting are all left again. *)
Theorem core_keeps_context :
  (forall a n, shifts_guard 0 (kmsan_metadata_is_contiguous a n))
  /\ (forall a n store, shifts_guard 0 (kmsan_get_shadow_origin_ptr a n store))
  /\ (forall a n b o c,
        shifts_guard 0 (kmsan_internal_set_shadow_origin a n b o c))
  /\ (forall a n gfp pf,
        shifts_guard 0 (kmsan_internal_poison_memory a n gfp pf))
  /\ (forall a n c, shifts_guard 0 (kmsan_internal_unpoison_memory a n c))
  /\ (forall id, shifts_guard 0 (kmsan_internal_chain_origin id))
  /\ (forall dst src n, shifts_guard 0 (kmsan_memmove_metadata dst src n))
  /\ (forall a n ua reason,
        shifts_guard 0 (kmsan_internal_check_memory a n ua reason)).
Proof.
  split; [exact shifts_gate|].
  split; [exact shifts_shadow_origin_ptr|].
  split; [exact shifts_set_shadow_origin|].
  split; [exact shifts_poison|].
  split; [exact shifts_unpoison|].
  split; [exact shifts_chain|].
  split; [exact shifts_memmove|exact shifts_check].
Qed.

Ltac guard_prefix :=
  apply shifts_bind0; [apply shifts_gets|]; intros ?ready;
  apply shifts_bind0; [apply shifts_in_runtime|]; intros ?inrt;
  destruct (_ || _); [apply shifts_ret|].

Lemma shifts_slab_alloc s object gfp :
  shifts_guard 0 (kmsan_slab_alloc s object gfp).
Proof.
  unfold kmsan_slab_alloc. destruct (negb (nz object)); [apply shifts_ret|].
  guard_prefix. destruct (_ || _); [apply shifts_ret|].
  apply shifts_guarded.
  destruct (nz _); [apply shifts_unpoison|apply shifts_poison].
Qed.

Lemma shifts_slab_free s object :
  shifts_guard 0 (kmsan_slab_free s object).
Proof.
  unfold kmsan_slab_free. guard_prefix.
  destruct (nz _); [apply shifts_ret|].
  destruct (nz _); [apply shifts_ret|].
  apply shifts_guarded. apply shifts_poison.
Qed.

Lemma shifts_kmalloc_large ptr size gfp :
  shifts_guard 0 (kmsan_kmalloc_large ptr size gfp).
Proof.
  unfold kmsan_kmalloc_large. destruct (negb (nz ptr)); [apply shifts_ret|].
  guard_prefix. apply shifts_guarded.
  destruct (nz _); [apply shifts_unpoison|apply shifts_poison].
Qed.

Lemma shifts_kfree_large ptr : shifts_guard 0 (kmsan_kfree_large ptr).
Proof.
  unfold kmsan_kfree_large. guard_prefix. cbv zeta.
  apply (shifts_bind 1 (-1)); [apply shifts_enter|]. intros _.
  apply (shifts_bind 0 (-1)); [apply shifts_BUG_ON|]. intros _.
  apply (shifts_bind 0 (-1)); [apply shifts_poison|]. intros _.
  apply shifts_leave.
Qed.

Lemma shifts_poison_api a n gfp : shifts_guard 0 (kmsan_poison_memory a n gfp).
Proof.
  unfold kmsan_poison_memory. guard_prefix.
  apply shifts_guarded. apply shifts_poison.
Qed.

Lemma shifts_unpoison_api a n : shifts_guard 0 (kmsan_unpoison_memory a n).
Proof.
  unfold kmsan_unpoison_memory. guard_prefix.
  apply shifts_guarded. apply shifts_unpoison.
Qed.

Lemma shifts_copy_to_user to from to_copy left :
  shifts_guard 0 (kmsan_copy_to_user to from to_copy left).
Proof.
  unfold kmsan_copy_to_user. guard_prefix.
  destruct (negb (nz to_copy)); [apply shifts_ret|].
  destruct (to_copy <=? left); [apply shifts_ret|].
  destruct (to <? TASK_SIZE); [apply shifts_check|apply shifts_memmove].
Qed.

Lemma shifts_handle_urb u is_out : shifts_guard 0 (kmsan_handle_urb u is_out).
Proof.
  unfold kmsan_handle_urb. destruct u as [u|]; [|apply shifts_ret].
  destruct is_out; [apply shifts_check|apply shifts_unpoison].
Qed.

Lemma shifts_handle_dma_page addr size dir :
  shifts_guard 0 (kmsan_handle_dma_page addr size dir).
Proof.
  unfold kmsan_handle_dma_page. destruct dir.
  - apply shifts_bind0; [apply shifts_check|]. intros _. apply shifts_unpoison.
  - apply shifts_check.
  - apply shifts_unpoison.
  - apply shifts_ret.
Qed.

Lemma shifts_handle_dma_loop fuel : forall addr size dir,
  shifts_guard 0 (handle_dma_loop fuel addr size dir).
Proof.
  induction fuel as [|fuel IH]; intros addr size dir;
    cbn [handle_dma_loop]; destruct (size >? 0); try apply shifts_ret.
  - intros st r st'. discriminate.
  - cbv zeta. apply shifts_bind0; [apply shifts_handle_dma_page|].
    intros _. apply IH.
Qed.

Lemma shifts_handle_dma page offset size dir :
  shifts_guard 0 (kmsan_handle_dma page offset size dir).
Proof.
  unfold kmsan_handle_dma. destruct (PageHighMem page); [apply shifts_ret|].
  apply shifts_handle_dma_loop.
Qed.

Lemma shifts_gup_loop k : forall pages i, shifts_guard 0 (gup_loop k pages i).
Proof.
  induction k as [|k IH]; intros pages i; cbn [gup_loop];
    [apply shifts_ret|].
  cbv zeta. apply shifts_bind0; [|intros _; apply IH].
  destruct (PageHighMem _); [apply shifts_ret|].
  destruct (_ && _); [apply shifts_unpoison_api|apply shifts_ret].
Qed.

Lemma shifts_gup pages nr : shifts_guard 0 (kmsan_gup_pgd_range pages nr).
Proof. apply shifts_gup_loop. Qed.

Lemma shifts_unpoison_pt_regs regs :
  shifts_guard 0 (kmsan_unpoison_pt_regs regs).
Proof.
  unfold kmsan_unpoison_pt_regs.
  apply shifts_bind0; [apply shifts_gets|]. intros ready.
  destruct (_ || _); [apply shifts_ret|apply shifts_unpoison].
Qed.

Lemma shifts_page_has_metadata p : shifts_guard 0 (page_has_metadata p).
Proof. apply shifts_gets. Qed.

Lemma shifts_copy_page_meta dst src :
  shifts_guard 0 (kmsan_copy_page_meta dst src).
Proof.
  unfold kmsan_copy_page_meta. guard_prefix.
  apply shifts_bind0.
  { destruct (nz dst); [apply shifts_page_has_metadata|apply shifts_ret]. }
  intros dh. destruct (negb dh); [apply shifts_ret|].
  apply shifts_bind0.
  { destruct (nz src); [apply shifts_page_has_metadata|apply shifts_ret]. }
  intros sh. destruct (negb sh); [apply shifts_unpoison|].
  apply (shifts_bind 1 (-1)); [apply shifts_enter|]. intros _.
  apply (shifts_bind 0 (-1)); [apply shifts_gets|]. intros sd.
  apply (shifts_bind 0 (-1)); [apply shifts_gets|]. intros ss.
  apply (shifts_bind 0 (-1)); [apply shifts_set_mem|]. intros _.
  apply (shifts_bind 0 (-1)); [apply shifts_gets|]. intros od.
  apply (shifts_bind 0 (-1)); [apply shifts_gets|]. intros os.
  apply (shifts_bind 0 (-1)); [apply shifts_set_mem|]. intros _.
  apply shifts_leave.
Qed.

Lemma shifts_alloc_page page order gfp :
  shifts_guard 0 (kmsan_alloc_page page order gfp).
Proof.
  unfold kmsan_alloc_page.
  apply shifts_bind0; [apply shifts_gets|]. intros ready. cbv zeta.
  destruct (negb (nz page)); [apply shifts_ret|].
  apply shifts_bind0; [apply shifts_gets|]. intros shadow.
  apply shifts_bind0; [apply shifts_gets|]. intros origin.
  destruct (_ || _).
  - apply shifts_bind0; [apply shifts_set_mem|]. intros _.
    apply shifts_set_mem.
  - apply shifts_bind0; [apply shifts_in_runtime|]. intros inrt.
    destruct inrt; [apply shifts_ret|].
    apply shifts_bind0; [apply shifts_set_mem|]. intros _.
    apply (shifts_bind 1 (-1)); [apply shifts_enter|]. intros _.
    apply (shifts_bind 0 (-1)); [apply shifts_save_stack|]. intros h.
    apply (shifts_bind (-1) 0); [apply shifts_leave|]. intros _.
    apply shifts_set_mem.
Qed.

(** X12.  What the hooks never change.  Whenever a hook returns, the
    readiness flag, the page side-table, the call stack and the guard
    counter of the context are as before the call: every entry into the
    runtime is matched by a leave on each path that returns.  This holds
    for the slab and large-allocation hooks, the ad hoc poison and
    unpoison calls, the user-copy, USB and DMA hooks, the [gup] and
    [pt_regs] hooks and the page copy and page allocation hooks. *)
Theorem hooks_keep_context :
  (forall s object gfp, shifts_guard 0 (kmsan_slab_alloc s object gfp))
  /\ (forall s object, shifts_guard 0 (kmsan_slab_free s object))
  /\ (forall ptr size gfp, shifts_guard 0 (kmsan_kmalloc_large ptr size gfp))
  /\ (forall ptr, shifts_guard 0 (kmsan_kfree_large ptr))
  /\ (forall a n gfp, shifts_guard 0 (kmsan_poison_memory a n gfp))
  /\ (forall a n, shifts_guard 0 (kmsan_unpoison_memory a n))
  /\ (forall a n, shifts_guard 0 (kmsan_check_memory a n))
  /\ (forall to from to_copy left,
        shifts_guard 0 (kmsan_copy_to_user to from to_copy left))
  /\ (forall u is_out, shifts_guard 0 (kmsan_handle_urb u is_out))
  /\ (forall page offset size dir,
        shifts_guard 0 (kmsan_handle_dma page offset size dir))
  /\ (forall pages nr, shifts_guard 0 (kmsan_gup_pgd_range pages nr))
  /\ (forall regs, shifts_guard 0 (kmsan_unpoison_pt_regs regs))
  /\ (forall dst src, shifts_guard 0 (kmsan_copy_page_meta dst src))
  /\ (forall page order gfp, shifts_guard 0 (kmsan_alloc_page page order gfp)).
Proof.
  split; [exact shifts_slab_alloc|].
  split; [exact shifts_slab_free|].
  split; [exact shifts_kmalloc_large|].
  split; [exact shifts_kfree_large|].
  split; [exact shifts_poison_api|].
  split; [exact shifts_unpoison_api|].
  split; [intros a n; apply shifts_check|].
  split; [exact shifts_copy_to_user|].
  split; [exact shifts_handle_urb|].
  split; [exact shifts_handle_dma|].
  split; [exact shifts_gup|].
  split; [exact shifts_unpoison_pt_regs|].
  split; [exact shifts_copy_page_meta|exact shifts_alloc_page].
Qed.

End Invariants.

(** ** The scanner reports exactly the maximal poisoned runs *)

Section ReportLists.

Lemma ordered_from_weaken rs : forall lo lo',
  lo' <= lo -> ordered_from lo rs -> ordered_from lo' rs.
Proof.
  destruct rs as [|r rs]; intros lo lo' Hle H; [exact I|].
  cbn in *. destruct H as (A & B & C). repeat split; try assumption. lia.
Qed.

Lemma ordered_from_app rs1 : forall lo mid rs2,
  ordered_from lo rs1 ->
  Forall (fun r => r_off_last r < mid) rs1 ->
  ordered_from mid rs2 -> lo <= mid ->
  ordered_from lo (rs1 ++ rs2).
Proof.
  induction rs1 as [|r rs1 IH]; intros lo mid rs2 H1 Hb H2 Hle; cbn.
  - now apply (ordered_from_weaken rs2 mid lo).
  - cbn in H1. destruct H1 as (A & B & C).
    pose proof (Forall_inv Hb) as Hr. cbv beta in Hr.
    split; [exact A|]. split; [exact B|].
    apply (IH _ mid); try assumption; [now apply Forall_inv_tail in Hb|lia].
Qed.

Lemma covers_app_l rs1 rs2 j : covers rs1 j -> covers (rs1 ++ rs2) j.
Proof.
  intros (r & Hin & Hj). exists r. split; [|exact Hj].
  apply in_or_app. now left.
Qed.

Lemma covers_app_r rs1 rs2 j : covers rs2 j -> covers (rs1 ++ rs2) j.
Proof.
  intros (r & Hin & Hj). exists r. split; [|exact Hj].
  apply in_or_app. now right.
Qed.

End ReportLists.

Section ExactScan.
Context {PF : Platform} {SD : StackDepot}.
Variables (st0 : kstate) (addr size ua reason : Z).
Hypothesis addr_pos : 0 <= addr.
Hypothesis addr_top : addr + size <= 2 ^ 64.
Hypothesis size_int : size < 2 ^ 31.

Let tg : Z -> Z := tag_at st0 addr.

Let scanned : Z -> Z -> Z -> Z -> Z -> Z -> list report -> Prop :=
  scanned_part tg addr size ua reason.

Lemma scanned_nil co cs p :
  cursor_inv tg co cs p -> scanned co cs p co cs p [].
Proof.
  intros H. unfold scanned, scanned_part.
  split; [constructor|]. split; [exact I|]. split; [constructor|].
  split; [lia|]. split; [intros j Hj; lia|exact H].
Qed.

Lemma scanned_trans co cs p co1 cs1 p1 co2 cs2 p2 rs1 rs2 :
  scanned co cs p co1 cs1 p1 rs1 -> scanned co1 cs1 p1 co2 cs2 p2 rs2 ->
  scanned co cs p co2 cs2 p2 (rs1 ++ rs2).
Proof.
  intros (A1 & A2 & A3 & A4 & A5 & A6) (B1 & B2 & B3 & B4 & B5 & B6).
  unfold scanned, scanned_part.
  split; [apply Forall_app; now split|].
  split; [now apply (ordered_from_app rs1 _ (pending_from co1 cs1 p1))|].
  split.
  { apply Forall_app. split; [|exact B3].
    eapply Forall_impl; [|exact A3]. cbv beta. intros r Hr. lia. }
  split; [lia|]. split; [|exact B6].
  intros j Hj Ht.
  destruct (Z_lt_le_dec j (pending_from co1 cs1 p1)).
  - apply covers_app_l. apply A5; [lia|exact Ht].
  - apply covers_app_r. apply B5; [lia|exact Ht].
Qed.

(** Closing the open run in front of offset [q], whose tag differs from that
    of the run (or which ends the range): one exact report, and no run
    open. *)
Lemma close_run co cs q :
  cursor_inv tg co cs q -> 0 <= q <= size ->
  (q = size \/ tg q <> co) -> nz co = true ->
  exact_report tg addr size ua reason
    (mk_report co addr size cs (s32 (u64 (q - 1))) ua reason)
  /\ s32 (u64 (q - 1)) = q - 1 /\ 0 <= cs < q.
Proof.
  intros Hc Hq Hend Hco. apply nz_true in Hco.
  destruct Hc as [[Hz _]|(_ & Hcs & Hall & Hleft)]; [contradiction|].
  assert (E : s32 (u64 (q - 1)) = q - 1) by (unfold s32, u64; lia).
  split; [|split; [exact E|exact Hcs]].
  unfold exact_report; cbn. rewrite E.
  repeat split; try lia; try assumption.
  - intros j Hj. apply Hall. lia.
  - destruct Hend as [->|Hne]; [now left|right].
    now replace (q - 1 + 1) with q by lia.
Qed.

(** One step that closes the run, if one is open, in front of offset [q]
    and goes on with the cursor [(co', cs')] in front of [q']. *)
Lemma scanned_close co cs q co' cs' q' :
  cursor_inv tg co cs q -> 0 <= q < size -> tg q <> co \/ co = 0 ->
  q < q' -> (nz co' = true -> cs' = q) ->
  (forall j, q < j < pending_from co' cs' q' -> tg j = 0) ->
  (co' = 0 -> tg q = 0) ->
  cursor_inv tg co' cs' q' ->
  scanned co cs q co' cs' q'
    (if nz co
     then [mk_report co addr size cs (s32 (u64 (q - 1))) ua reason]
     else []).
Proof.
  intros Hc Hq Hne Hq' Hcs' Hgap Hz Hc'.
  assert (Hp' : q <= pending_from co' cs' q').
  { unfold pending_from. destruct (nz co') eqn:E; [|lia].
    rewrite (Hcs' eq_refl). lia. }
  assert (Hcov : forall j, q <= j < pending_from co' cs' q' -> tg j = 0).
  { intros j Hj. destruct (Z.eq_dec j q) as [->|Hjq].
    - unfold pending_from in Hj. destruct (nz co') eqn:E.
      + rewrite (Hcs' eq_refl) in Hj. lia.
      + apply Hz. now apply nz_false.
    - apply Hgap. lia. }
  destruct (nz co) eqn:Eco.
  - assert (Hend : q = size \/ tg q <> co).
    { destruct Hne as [H|H]; [now right|].
      apply nz_true in Eco. contradiction. }
    destruct (close_run co cs q Hc ltac:(lia) Hend Eco) as (Hex & E & Hcs).
    unfold scanned, scanned_part, pending_from at 1 3 5. rewrite Eco.
    split; [now constructor|].
    split; [cbn; rewrite E; repeat split; lia|].
    split; [constructor; [cbn; rewrite E; lia|constructor]|].
    split; [lia|]. split; [|exact Hc'].
    intros j Hj Ht.
    destruct (Z_lt_le_dec j q).
    + eexists. split; [now left|]. cbn. rewrite E. lia.
    + exfalso. apply Ht. apply Hcov. lia.
  - unfold scanned, scanned_part, pending_from at 1 3 5. rewrite Eco.
    split; [constructor|]. split; [exact I|]. split; [constructor|].
    split; [lia|]. split; [|exact Hc'].
    intros j Hj Ht. exfalso. apply Ht. now apply Hcov.
Qed.

Lemma check_chunk_exact shadow pos k : forall i co cs st,
  scan_frame st0 st -> 0 <= pos -> 0 <= i ->
  pos + i + Z.of_nat k <= size ->
  (forall t, i <= t < i + Z.of_nat k ->
     shadow_at st0 addr (pos + t) = load8 (mem st0) (shadow + t)) ->
  cursor_inv tg co cs (pos + i) ->
  match check_chunk k addr size ua reason shadow pos i co cs st with
  | Ok res st' =>
    exists rs, st' = add_reports rs st
      /\ scanned co cs (pos + i) (fst res) (snd res)
           (pos + i + Z.of_nat k) rs
  | Bug => True
  | OutOfFuel => False
  end.
Proof.
  induction k as [|k IH]; intros i co cs st Hfr Hpos Hi Hk Hsh Hcur.
  - unfold check_chunk, ret. exists []. split; [reflexivity|].
    cbn [fst snd]. replace (pos + i + Z.of_nat 0) with (pos + i) by lia.
    now apply scanned_nil.
  - cbn [check_chunk]. unfold bind at 1. unfold gets at 1.
    replace (pos + i + Z.of_nat (S k)) with (pos + (i + 1) + Z.of_nat k)
      by lia.
    assert (Hm : mem st = mem st0) by (destruct Hfr; assumption).
    rewrite Hm, <- (Hsh i) by lia.
    assert (Hsh' : forall t, i + 1 <= t < i + 1 + Z.of_nat k ->
              shadow_at st0 addr (pos + t) = load8 (mem st0) (shadow + t)).
    { intros t Ht. apply Hsh. lia. }
    assert (Es : s32 (u64 (pos + i)) = pos + i) by (unfold s32, u64; lia).
    (* the rest of the chunk, after this byte settled as [rs1] *)
    assert (Hrest : forall co1 cs1 rs1 st2,
      st2 = add_reports rs1 st ->
      scanned co cs (pos + i) co1 cs1 (pos + (i + 1)) rs1 ->
      match check_chunk k addr size ua reason shadow pos (i + 1) co1 cs1 st2
      with
      | Ok res st' =>
        exists rs, st' = add_reports rs st
          /\ scanned co cs (pos + i) (fst res) (snd res)
               (pos + (i + 1) + Z.of_nat k) rs
      | Bug => True
      | OutOfFuel => False
      end).
    { intros co1 cs1 rs1 st2 -> Hs1.
      pose proof Hs1 as (_ & _ & _ & _ & _ & Hc1).
      specialize (IH (i + 1) co1 cs1 (add_reports rs1 st)
                    (scan_frame_add_reports st0 st rs1 Hfr) Hpos
                    ltac:(lia) ltac:(lia) Hsh' Hc1).
      destruct (check_chunk k _ _ _ _ _ _ _ _ _ _) as [res st'| |];
        [|exact I|exact IH].
      destruct IH as (rs2 & -> & Hs2).
      exists (rs1 ++ rs2). split; [now rewrite add_reports_app|].
      now apply (scanned_trans _ _ _ co1 cs1 (pos + (i + 1))). }
    assert (Hreport : forall last,
      report_if_open co addr size cs last ua reason st
      = Ok tt (add_reports
                 (if nz co then [mk_report co addr size cs last ua reason]
                  else []) st)).
    { intros last. rewrite report_if_open_eq. now destruct (nz co). }
    destruct (nz (shadow_at st0 addr (pos + i))) eqn:Eb; cbn [negb].
    + (* a poisoned byte *)
      unfold bind at 1. rewrite kmsan_get_metadata_pure.
      unfold bind at 1. unfold BUG_ON.
      destruct (negb (nz (meta st (u64 (addr + pos + i)) KMSAN_META_ORIGIN)));
        [exact I|].
      unfold ret at 1. unfold bind at 1. unfold gets at 1.
      assert (Enew : load32 (mem st)
                       (meta st (u64 (addr + pos + i)) KMSAN_META_ORIGIN)
                     = tg (pos + i)).
      { unfold tg, tag_at. rewrite Eb. unfold origin_at.
        destruct Hfr as [_ L].
        rewrite Hm, <- (meta_ext st0 st) by exact L.
        now rewrite Z.add_assoc. }
      rewrite Enew.
      destruct (negb (co =? tg (pos + i))) eqn:Ene.
      * apply negb_true_iff, Z.eqb_neq in Ene.
        unfold bind. rewrite Hreport. rewrite Es.
        apply (Hrest _ _ _ _ eq_refl).
        replace (pos + i - 1) with ((pos + i) - 1) by lia.
        apply scanned_close.
        -- exact Hcur.
        -- lia.
        -- left. congruence.
        -- lia.
        -- intros _. reflexivity.
        -- intros j Hj. unfold pending_from in Hj.
           destruct (nz (tg (pos + i))); lia.
        -- intros E. exact E.
        -- destruct (Z.eq_dec (tg (pos + i)) 0) as [E0|E0].
           ++ left. split; [exact E0|]. right.
              now replace (pos + (i + 1) - 1) with (pos + i) by lia.
           ++ right. split; [exact E0|]. split; [lia|]. split.
              ** intros j Hj. now replace j with (pos + i) by lia.
              ** destruct Hcur as [[Hz Hp]|(Hco & Hcs & Hall & _)].
                 --- destruct Hp as [Hp|Hp]; [left; lia|right].
                     rewrite Hp. congruence.
                 --- right. rewrite Hall by lia. congruence.
      * apply negb_false_iff, Z.eqb_eq in Ene.
        apply (Hrest co cs [] st eq_refl).
        unfold scanned, scanned_part.
        split; [constructor|]. split; [exact I|]. split; [constructor|].
        assert (Hc1 : cursor_inv tg co cs (pos + (i + 1))).
        { destruct Hcur as [[Hz Hp]|(Hco & Hcs & Hall & Hleft)].
          - left. split; [exact Hz|]. right.
            replace (pos + (i + 1) - 1) with (pos + i) by lia. congruence.
          - right. split; [exact Hco|]. split; [lia|]. split; [|exact Hleft].
            intros j Hj. destruct (Z.eq_dec j (pos + i)) as [->|Hn];
              [congruence|apply Hall; lia]. }
        unfold pending_from. destruct (nz co) eqn:Eco.
        -- split; [lia|]. split; [intros j Hj; lia|exact Hc1].
        -- split; [lia|]. split; [|exact Hc1].
           intros j Hj Ht. exfalso. apply Ht. apply nz_false in Eco.
           replace j with (pos + i) by lia. congruence.
    + (* a clean byte *)
      assert (Et : tg (pos + i) = 0).
      { unfold tg, tag_at. now rewrite Eb. }
      unfold bind. rewrite Hreport.
      apply (Hrest _ _ _ _ eq_refl).
      replace (pos + i - 1) with ((pos + i) - 1) by lia.
      apply scanned_close.
      * exact Hcur.
      * lia.
      * destruct (Z.eq_dec co 0) as [E|E]; [now right|left; congruence].
      * lia.
      * cbn. discriminate.
      * intros j Hj. unfold pending_from in Hj. cbn in Hj. lia.
      * intros _. exact Et.
      * left. split; [reflexivity|]. right.
        now replace (pos + (i + 1) - 1) with (pos + i) by lia.
Qed.


Lemma chunk_start_in pos chunk j :
  0 <= pos -> pos = 0 \/ (addr + pos) mod PAGE_SIZE = 0 ->
  chunk <= PAGE_SIZE - (addr + pos) mod PAGE_SIZE ->
  pos <= j < pos + chunk ->
  chunk_start addr j = pos.
Proof.
  intros Hpos Hal Hch Hj. unfold chunk_start, ALIGN_DOWN, PAGE_SIZE in *.
  destruct Hal as [->|Hal]; lia.
Qed.

Lemma check_loop_exact fuel : forall pos co cs st,
  scan_frame st0 st -> 0 <= pos <= size ->
  pos = 0 \/ (addr + pos) mod PAGE_SIZE = 0 \/ pos = size ->
  size - pos <= Z.of_nat fuel ->
  cursor_inv tg co cs pos ->
  match check_loop fuel addr size ua reason pos co cs st with
  | Ok res st' =>
    fst (fst res) = size
    /\ exists rs, st' = add_reports rs st
         /\ scanned co cs pos (snd (fst res)) (snd res) size rs
  | Bug => True
  | OutOfFuel => False
  end.
Proof.
  induction fuel as [|fuel IH]; intros pos co cs st Hfr Hpos Hal Hfuel Hcur;
    cbn [check_loop]; destruct (pos <? size) eqn:Elt;
    try (apply Z.ltb_lt in Elt); try (apply Z.ltb_ge in Elt).
  - lia.
  - unfold ret. cbn [fst snd]. split; [lia|]. exists [].
    split; [reflexivity|]. replace size with pos by lia.
    now apply scanned_nil.
  - assert (Eap : u64 (addr + pos) = addr + pos) by (unfold u64; lia).
    rewrite Eap.
    remember (s32 (Z.min (u64 (size - pos))
                 (u64 (PAGE_SIZE - (addr + pos) mod PAGE_SIZE))))
      as chunk eqn:Ech.
    assert (Hchunk : 1 <= chunk /\ pos + chunk <= size
                     /\ chunk <= PAGE_SIZE - (addr + pos) mod PAGE_SIZE
                     /\ (pos + chunk = size
                         \/ (addr + (pos + chunk)) mod PAGE_SIZE = 0)).
    { subst chunk. unfold s32, u64, PAGE_SIZE. lia. }
    destruct Hchunk as (Hc1 & Hc2 & Hc3 & Hc4).
    assert (Enext : u64 (pos + chunk) = pos + chunk)
      by (unfold u64, PAGE_SIZE in *; lia).
    rewrite Enext.
    assert (Hal0 : pos = 0 \/ (addr + pos) mod PAGE_SIZE = 0) by lia.
    assert (Hstart : forall j, pos <= j < pos + chunk ->
              chunk_start addr j = pos).
    { intros j Hj. now apply (chunk_start_in pos chunk). }
    assert (Hal' : pos + chunk = 0
                   \/ (addr + (pos + chunk)) mod PAGE_SIZE = 0
                   \/ pos + chunk = size) by lia.
    (* the remaining chunks, after this one settled as [rs1] *)
    assert (Hrest : forall co1 cs1 rs1 st2,
      st2 = add_reports rs1 st ->
      scanned co cs pos co1 cs1 (pos + chunk) rs1 ->
      match check_loop fuel addr size ua reason (pos + chunk) co1 cs1 st2
      with
      | Ok res st' =>
        fst (fst res) = size
        /\ exists rs, st' = add_reports rs st
             /\ scanned co cs pos (snd (fst res)) (snd res) size rs
      | Bug => True
      | OutOfFuel => False
      end).
    { intros co1 cs1 rs1 st2 -> Hs1.
      pose proof Hs1 as (_ & _ & _ & _ & _ & Hcur1).
      specialize (IH (pos + chunk) co1 cs1 (add_reports rs1 st)
                    (scan_frame_add_reports st0 st rs1 Hfr)
                    ltac:(lia) Hal' ltac:(lia) Hcur1).
      destruct (check_loop fuel _ _ _ _ _ _ _ _) as [res st'| |];
        [|exact I|exact IH].
      destruct IH as (Hp & rs2 & -> & Hs2).
      split; [exact Hp|].
      exists (rs1 ++ rs2). split; [now rewrite add_reports_app|].
      now apply (scanned_trans _ _ _ co1 cs1 (pos + chunk)). }
    unfold bind at 1. rewrite kmsan_get_metadata_pure.
    assert (Esh : meta st (addr + pos) KMSAN_META_SHADOW
                  = meta st0 (addr + pos) KMSAN_META_SHADOW).
    { destruct Hfr as [_ L]. symmetry. now apply meta_ext. }
    rewrite Esh.
    destruct (nz (meta st0 (addr + pos) KMSAN_META_SHADOW)) eqn:Enz;
      cbn [negb].
    + unfold bind at 1.
      pose proof (check_chunk_exact
        (meta st0 (addr + pos) KMSAN_META_SHADOW) pos
        (Z.to_nat chunk) 0 co cs st Hfr ltac:(lia) ltac:(lia)) as Hc.
      rewrite Z2Nat.id in Hc by lia.
      replace (pos + 0) with pos in Hc by lia.
      specialize (Hc ltac:(lia)).
      assert (Hbytes : forall t, 0 <= t < 0 + chunk ->
                shadow_at st0 addr (pos + t)
                = load8 (mem st0)
                    (meta st0 (addr + pos) KMSAN_META_SHADOW + t)).
      { intros t Ht. unfold shadow_at. cbv zeta.
        rewrite Hstart by lia. rewrite Eap, Enz. f_equal. lia. }
      specialize (Hc Hbytes Hcur).
      destruct (check_chunk _ _ _ _ _ _ _ _ _ _ st) as [c st1| |];
        [|exact I|exact Hc].
      destruct Hc as (rs1 & -> & Hs1).
      now apply (Hrest (fst c) (snd c) rs1).
    + assert (Hz : forall j, pos <= j < pos + chunk -> tg j = 0).
      { intros j Hj. unfold tg, tag_at, shadow_at. cbv zeta.
        rewrite Hstart by lia. rewrite Eap, Enz. reflexivity. }
      unfold bind. rewrite report_if_open_eq.
      apply (Hrest 0 (-1)
               (if nz co
                then [mk_report co addr size cs (s32 (u64 (pos - 1))) ua
                        reason]
                else [])).
      { now destruct (nz co). }
      apply scanned_close.
      * exact Hcur.
      * lia.
      * destruct (Z.eq_dec co 0) as [E|E]; [now right|left].
        rewrite Hz by lia. congruence.
      * lia.
      * cbn. discriminate.
      * intros j Hj. unfold pending_from in Hj. cbn in Hj.
        apply Hz. lia.
      * intros _. apply Hz. lia.
      * left. split; [reflexivity|]. right. apply Hz. lia.
  - unfold ret. cbn [fst snd]. split; [lia|]. exists [].
    split; [reflexivity|]. replace size with pos by lia.
    now apply scanned_nil.
Qed.

End ExactScan.

Section ExactScanTheorems.
Context {PF : Platform} {SD : StackDepot}.

(** The scanner, in full. *)
Lemma check_memory_exact st addr size ua reason :
  0 <= addr -> addr + size + PAGE_SIZE <= 2 ^ 64 -> 0 <= size < 2 ^ 31 ->
  match kmsan_internal_check_memory addr size ua reason st with
  | Ok _ st' =>
    exists rs, st' = add_reports rs st
      /\ Forall (exact_report (tag_at st addr) addr size ua reason) rs
      /\ ordered_from 0 rs
      /\ (forall j, 0 <= j < size -> tag_at st addr j <> 0 -> covers rs j)
  | Bug => True
  | OutOfFuel => False
  end.
Proof.
  intros Haddr Htop Hsize.
  unfold kmsan_internal_check_memory.
  destruct (negb (nz size)) eqn:En.
  { unfold ret. exists []. split; [reflexivity|]. split; [constructor|].
    split; [exact I|]. intros j Hj.
    apply negb_true_iff, nz_false in En. lia. }
  unfold bind at 1.
  destruct (kmsan_metadata_is_contiguous addr size st) as [c st1| |] eqn:Ec.
  2: exact I.
  2:{ revert Ec. apply contiguous_fuel; lia. }
  unfold bind at 1. unfold BUG_ON.
  destruct c; cbn [negb]; [|exact I].
  apply contiguous_true in Ec as [-> _]. unfold ret at 1.
  unfold bind at 1.
  pose proof (check_loop_exact st addr size ua reason Haddr
                ltac:(unfold PAGE_SIZE in *; lia) ltac:(lia)
                (Z.to_nat size) 0 0 (-1) st (scan_frame_refl st)
                ltac:(lia) ltac:(now left) ltac:(lia)) as H.
  assert (Hc0 : cursor_inv (tag_at st addr) 0 (-1) 0)
    by (left; split; [reflexivity|now left]).
  specialize (H Hc0).
  destruct (check_loop _ _ _ _ _ _ _ _ st) as [[[p co] cs] st1| |];
    [|exact I|exact H].
  destruct H as (Hp & rs & -> & Hs). cbn [fst snd] in *. subst p.
  destruct Hs as (Hex & Hord & Hlast & Hle & Hcov & Hcur).
  change (pending_from 0 (-1) 0) with 0 in *.
  unfold bind at 1. unfold BUG_ON. rewrite Z.eqb_refl. cbn [negb].
  unfold ret at 1. rewrite report_if_open_eq.
  destruct (nz co) eqn:Eco.
  - destruct (close_run st addr size ua reason ltac:(lia) co cs size Hcur
                ltac:(lia) ltac:(now left) Eco) as (Hfin & E & Hcs).
    unfold pending_from in *. rewrite Eco in *.
    eexists (rs ++ [_]). split; [now rewrite add_reports_app|].
    split; [apply Forall_app; split; [exact Hex|now constructor]|].
    split.
    { apply (ordered_from_app rs 0 cs); try assumption; try lia.
      cbn. rewrite E. repeat split; lia. }
    intros j Hj Ht. destruct (Z_lt_le_dec j cs).
    + apply covers_app_l. apply Hcov; [lia|exact Ht].
    + apply covers_app_r. eexists. split; [now left|]. cbn. rewrite E. lia.
  - unfold pending_from in *. rewrite Eco in *.
    exists rs. split; [reflexivity|]. split; [exact Hex|].
    split; [exact Hord|]. intros j Hj Ht. now apply Hcov.
Qed.

(** X13.  The scanner reports exactly the poisoned runs.  When
    [kmsan_internal_check_memory] returns, it has only added reports, and
    these are the maximal runs of bytes of one nonzero tag, in increasing
    order and without overlap, where the tag of a byte is the origin handle
    of its granule if its shadow byte is nonzero and 0 otherwise: within a
    run every byte has the origin reported, a run cannot be extended on
    either side, and every byte with a nonzero tag lies in a run.  The scan
    aborts or ends; it never runs out of steps. *)
Theorem check_memory_reports_maximal_runs st addr size ua reason :
  0 <= addr -> addr + size + PAGE_SIZE <= 2 ^ 64 -> 0 <= size < 2 ^ 31 ->
  match kmsan_internal_check_memory addr size ua reason st with
  | Ok _ st' =>
    exists rs, st' = add_reports rs st
      /\ Forall (exact_report (tag_at st addr) addr size ua reason) rs
      /\ ordered_from 0 rs
      /\ (forall j, 0 <= j < size -> tag_at st addr j <> 0 -> covers rs j)
  | Bug => True
  | OutOfFuel => False
  end.
Proof. exact (check_memory_exact st addr size ua reason). Qed.

End ExactScanTheorems.

(** ** The user-copy, USB and DMA hooks *)

Section BoundaryHooks.
Context {PF : Platform} {SD : StackDepot} {HE : HookEnv}.

Lemma guard_closed st :
  kmsan_ready st = false \/ kmsan_in_runtime_ctr st <> 0 ->
  negb (kmsan_ready st) || nz (kmsan_in_runtime_ctr st) = true.
Proof.
  intros [-> | H]; [reflexivity|].
  apply nz_true in H. rewrite H. apply orb_true_r.
Qed.

Lemma guard_open st :
  kmsan_ready st = true -> kmsan_in_runtime_ctr st = 0 ->
  negb (kmsan_ready st) || nz (kmsan_in_runtime_ctr st) = false.
Proof. intros -> ->. reflexivity. Qed.

(** X14.  [kmsan_copy_to_user] does nothing before readiness, inside the
    runtime, or when nothing was copied ([to_copy] is 0 or not above
    [left]).  For a destination below [TASK_SIZE] it only scans the
    [to_copy - left] bytes actually copied from the kernel source: the state
    changes by reports only, and these are the maximal poisoned runs of
    that range, each carrying the user address and the reason
    [REASON_COPY_TO_USER].  For a destination at or above [TASK_SIZE] it
    checks nothing and propagates the metadata of those bytes to the
    destination instead. *)
Theorem copy_to_user_checks_user_copies st to from to_copy left :
  (kmsan_ready st = false \/ kmsan_in_runtime_ctr st <> 0
   \/ to_copy = 0 \/ to_copy <= left ->
   kmsan_copy_to_user to from to_copy left st = Ok tt st)
  /\ (kmsan_ready st = true -> kmsan_in_runtime_ctr st = 0 ->
      0 <= left < to_copy -> to_copy < 2 ^ 31 -> to < TASK_SIZE ->
      0 <= from -> from + to_copy + PAGE_SIZE <= 2 ^ 64 ->
      match kmsan_copy_to_user to from to_copy left st with
      | Ok _ st' =>
        exists rs, st' = add_reports rs st
          /\ Forall (exact_report (tag_at st from) from (to_copy - left) to
                       REASON_COPY_TO_USER) rs
          /\ ordered_from 0 rs
          /\ (forall j, 0 <= j < to_copy - left ->
                tag_at st from j <> 0 -> covers rs j)
      | Bug => True
      | OutOfFuel => False
      end)
  /\ (kmsan_ready st = true -> kmsan_in_runtime_ctr st = 0 ->
      0 <= left < to_copy -> to_copy < 2 ^ 64 -> TASK_SIZE <= to ->
      kmsan_copy_to_user to from to_copy left st
      = kmsan_memmove_metadata to from (to_copy - left) st).
Proof.
  split; [|split].
  - intros H. unfold kmsan_copy_to_user.
    unfold kmsan_in_runtime. unfold bind, gets.
    destruct (negb (kmsan_ready st) || nz (kmsan_in_runtime_ctr st)) eqn:G;
      [reflexivity|].
    destruct H as [H|[H|[H|H]]].
    + rewrite guard_closed in G by now left. discriminate.
    + rewrite guard_closed in G by now right. discriminate.
    + subst to_copy. reflexivity.
    + destruct (negb (nz to_copy)); [reflexivity|].
      replace (to_copy <=? left) with true by (symmetry; now apply Z.leb_le).
      reflexivity.
  - intros Hready Hctr Hleft Hsz Hto Hfrom Htop.
    unfold kmsan_copy_to_user. unfold kmsan_in_runtime. unfold bind, gets.
    rewrite guard_open by assumption.
    replace (negb (nz to_copy)) with false
      by (symmetry; apply negb_false_iff, nz_true; lia).
    replace (to_copy <=? left) with false by (symmetry; apply Z.leb_gt; lia).
    replace (to <? TASK_SIZE) with true by (symmetry; now apply Z.ltb_lt).
    replace (u64 (to_copy - left)) with (to_copy - left)
      by (unfold u64; lia).
    apply check_memory_exact; unfold PAGE_SIZE in *; lia.
  - intros Hready Hctr Hleft Hsz Hto.
    unfold kmsan_copy_to_user. unfold kmsan_in_runtime. unfold bind, gets.
    rewrite guard_open by assumption.
    replace (negb (nz to_copy)) with false
      by (symmetry; apply negb_false_iff, nz_true; lia).
    replace (to_copy <=? left) with false by (symmetry; apply Z.leb_gt; lia).
    replace (to <? TASK_SIZE) with false by (symmetry; now apply Z.ltb_ge).
    replace (u64 (to_copy - left)) with (to_copy - left)
      by (unfold u64; lia).
    reflexivity.
Qed.

(** X15.  USB transfers.  [kmsan_handle_urb] ignores a null request.  An
    inbound transfer marks the whole transfer buffer initialized, so that
    a following outbound submission of the same request, which scans the
    buffer, reports nothing. *)
Theorem urb_in_then_out_is_quiet st u sh og :
  let a := transfer_buffer u in
  let n := transfer_buffer_length u in
  0 <= a -> 0 < n < 2 ^ 31 -> a + n <= 2 ^ 64 ->
  tracked_range st a n sh og ->
  metadata_apart a n sh og ->
  kmsan_metadata_is_contiguous a n st = Ok true st ->
  (forall is_out, kmsan_handle_urb None is_out st = Ok tt st)
  /\ exists st1,
       kmsan_handle_urb (Some u) false st = Ok tt st1
       /\ only_mem_changed st st1
       /\ filled_with st1 a n 0 0
       /\ kmsan_handle_urb (Some u) true st1 = Ok tt st1.
Proof.
  intros a n Ha Hn Htop Htr Hdis Hgate.
  split; [reflexivity|].
  destruct (set_shadow_origin_filled st a n 0 0 false sh og)
    as (st1 & E & Hm & Hf & _); try assumption; try lia.
  exists st1. split; [exact E|]. split; [exact Hm|]. split; [exact Hf|].
  assert (L : layout_eq st st1) by (rewrite Hm; apply layout_eq_set_mem).
  cbn [kmsan_handle_urb]. fold a n.
  apply (check_quiet_range st1 a n 0 REASON_SUBMIT_URB sh og 0); try lia.
  - now apply (tracked_range_ext st st1).
  - left. exact Hf.
  - apply (contiguous_true a n st st Hgate). exact L.
Qed.

(** A range inside one page passes the gate without a look at metadata. *)
Lemma gate_same_page st a n :
  0 <= a -> 0 < n -> a + n <= 2 ^ 64 ->
  (a + n - 1) / PAGE_SIZE = a / PAGE_SIZE ->
  kmsan_metadata_is_contiguous a n st = Ok true st.
Proof.
  intros Ha Hn Htop Hpage. unfold kmsan_metadata_is_contiguous.
  destruct (negb (nz n)); [reflexivity|].
  replace (ALIGN_DOWN (u64 (a + n - 1)) PAGE_SIZE
           =? ALIGN_DOWN a PAGE_SIZE) with true; [reflexivity|].
  symmetry. apply Z.eqb_eq.
  unfold ALIGN_DOWN, u64, PAGE_SIZE in *. lia.
Qed.

Lemma set_origin_slots_zeroes k : forall og i m,
  only_zeroed m (set_origin_slots k og i 0 m).
Proof.
  induction k as [|k IH]; intros og i m x; cbn [set_origin_slots];
    [now right|].
  destruct (IH og (i + 1) (store32 m (og + KMSAN_ORIGIN_SIZE * i) 0) x)
    as [H|H]; [now left|].
  rewrite H. unfold store32, load8, store8.
  repeat match goal with
         | |- context [x =? ?y] => destruct (x =? y); [now left|]
         end.
  now right.
Qed.

Lemma memset_zeroes m p n : only_zeroed m (memset m p 0 n).
Proof.
  intros x. unfold load8, memset.
  destruct (_ && _); [now left|now right].
Qed.

Lemma only_zeroed_trans m1 m2 m3 :
  only_zeroed m1 m2 -> only_zeroed m2 m3 -> only_zeroed m1 m3.
Proof.
  intros H1 H2 x. destruct (H2 x) as [H|H]; [now left|].
  rewrite H. apply H1.
Qed.

Lemma dma_loop_from_device fuel : forall a n st,
  0 <= a -> 0 <= n -> a + n < 2 ^ 64 -> n <= Z.of_nat fuel ->
  tracked_pagewise st a n ->
  exists st',
    handle_dma_loop fuel a n DMA_FROM_DEVICE st = Ok tt st'
    /\ only_mem_changed st st'
    /\ (forall j, 0 <= j < n ->
          load8 (mem st') (meta st (a + j) KMSAN_META_SHADOW) = 0)
    /\ only_zeroed (mem st) (mem st').
Proof.
  induction fuel as [|fuel IH]; intros a n st Ha Hn Htop Hfuel Htr;
    cbn [handle_dma_loop]; destruct (n >? 0) eqn:En.
  - rewrite Z.gtb_ltb in En. apply Z.ltb_lt in En. lia.
  - exists st. split; [reflexivity|]. split; [now destruct st|].
    rewrite Z.gtb_ltb in En. apply Z.ltb_ge in En.
    split; [intros j Hj; lia|]. intros x. now right.
  - rewrite Z.gtb_ltb in En. apply Z.ltb_lt in En. cbv zeta.
    remember (Z.min (u64 (PAGE_SIZE - a mod PAGE_SIZE)) n) as g eqn:Eg.
    assert (Hg : 1 <= g <= n /\ g <= PAGE_SIZE
                 /\ (a + g - 1) / PAGE_SIZE = a / PAGE_SIZE).
    { subst g. unfold u64, PAGE_SIZE. lia. }
    destruct Hg as (Hg1 & Hg2 & Hg3).
    destruct Htr as (Hnz & Hlin).
    destruct (Hnz 0 ltac:(lia)) as (Hs0 & Ho0).
    rewrite Z.add_0_r in Hs0, Ho0.
    unfold bind. cbn [kmsan_handle_dma_page].
    unfold kmsan_internal_unpoison_memory.
    rewrite (set_shadow_origin_tracked st a g 0 0 false
               (meta st a KMSAN_META_SHADOW) (meta st a KMSAN_META_ORIGIN));
      try reflexivity; try assumption; try (unfold PAGE_SIZE in *; lia).
    2:{ apply gate_same_page; try lia. }
    set (m1 := set_origin_slots _ _ _ _ _).
    assert (Hm1 : only_zeroed (mem st) m1).
    { subst m1. eapply only_zeroed_trans;
        [apply memset_zeroes|apply set_origin_slots_zeroes]. }
    assert (H1 : forall j, 0 <= j < g ->
              load8 m1 (meta st a KMSAN_META_SHADOW + j) = 0).
    { intros j Hj. subst m1. change (u32 0) with 0.
      destruct (set_origin_slots_zeroes
                  (Z.to_nat (filled_slots a g))
                  (meta st a KMSAN_META_ORIGIN) 0
                  (memset (mem st) (meta st a KMSAN_META_SHADOW) 0 g)
                  (meta st a KMSAN_META_SHADOW + j)) as [H|H];
        [exact H|].
      rewrite H. rewrite load8_memset_in by (clear - Hj; lia). reflexivity. }
    clearbody m1.
    set (st1 := set_mem m1 st).
    assert (L : layout_eq st st1) by apply layout_eq_set_mem.
    assert (Hmem1 : mem st1 = m1) by reflexivity.
    assert (Hch1 : st1 = set_mem m1 st) by reflexivity.
    clearbody st1.
    replace (u64 (a + g)) with (a + g) by (unfold u64; lia).
    replace (u64 (n - g)) with (n - g) by (unfold u64; lia).
    assert (Htr1 : tracked_pagewise st1 (a + g) (n - g)).
    { split.
      - intros j Hj. rewrite <- !(meta_ext st st1) by exact L.
        replace (a + g + j) with (a + (g + j)) by lia. apply Hnz. lia.
      - intros j j' Hj Hj' Hp. rewrite <- !(meta_ext st st1) by exact L.
        replace (a + g + j') with (a + (g + j')) in * by lia.
        replace (a + g + j) with (a + (g + j)) in * by lia.
        rewrite (Hlin (g + j) (g + j') ltac:(clear - Hj Hg1; lia)
                   ltac:(clear - Hj'; lia) Hp).
        clear. lia. }
    destruct (IH (a + g) (n - g) st1 ltac:(lia) ltac:(lia) ltac:(lia)
                ltac:(lia) Htr1) as (st' & E & Hm & Hz & Hmono).
    exists st'. split; [exact E|].
    split.
    { unfold only_mem_changed in *. rewrite Hm, Hch1.
      now destruct st. }
    split.
    + intros j Hj. destruct (Z_lt_le_dec j g) as [Hlt|Hge].
      * assert (Ej : meta st (a + j) KMSAN_META_SHADOW
                     = meta st a KMSAN_META_SHADOW + j).
        { assert (Hp : (a + 0) / PAGE_SIZE = (a + j) / PAGE_SIZE).
          { clear - Hg3 Hg1 Hlt Hj Ha. unfold PAGE_SIZE in *. lia. }
          rewrite (Hlin 0 j ltac:(clear - Hj; lia) ltac:(clear - Hj; lia) Hp).
          now rewrite Z.add_0_r, Z.sub_0_r. }
        rewrite Ej.
        destruct (Hmono (meta st a KMSAN_META_SHADOW + j)) as [H|H];
          [exact H|].
        rewrite H, Hmem1. apply H1. lia.
      * specialize (Hz (j - g) ltac:(lia)).
        rewrite <- (meta_ext st st1) in Hz by exact L.
        now replace (a + g + (j - g)) with (a + j) in Hz by lia.
    + eapply only_zeroed_trans; [exact Hm1|].
      rewrite Hmem1 in Hmono. exact Hmono.
  - exists st. split; [reflexivity|]. split; [now destruct st|].
    rewrite Z.gtb_ltb in En. apply Z.ltb_ge in En.
    split; [intros j Hj; lia|]. intros x. now right.
Qed.

Lemma dma_loop_none fuel : forall a n st,
  0 <= a -> 0 <= n -> a + n < 2 ^ 64 -> n <= Z.of_nat fuel ->
  handle_dma_loop fuel a n DMA_NONE st = Ok tt st.
Proof.
  induction fuel as [|fuel IH]; intros a n st Ha Hn Htop Hfuel;
    cbn [handle_dma_loop]; destruct (n >? 0) eqn:En; try reflexivity.
  - rewrite Z.gtb_ltb in En. apply Z.ltb_lt in En. lia.
  - rewrite Z.gtb_ltb in En. apply Z.ltb_lt in En. cbv zeta.
    remember (Z.min (u64 (PAGE_SIZE - a mod PAGE_SIZE)) n) as g eqn:Eg.
    assert (Hg : 1 <= g <= n) by (subst g; unfold u64, PAGE_SIZE; lia).
    unfold bind. cbn [kmsan_handle_dma_page]. unfold ret.
    replace (u64 (a + g)) with (a + g) by (unfold u64; lia).
    replace (u64 (n - g)) with (n - g) by (unfold u64; lia).
    apply IH; lia.
Qed.

(** X16.  DMA transfers.  [kmsan_handle_dma] skips highmem pages, and with
    direction [DMA_NONE] it walks the buffer without any effect.  For
    [DMA_FROM_DEVICE] on a buffer all of whose bytes have metadata, the
    pages of which may have unrelated metadata pages, it works page by page
    (no access crosses a page, so the contiguity gate never fires) and
    returns with every shadow byte of the buffer zero; it has changed
    memory only, and only by zeroing bytes. *)
Theorem dma_from_device_unpoisons st page offset size :
  let a := page_address page + offset in
  0 <= a -> 0 <= size -> a + size < 2 ^ 64 ->
  (forall dir, PageHighMem page = true ->
     kmsan_handle_dma page offset size dir st = Ok tt st)
  /\ (PageHighMem page = false ->
      kmsan_handle_dma page offset size DMA_NONE st = Ok tt st)
  /\ (PageHighMem page = false ->
      tracked_pagewise st a size ->
      exists st',
        kmsan_handle_dma page offset size DMA_FROM_DEVICE st = Ok tt st'
        /\ only_mem_changed st st'
        /\ (forall j, 0 <= j < size ->
              load8 (mem st') (meta st (a + j) KMSAN_META_SHADOW) = 0)
        /\ only_zeroed (mem st) (mem st')).
Proof.
  intros a Ha Hn Htop.
  assert (Ea : u64 (page_address page + offset) = a)
    by (subst a; unfold u64; lia).
  split; [|split].
  - intros dir Hhm. unfold kmsan_handle_dma. now rewrite Hhm.
  - intros Hhm. unfold kmsan_handle_dma. rewrite Hhm, Ea.
    apply dma_loop_none; lia.
  - intros Hhm Htr. unfold kmsan_handle_dma. rewrite Hhm, Ea.
    apply dma_loop_from_device; try lia. exact Htr.
Qed.

End BoundaryHooks.

(** ** The allocation hooks *)

Section AllocHooks.
Context {PF : Platform} {SD : StackDepot} {HE : HookEnv}.

(** A handle issued for an allocation-time poisoning is a depth-0 handle
    without the use-after-free bit. *)
Lemma alloc_handle_plain st gfp :
  let h := poison_handle st gfp KMSAN_POISON_CHECK in
  h <> 0 -> origin_uaf h = false /\ origin_depth h = 0.
Proof.
  cbv zeta. unfold poison_handle.
  change (nz (Z.land KMSAN_POISON_CHECK KMSAN_POISON_FREE)) with false.
  intros Hh. unfold origin_uaf, origin_depth.
  rewrite depot_extra_bits; [now vm_compute|now vm_compute|exact Hh].
Qed.

(** The body of an allocation hook between the guards. *)
Lemma guarded_alloc st a n gfp checked sh og :
  0 < n -> n + 6 < 2 ^ 64 ->
  tracked_range st a n sh og ->
  metadata_apart a n sh og ->
  kmsan_metadata_is_contiguous a n st = Ok true st ->
  exists st1,
    bind kmsan_enter_runtime (fun _ =>
      bind (if nz (Z.land gfp __GFP_ZERO)
            then kmsan_internal_unpoison_memory a n checked
            else kmsan_internal_poison_memory a n gfp KMSAN_POISON_CHECK)
        (fun _ => kmsan_leave_runtime)) st = Ok tt st1
    /\ (Z.land gfp __GFP_ZERO <> 0 ->
        only_mem_changed st st1 /\ filled_with st1 a n 0 0)
    /\ (Z.land gfp __GFP_ZERO = 0 ->
        let h := poison_handle st gfp KMSAN_POISON_CHECK in
        filled_with st1 a n 255 h
        /\ (h <> 0 -> origin_uaf h = false /\ origin_depth h = 0)).
Proof.
  intros Hn Hn64 Htr Hdis Hgate.
  destruct (nz (Z.land gfp __GFP_ZERO)) eqn:Ez.
  - destruct (guarded_unpoison st a n checked sh og Hn Hn64 Htr Hdis Hgate)
      as (st1 & E & Hm & Hf & _).
    exists st1. split; [exact E|]. split; [now split|].
    intros H0. apply nz_true in Ez. contradiction.
  - destruct (guarded_poison st a n gfp KMSAN_POISON_CHECK sh og
                Hn Hn64 Htr Hdis Hgate) as (st1 & E & Hp & _).
    exists st1. split; [exact E|]. split.
    + intros H0. apply nz_false in Ez. contradiction.
    + intros _. cbv zeta. split; [exact Hp|apply alloc_handle_plain].
Qed.

(** X17.  Allocation hooks.  [kmsan_slab_alloc] does nothing for a null
    object, before readiness, inside the runtime, and for caches with a
    constructor or [SLAB_TYPESAFE_BY_RCU]; [kmsan_kmalloc_large] does
    nothing for a null pointer, before readiness and inside the runtime.
    Otherwise, on a tracked block: with [__GFP_ZERO] the block becomes
    clean (every shadow byte 0, every origin slot 0, nothing but memory
    changed); without it every byte becomes poisoned under the handle saved
    for the allocating call stack, a depth-0 handle that is not tagged
    use-after-free. *)
Theorem alloc_hooks_mark_memory st sh og :
  (forall s object gfp,
     object = 0 \/ kmsan_ready st = false \/ kmsan_in_runtime_ctr st <> 0
     \/ ctor s <> 0 \/ Z.land (flags s) SLAB_TYPESAFE_BY_RCU <> 0 ->
     kmsan_slab_alloc s object gfp st = Ok tt st)
  /\ (forall s object gfp,
      object <> 0 -> kmsan_ready st = true -> kmsan_in_runtime_ctr st = 0 ->
      ctor s = 0 -> Z.land (flags s) SLAB_TYPESAFE_BY_RCU = 0 ->
      0 < object_size s -> object_size s + 6 < 2 ^ 64 ->
      tracked_range st object (object_size s) sh og ->
      metadata_apart object (object_size s) sh og ->
      kmsan_metadata_is_contiguous object (object_size s) st = Ok true st ->
      exists st1,
        kmsan_slab_alloc s object gfp st = Ok tt st1
        /\ (Z.land gfp __GFP_ZERO <> 0 ->
            only_mem_changed st st1
            /\ filled_with st1 object (object_size s) 0 0)
        /\ (Z.land gfp __GFP_ZERO = 0 ->
            let h := poison_handle st gfp KMSAN_POISON_CHECK in
            filled_with st1 object (object_size s) 255 h
            /\ (h <> 0 -> origin_uaf h = false /\ origin_depth h = 0)))
  /\ (forall ptr size gfp,
      ptr = 0 \/ kmsan_ready st = false \/ kmsan_in_runtime_ctr st <> 0 ->
      kmsan_kmalloc_large ptr size gfp st = Ok tt st)
  /\ (forall ptr size gfp,
      ptr <> 0 -> kmsan_ready st = true -> kmsan_in_runtime_ctr st = 0 ->
      0 < size -> size + 6 < 2 ^ 64 ->
      tracked_range st ptr size sh og ->
      metadata_apart ptr size sh og ->
      kmsan_metadata_is_contiguous ptr size st = Ok true st ->
      exists st1,
        kmsan_kmalloc_large ptr size gfp st = Ok tt st1
        /\ (Z.land gfp __GFP_ZERO <> 0 ->
            only_mem_changed st st1 /\ filled_with st1 ptr size 0 0)
        /\ (Z.land gfp __GFP_ZERO = 0 ->
            let h := poison_handle st gfp KMSAN_POISON_CHECK in
            filled_with st1 ptr size 255 h
            /\ (h <> 0 -> origin_uaf h = false /\ origin_depth h = 0))).
Proof.
  split; [|split; [|split]].
  - intros s object gfp H. unfold kmsan_slab_alloc, kmsan_in_runtime.
    destruct (negb (nz object)) eqn:Eo; [reflexivity|].
    unfold bind, gets.
    destruct (negb (kmsan_ready st) || nz (kmsan_in_runtime_ctr st)) eqn:G;
      [reflexivity|].
    destruct H as [H|[H|[H|[H|H]]]].
    + subst object. discriminate.
    + rewrite guard_closed in G by now left. discriminate.
    + rewrite guard_closed in G by now right. discriminate.
    + apply nz_true in H. now rewrite H.
    + apply nz_true in H. rewrite H. now rewrite orb_true_r.
  - intros s object gfp Ho Hready Hctr Hctor Hrcu Hn Hn64 Htr Hdis Hgate.
    destruct (guarded_alloc st object (object_size s) gfp
                (nz KMSAN_POISON_CHECK) sh og Hn Hn64 Htr Hdis Hgate)
      as (st1 & E & H1 & H2).
    exists st1. split; [|now split].
    unfold kmsan_slab_alloc, kmsan_in_runtime.
    apply nz_true in Ho. rewrite Ho. cbn [negb].
    unfold bind at 1. unfold gets at 1. unfold bind at 1. unfold gets at 1.
    rewrite guard_open by assumption.
    rewrite Hctor, Hrcu. cbn [nz Z.eqb negb orb]. exact E.
  - intros ptr size gfp H. unfold kmsan_kmalloc_large, kmsan_in_runtime.
    destruct (negb (nz ptr)) eqn:Eo; [reflexivity|].
    unfold bind, gets.
    destruct (negb (kmsan_ready st) || nz (kmsan_in_runtime_ctr st)) eqn:G;
      [reflexivity|].
    destruct H as [H|[H|H]].
    + subst ptr. discriminate.
    + rewrite guard_closed in G by now left. discriminate.
    + rewrite guard_closed in G by now right. discriminate.
  - intros ptr size gfp Ho Hready Hctr Hn Hn64 Htr Hdis Hgate.
    destruct (guarded_alloc st ptr size gfp true sh og Hn Hn64 Htr Hdis
                Hgate) as (st1 & E & H1 & H2).
    exists st1. split; [|now split].
    unfold kmsan_kmalloc_large, kmsan_in_runtime.
    apply nz_true in Ho. rewrite Ho. cbn [negb].
    unfold bind at 1. unfold gets at 1. unfold bind at 1. unfold gets at 1.
    rewrite guard_open by assumption. exact E.
Qed.

Lemma leave_after_enter (st : kstate) :
  set_in_runtime (kmsan_in_runtime_ctr st + 1 - 1)
    (set_in_runtime (kmsan_in_runtime_ctr st + 1) st) = st.
Proof.
  destruct st. unfold set_in_runtime. cbn. f_equal. lia.
Qed.

(** A checked poisoning or unpoisoning of memory without shadow, inside
    the runtime bracket of a hook, aborts. *)
Lemma guarded_checked_untracked st a n gfp (zero : bool) :
  kmsan_metadata_is_contiguous a n st = Ok true st ->
  meta st a KMSAN_META_SHADOW = 0 ->
  bind kmsan_enter_runtime (fun _ =>
    bind (if zero
          then kmsan_internal_unpoison_memory a n true
          else kmsan_internal_poison_memory a n gfp KMSAN_POISON_CHECK)
      (fun _ => kmsan_leave_runtime)) st = Bug.
Proof.
  intros Hgate Hs.
  unfold bind at 1. unfold kmsan_enter_runtime at 1. unfold modify at 1.
  set (st_e := set_in_runtime _ st).
  assert (Le : layout_eq st st_e) by now repeat split.
  assert (Hgate_e : kmsan_metadata_is_contiguous a n st_e = Ok true st_e)
    by (apply (contiguous_true a n st st Hgate); exact Le).
  assert (Hs_e : meta st_e a KMSAN_META_SHADOW = 0)
    by now rewrite <- (meta_ext st st_e).
  destruct (poison_untracked st_e a n gfp KMSAN_POISON_CHECK Hgate_e Hs_e)
    as (_ & Hu & _ & Hp).
  unfold bind at 1. destruct zero.
  - now rewrite Hu.
  - rewrite Hp; [reflexivity|discriminate].
Qed.

(** X18.  Hooks that poison or unpoison "checked" need metadata.  In a
    ready kernel outside the runtime, on a block whose first byte has no
    shadow (the gate passing), the slab hooks, the large-allocation hook
    and the [pt_regs] hook abort the kernel ([BUG()]), whereas the ad hoc
    calls are lenient: [kmsan_unpoison_memory] changes nothing at all and
    [kmsan_poison_memory] nothing but the provenance store. *)
Theorem checked_hooks_need_metadata st a n :
  kmsan_ready st = true -> kmsan_in_runtime_ctr st = 0 -> a <> 0 ->
  kmsan_metadata_is_contiguous a n st = Ok true st ->
  meta st a KMSAN_META_SHADOW = 0 ->
  (forall gfp, kmsan_kmalloc_large a n gfp st = Bug)
  /\ (forall s gfp,
        ctor s = 0 -> Z.land (flags s) SLAB_TYPESAFE_BY_RCU = 0 ->
        object_size s = n ->
        kmsan_slab_alloc s a gfp st = Bug)
  /\ (forall s,
        ctor s = 0 ->
        Z.land (flags s) (Z.lor SLAB_TYPESAFE_BY_RCU SLAB_POISON) = 0 ->
        object_size s = n ->
        kmsan_slab_free s a st = Bug)
  /\ (sizeof_pt_regs = n -> kmsan_unpoison_pt_regs a st = Bug)
  /\ kmsan_unpoison_memory a n st = Ok tt st
  /\ (forall gfp, exists st1,
        kmsan_poison_memory a n gfp st = Ok tt st1
        /\ only_depot_changed st st1).
Proof.
  intros Hready Hctr Ha Hgate Hs.
  apply nz_true in Ha.
  assert (G := guard_open st Hready Hctr).
  split; [|split; [|split; [|split; [|split]]]].
  - intros gfp. unfold kmsan_kmalloc_large, kmsan_in_runtime.
    rewrite Ha. cbn [negb].
    unfold bind at 1. unfold gets at 1. unfold bind at 1. unfold gets at 1.
    rewrite G.
    apply (guarded_checked_untracked st a n gfp (nz (Z.land gfp __GFP_ZERO)));
      assumption.
  - intros s gfp Hctor Hrcu Hsz. unfold kmsan_slab_alloc, kmsan_in_runtime.
    rewrite Ha. cbn [negb].
    unfold bind at 1. unfold gets at 1. unfold bind at 1. unfold gets at 1.
    rewrite G, Hctor, Hrcu, Hsz. cbn [nz Z.eqb negb orb].
    apply (guarded_checked_untracked st a n gfp (nz (Z.land gfp __GFP_ZERO)));
      assumption.
  - intros s Hctor Hfl Hsz. unfold kmsan_slab_free, kmsan_in_runtime.
    unfold bind at 1. unfold gets at 1. unfold bind at 1. unfold gets at 1.
    rewrite G, Hctor, Hfl, Hsz. cbn [nz Z.eqb negb].
    unfold bind at 1. unfold kmsan_enter_runtime at 1. unfold modify at 1.
    set (st_e := set_in_runtime _ st).
    assert (Le : layout_eq st st_e) by now repeat split.
    destruct (poison_untracked st_e a n GFP_KERNEL
                (Z.lor KMSAN_POISON_CHECK KMSAN_POISON_FREE))
      as (_ & _ & _ & Hp).
    { apply (contiguous_true a n st st Hgate). exact Le. }
    { now rewrite <- (meta_ext st st_e). }
    unfold bind. rewrite Hp; [reflexivity|discriminate].
  - intros Hsz. unfold kmsan_unpoison_pt_regs.
    unfold bind, gets. rewrite Hready, Ha, Hsz. cbn [negb orb].
    unfold kmsan_internal_unpoison_memory.
    now rewrite set_shadow_origin_untracked.
  - unfold kmsan_unpoison_memory, kmsan_in_runtime.
    unfold bind at 1. unfold gets at 1. unfold bind at 1. unfold gets at 1.
    rewrite G.
    unfold bind at 1. unfold kmsan_enter_runtime at 1. unfold modify at 1.
    set (st_e := set_in_runtime _ st).
    assert (Le : layout_eq st st_e) by now repeat split.
    unfold bind. unfold kmsan_internal_unpoison_memory.
    rewrite set_shadow_origin_untracked.
    + cbn [nz KMSAN_POISON_NOCHECK Z.eqb negb].
      unfold kmsan_leave_runtime, modify. subst st_e. f_equal.
      cbn [kmsan_in_runtime_ctr set_in_runtime].
      apply leave_after_enter.
    + apply (contiguous_true a n st st Hgate). exact Le.
    + now rewrite <- (meta_ext st st_e).
  - intros gfp. unfold kmsan_poison_memory, kmsan_in_runtime.
    unfold bind at 1. unfold gets at 1. unfold bind at 1. unfold gets at 1.
    rewrite G.
    unfold bind at 1. unfold kmsan_enter_runtime at 1. unfold modify at 1.
    set (st_e := set_in_runtime _ st).
    assert (Le : layout_eq st st_e) by now repeat split.
    destruct (poison_untracked st_e a n gfp KMSAN_POISON_NOCHECK)
      as (_ & _ & Hp & _).
    { apply (contiguous_true a n st st Hgate). exact Le. }
    { now rewrite <- (meta_ext st st_e). }
    destruct (Hp eq_refl) as (st1 & E & Hd).
    unfold bind. rewrite E. unfold kmsan_leave_runtime, modify.
    eexists. split; [reflexivity|].
    unfold only_depot_changed in *. rewrite Hd. subst st_e.
    destruct st. unfold set_depot, set_in_runtime. cbn. f_equal. lia.
Qed.

End AllocHooks.

(** ** The page hooks *)

Section PageHooks.
Context {PF : Platform} {SD : StackDepot} {HE : HookEnv}.

Lemma pages_of_order order :
  0 <= order <= 18 ->
  s32 (Z.shiftl 1 order) = 2 ^ order /\ 1 <= 2 ^ order <= 2 ^ 18.
Proof.
  intros Ho. rewrite Z.shiftl_1_l.
  assert (H1 : 2 ^ 0 <= 2 ^ order) by (apply Z.pow_le_mono_r; lia).
  assert (H2 : 2 ^ order <= 2 ^ 18) by (apply Z.pow_le_mono_r; lia).
  change (2 ^ 0) with 1 in H1.
  split; [|lia]. unfold s32. lia.
Qed.

Lemma memset_in m p b n x :
  p <= x < p + n -> memset m p b n x = b mod 256.
Proof.
  intros H. unfold memset.
  replace ((p <=? x) && (x <? p + n)) with true; [reflexivity|].
  symmetry. apply andb_true_intro. split; [apply Z.leb_le|apply Z.ltb_lt]; lia.
Qed.

(** X19.  [kmsan_alloc_page] on the [2^order] pages at [page], whose
    shadow and origin pages start at [sp] and [op].  A null page is
    ignored.  With [__GFP_ZERO], or before readiness (even inside the
    runtime), all the shadow and origin bytes of the block are zeroed.
    Otherwise, inside the runtime nothing happens at all; outside it every
    shadow byte of the block becomes [0xff] and every origin slot of the
    block receives the one handle saved for the allocating call stack,
    with the guard counter back at its value.  Nothing else in memory
    changes. *)
Theorem alloc_page_marks_block st page order gfp :
  let sp := page_address (kmsan_shadow st page) in
  let op := page_address (kmsan_origin st page) in
  let n := PAGE_SIZE * 2 ^ order in
  0 <= order <= 18 ->
  kmsan_alloc_page 0 order gfp st = Ok tt st
  /\ (page <> 0 ->
      Z.land gfp __GFP_ZERO <> 0 \/ kmsan_ready st = false ->
      exists st1,
        kmsan_alloc_page page order gfp st = Ok tt st1
        /\ only_mem_changed st st1
        /\ (forall x, sp <= x < sp + n \/ op <= x < op + n -> mem st1 x = 0)
        /\ (forall x, x < sp \/ sp + n <= x -> x < op \/ op + n <= x ->
                      mem st1 x = mem st x))
  /\ (page <> 0 -> Z.land gfp __GFP_ZERO = 0 -> kmsan_ready st = true ->
      kmsan_in_runtime_ctr st <> 0 ->
      kmsan_alloc_page page order gfp st = Ok tt st)
  /\ (page <> 0 -> Z.land gfp __GFP_ZERO = 0 -> kmsan_ready st = true ->
      kmsan_in_runtime_ctr st = 0 ->
      sp + n <= op \/ op + n <= sp ->
      exists st1,
        kmsan_alloc_page page order gfp st = Ok tt st1
        /\ kmsan_in_runtime_ctr st1 = 0
        /\ (forall x, sp <= x < sp + n -> load8 (mem st1) x = 255)
        /\ (forall i, 0 <= i < n / KMSAN_ORIGIN_SIZE ->
              load32 (mem st1) (op + KMSAN_ORIGIN_SIZE * i)
              = poison_handle st gfp KMSAN_POISON_NOCHECK)
        /\ (forall x, x < sp \/ sp + n <= x -> x < op \/ op + n <= x ->
                      load8 (mem st1) x = load8 (mem st) x)).
Proof.
  intros sp op n Ho.
  destruct (pages_of_order order Ho) as (Epages & Hp).
  assert (En : u64 (PAGE_SIZE * s32 (Z.shiftl 1 order)) = n).
  { rewrite Epages. subst n. unfold u64, PAGE_SIZE. lia. }
  assert (Hn : 0 < n < 2 ^ 31 /\ n mod 4 = 0)
    by (subst n; unfold PAGE_SIZE; lia).
  clearbody n.
  split; [reflexivity|]. split; [|split].
  - intros Hpage Hinit. unfold kmsan_alloc_page. cbv zeta.
    unfold bind at 1. unfold gets at 1.
    apply nz_true in Hpage. rewrite Hpage. cbn [negb].
    unfold bind at 1. unfold gets at 1. unfold bind at 1. unfold gets at 1.
    replace (nz (Z.land gfp __GFP_ZERO) || negb (kmsan_ready st)) with true.
    2:{ symmetry. destruct Hinit as [H|H].
        - apply nz_true in H. now rewrite H.
        - rewrite H. apply orb_true_r. }
    unfold bind, modify. rewrite En. fold sp op.
    eexists. split; [reflexivity|]. cbn [mem set_mem].
    split; [now destruct st|]. split.
    + intros x Hx. unfold memset at 1.
      destruct ((op <=? x) && (x <? op + n)) eqn:E; [reflexivity|].
      destruct Hx as [Hx|Hx].
      * now apply memset_in.
      * exfalso. apply andb_false_iff in E.
        destruct E as [E|E]; [apply Z.leb_gt in E|apply Z.ltb_ge in E]; lia.
    + intros x Hx1 Hx2. now rewrite !memset_out by lia.
  - intros Hpage Hz Hready Hctr. unfold kmsan_alloc_page. cbv zeta.
    unfold bind at 1. unfold gets at 1.
    apply nz_true in Hpage. rewrite Hpage. cbn [negb].
    unfold bind at 1. unfold gets at 1. unfold bind at 1. unfold gets at 1.
    apply nz_false in Hz. rewrite Hz, Hready. cbn [negb orb].
    unfold bind, kmsan_in_runtime, gets.
    apply nz_true in Hctr. now rewrite Hctr.
  - intros Hpage Hz Hready Hctr Hdis. unfold kmsan_alloc_page. cbv zeta.
    unfold bind at 1. unfold gets at 1.
    apply nz_true in Hpage. rewrite Hpage. cbn [negb].
    unfold bind at 1. unfold gets at 1. unfold bind at 1. unfold gets at 1.
    apply nz_false in Hz. rewrite Hz, Hready. cbn [negb orb].
    unfold bind at 1. unfold kmsan_in_runtime, gets.
    rewrite Hctr. cbn [nz Z.eqb negb].
    unfold bind at 1. unfold modify at 1.
    unfold bind at 1. unfold kmsan_enter_runtime at 1. unfold modify at 1.
    unfold bind at 1. rewrite save_stack_eq. cbv zeta.
    unfold bind at 1. unfold kmsan_leave_runtime at 1. unfold modify at 1.
    unfold modify. rewrite En. fold sp op.
    eexists. split; [reflexivity|].
    cbn [mem set_mem set_depot set_in_runtime kmsan_in_runtime_ctr
         depot_st call_stack].
    change (fst (stack_depot_save_extra
                   (filter_irq_stacks
                      (firstn KMSAN_STACK_DEPTH (call_stack st))) 0
                   (Z.land gfp (Z.lnot __GFP_DIRECT_RECLAIM)) (depot_st st)))
      with (poison_handle st gfp KMSAN_POISON_NOCHECK).
    assert (Hh : 0 <= poison_handle st gfp KMSAN_POISON_NOCHECK < 2 ^ 32)
      by apply depot_handle_u32.
    set (h := poison_handle st gfp KMSAN_POISON_NOCHECK) in *. clearbody h.
    assert (Hk : Z.of_nat (Z.to_nat (n / KMSAN_ORIGIN_SIZE)) = n / 4)
      by (unfold KMSAN_ORIGIN_SIZE; lia).
    split; [rewrite Hctr; reflexivity|]. split; [|split].
    + intros x Hx. rewrite set_origin_slots_out by (rewrite ?Hk; lia).
      now rewrite load8_memset_in by lia.
    + intros i Hi. unfold KMSAN_ORIGIN_SIZE in *.
      apply set_origin_slots_in; try lia.
    + intros x Hx1 Hx2. rewrite set_origin_slots_out by (rewrite ?Hk; lia).
      unfold load8. now rewrite memset_out by lia.
Qed.

Lemma memcpy_in m d s n x :
  d <= x < d + n -> memcpy m d s n x = m (s + (x - d)).
Proof.
  intros H. unfold memcpy.
  replace ((d <=? x) && (x <? d + n)) with true; [reflexivity|].
  symmetry. apply andb_true_intro. split; [apply Z.leb_le|apply Z.ltb_lt]; lia.
Qed.

Lemma memcpy_out m d s n x :
  x < d \/ d + n <= x -> memcpy m d s n x = m x.
Proof.
  intros H. unfold memcpy.
  destruct ((d <=? x) && (x <? d + n)) eqn:E; [|reflexivity].
  apply andb_prop in E as [E1 E2].
  apply Z.leb_le in E1. apply Z.ltb_lt in E2. lia.
Qed.

(** X20.  [kmsan_copy_page_meta].  It does nothing before readiness,
    inside the runtime, for a null destination and for a destination page
    without metadata.  When the source is null or has no metadata, the
    destination page is unpoisoned: every byte of it clean, origin 0.
    When both pages have metadata, the shadow page and the origin page of
    the source are copied verbatim over those of the destination, nothing
    else in memory changes, and nothing but memory changes. *)
Theorem copy_page_meta_cases st dst src :
  let sd := page_address (kmsan_shadow st dst) in
  let od := page_address (kmsan_origin st dst) in
  let ss := page_address (kmsan_shadow st src) in
  let os := page_address (kmsan_origin st src) in
  (kmsan_ready st = false \/ kmsan_in_runtime_ctr st <> 0 \/ dst = 0
   \/ kmsan_shadow st dst = 0 \/ kmsan_origin st dst = 0 ->
   kmsan_copy_page_meta dst src st = Ok tt st)
  /\ (kmsan_ready st = true -> kmsan_in_runtime_ctr st = 0 -> dst <> 0 ->
      kmsan_shadow st dst <> 0 -> kmsan_origin st dst <> 0 ->
      src = 0 \/ kmsan_shadow st src = 0 \/ kmsan_origin st src = 0 ->
      forall sh og,
      tracked_range st (page_address dst) PAGE_SIZE sh og ->
      metadata_apart (page_address dst) PAGE_SIZE sh og ->
      kmsan_metadata_is_contiguous (page_address dst) PAGE_SIZE st
      = Ok true st ->
      exists st1,
        kmsan_copy_page_meta dst src st = Ok tt st1
        /\ only_mem_changed st st1
        /\ filled_with st1 (page_address dst) PAGE_SIZE 0 0)
  /\ (kmsan_ready st = true -> kmsan_in_runtime_ctr st = 0 -> dst <> 0 ->
      kmsan_shadow st dst <> 0 -> kmsan_origin st dst <> 0 ->
      src <> 0 -> kmsan_shadow st src <> 0 -> kmsan_origin st src <> 0 ->
      sd + PAGE_SIZE <= od \/ od + PAGE_SIZE <= sd ->
      sd + PAGE_SIZE <= os \/ os + PAGE_SIZE <= sd ->
      exists st1,
        kmsan_copy_page_meta dst src st = Ok tt st1
        /\ only_mem_changed st st1
        /\ (forall j, 0 <= j < PAGE_SIZE ->
              mem st1 (sd + j) = mem st (ss + j)
              /\ mem st1 (od + j) = mem st (os + j))
        /\ (forall x, x < sd \/ sd + PAGE_SIZE <= x ->
                      x < od \/ od + PAGE_SIZE <= x ->
                      mem st1 x = mem st x)).
Proof.
  intros sd od ss os.
  assert (Hhas : forall p, p <> 0 ->
            (if nz p then page_has_metadata p else ret false) st
            = Ok (nz (kmsan_shadow st p) && nz (kmsan_origin st p)) st).
  { intros p Hp. apply nz_true in Hp. now rewrite Hp. }
  split; [|split].
  - intros H. unfold kmsan_copy_page_meta, kmsan_in_runtime.
    unfold bind at 1. unfold gets at 1. unfold bind at 1. unfold gets at 1.
    destruct (negb (kmsan_ready st) || nz (kmsan_in_runtime_ctr st)) eqn:G;
      [reflexivity|].
    destruct H as [H|[H|H]].
    { rewrite guard_closed in G by now left. discriminate. }
    { rewrite guard_closed in G by now right. discriminate. }
    unfold bind at 1.
    destruct (nz dst) eqn:Ed.
    + unfold page_has_metadata, gets.
      destruct H as [H|[H|H]].
      * subst dst. discriminate.
      * rewrite H. reflexivity.
      * rewrite H. cbn [nz Z.eqb negb]. now rewrite andb_false_r.
    + reflexivity.
  - intros Hready Hctr Hdst Hsd Hod Hsrc sh og Htr Hdis Hgate.
    destruct (set_shadow_origin_filled st (page_address dst) PAGE_SIZE 0 0
                false sh og ltac:(unfold PAGE_SIZE; lia)
                ltac:(unfold PAGE_SIZE; lia) Htr Hdis Hgate)
      as (st1 & E & Hm & Hf & _).
    exists st1. split; [|now split].
    unfold kmsan_copy_page_meta, kmsan_in_runtime.
    unfold bind at 1. unfold gets at 1. unfold bind at 1. unfold gets at 1.
    rewrite guard_open by assumption.
    unfold bind at 1. rewrite (Hhas dst Hdst).
    apply nz_true in Hsd, Hod. rewrite Hsd, Hod. cbn [andb negb].
    unfold bind at 1.
    replace ((if nz src then page_has_metadata src else ret false) st)
      with (@Ok SD bool false st).
    { exact E. }
    destruct (nz src) eqn:Es; [|reflexivity].
    unfold page_has_metadata, gets.
    destruct Hsrc as [H|[H|H]].
    + subst src. discriminate.
    + now rewrite H.
    + rewrite H. cbn [nz Z.eqb negb]. now rewrite andb_false_r.
  - intros Hready Hctr Hdst Hsd Hod Hsrc Hss Hos D1 D2.
    unfold kmsan_copy_page_meta, kmsan_in_runtime.
    unfold bind at 1. unfold gets at 1. unfold bind at 1. unfold gets at 1.
    rewrite guard_open by assumption.
    unfold bind at 1. rewrite (Hhas dst Hdst).
    apply nz_true in Hsd, Hod. rewrite Hsd, Hod. cbn [andb negb].
    unfold bind at 1. rewrite (Hhas src Hsrc).
    apply nz_true in Hss, Hos. rewrite Hss, Hos. cbn [andb negb].
    unfold bind, kmsan_enter_runtime, kmsan_leave_runtime, modify,
      shadow_ptr_for, origin_ptr_for, gets.
    cbn [mem set_mem set_in_runtime kmsan_shadow kmsan_origin
         kmsan_in_runtime_ctr].
    fold sd od ss os.
    eexists. split; [reflexivity|].
    cbn [mem set_mem set_in_runtime].
    split.
    { unfold only_mem_changed. destruct st. unfold set_mem, set_in_runtime.
      cbn. f_equal. cbn in Hctr. lia. }
    unfold PAGE_SIZE in *. split.
    + intros j Hj. split.
      * rewrite memcpy_out by lia. rewrite memcpy_in by lia. f_equal. lia.
      * rewrite memcpy_in by lia. rewrite memcpy_out by lia. f_equal. lia.
    + intros x Hx1 Hx2. now rewrite !memcpy_out by lia.
Qed.

Lemma setup_meta_loop_links k : forall page shadow origin i0 st,
  0 < sizeof_page -> 0 <= i0 ->
  let len := sizeof_page * (i0 + Z.of_nat k) in
  (page + len <= shadow \/ shadow + len <= page) ->
  (page + len <= origin \/ origin + len <= page) ->
  (shadow + len <= origin \/ origin + len <= shadow) ->
  exists st1,
    setup_meta_loop k page shadow origin i0 st = Ok tt st1
    /\ mem st1 = mem st /\ kmsan_ready st1 = kmsan_ready st
    /\ kmsan_in_runtime_ctr st1 = kmsan_in_runtime_ctr st
    /\ reports st1 = reports st
    /\ (forall i, i0 <= i < i0 + Z.of_nat k ->
          kmsan_shadow st1 (page + sizeof_page * i) = shadow + sizeof_page * i
          /\ kmsan_origin st1 (page + sizeof_page * i)
             = origin + sizeof_page * i
          /\ kmsan_shadow st1 (shadow + sizeof_page * i) = 0
          /\ kmsan_origin st1 (shadow + sizeof_page * i) = 0
          /\ kmsan_shadow st1 (origin + sizeof_page * i) = 0
          /\ kmsan_origin st1 (origin + sizeof_page * i) = 0)
    /\ (forall p,
          (forall i, i0 <= i < i0 + Z.of_nat k ->
             p <> page + sizeof_page * i /\ p <> shadow + sizeof_page * i
             /\ p <> origin + sizeof_page * i) ->
          kmsan_shadow st1 p = kmsan_shadow st p
          /\ kmsan_origin st1 p = kmsan_origin st p).
Proof.
  induction k as [|k IH]; intros page shadow origin i0 st Hsz Hi0 len D1 D2 D3.
  - exists st. split; [reflexivity|]. repeat split; intros; lia.
  - cbn [setup_meta_loop].
    unfold bind, set_no_shadow_origin_page, modify. unfold bind.
    set (st_a := set_origin_page (page + sizeof_page * i0) _ _).
    assert (Hlen : len = sizeof_page * (i0 + 1 + Z.of_nat k))
      by (subst len; f_equal; lia).
    destruct (IH page shadow origin (i0 + 1) st_a Hsz ltac:(lia))
      as (st1 & E & Hm & Hr & Hc & Hrep & Hin & Hout);
      try (cbv zeta; rewrite <- Hlen; assumption).
    exists st1. split; [exact E|].
    split; [rewrite Hm; reflexivity|]. split; [rewrite Hr; reflexivity|].
    split; [rewrite Hc; reflexivity|]. split; [rewrite Hrep; reflexivity|].
    set (sz := sizeof_page) in *.
    assert (Hk : 0 <= Z.of_nat k) by lia.
    assert (Hlen' : len = sz * (i0 + 1 + Z.of_nat k)) by exact Hlen.
    clearbody sz. clear Hlen.
    split.
    + intros i Hi. destruct (Z.eq_dec i i0) as [->|Hne].
      * (* the entries written in this step survive the later steps *)
        assert (Hp : forall q,
                  (forall j, i0 + 1 <= j < i0 + 1 + Z.of_nat k ->
                     q <> page + sz * j /\ q <> shadow + sz * j
                     /\ q <> origin + sz * j) ->
                  kmsan_shadow st1 q = kmsan_shadow st_a q
                  /\ kmsan_origin st1 q = kmsan_origin st_a q)
          by exact Hout.
        assert (Hfar : forall j, i0 + 1 <= j < i0 + 1 + Z.of_nat k ->
                  sz * i0 < sz * j /\ sz * j < len).
        { intros j Hj. subst len. nia. }
        assert (H0 : 0 <= sz * i0) by nia.
        destruct (Hp (page + sz * i0)) as [A1 A2].
        { intros j Hj. specialize (Hfar j Hj). lia. }
        destruct (Hp (shadow + sz * i0)) as [B1 B2].
        { intros j Hj. specialize (Hfar j Hj). lia. }
        destruct (Hp (origin + sz * i0)) as [C1 C2].
        { intros j Hj. specialize (Hfar j Hj). lia. }
        rewrite A1, A2, B1, B2, C1, C2. subst st_a.
        assert (Hpos : sz * i0 < len) by (subst len; nia).
        cbn [kmsan_shadow kmsan_origin set_shadow_page set_origin_page].
        rewrite !Z.eqb_refl.
        repeat match goal with
               | |- context [?x =? ?y] =>
                 lazymatch x with
                 | y => fail
                 | _ => destruct (Z.eqb_spec x y); [lia|]
                 end
               end.
        repeat split; reflexivity.
      * apply Hin. lia.
    + intros p Hp.
      destruct (Hout p) as [A1 A2].
      { intros j Hj. apply Hp. lia. }
      rewrite A1, A2. subst st_a.
      destruct (Hp i0 ltac:(lia)) as (P1 & P2 & P3).
      cbn [kmsan_shadow kmsan_origin set_shadow_page set_origin_page].
      repeat match goal with
             | |- context [p =? ?y] => destruct (Z.eqb_spec p y); [lia|]
             end.
      split; reflexivity.
Qed.

(** X21.  [kmsan_setup_meta] links [2^order] pages to their metadata
    pages.  For three [struct page] arrays that do not overlap, afterwards
    page [i] of the block has shadow page [i] and origin page [i] of the
    arrays given, every one of those metadata pages has itself neither
    shadow nor origin (so the resolver has nothing for addresses inside
    metadata pages), the entries of all other pages are as before, and
    memory, readiness and the guard counter are untouched. *)
Theorem setup_meta_links_pages st page shadow origin order :
  0 <= order <= 30 -> 0 < sizeof_page ->
  let len := sizeof_page * 2 ^ order in
  (page + len <= shadow \/ shadow + len <= page) ->
  (page + len <= origin \/ origin + len <= page) ->
  (shadow + len <= origin \/ origin + len <= shadow) ->
  exists st1,
    kmsan_setup_meta page shadow origin order st = Ok tt st1
    /\ mem st1 = mem st /\ kmsan_ready st1 = kmsan_ready st
    /\ kmsan_in_runtime_ctr st1 = kmsan_in_runtime_ctr st
    /\ reports st1 = reports st
    /\ (forall i, 0 <= i < 2 ^ order ->
          kmsan_shadow st1 (page + sizeof_page * i) = shadow + sizeof_page * i
          /\ kmsan_origin st1 (page + sizeof_page * i)
             = origin + sizeof_page * i
          /\ kmsan_shadow st1 (shadow + sizeof_page * i) = 0
          /\ kmsan_origin st1 (shadow + sizeof_page * i) = 0
          /\ kmsan_shadow st1 (origin + sizeof_page * i) = 0
          /\ kmsan_origin st1 (origin + sizeof_page * i) = 0)
    /\ (forall p,
          (forall i, 0 <= i < 2 ^ order ->
             p <> page + sizeof_page * i /\ p <> shadow + sizeof_page * i
             /\ p <> origin + sizeof_page * i) ->
          kmsan_shadow st1 p = kmsan_shadow st p
          /\ kmsan_origin st1 p = kmsan_origin st p).
Proof.
  intros Ho Hsz len D1 D2 D3. unfold kmsan_setup_meta.
  assert (Ep : s32 (Z.shiftl 1 order) = 2 ^ order /\ 1 <= 2 ^ order).
  { rewrite Z.shiftl_1_l.
    assert (H1 : 2 ^ 0 <= 2 ^ order) by (apply Z.pow_le_mono_r; lia).
    assert (H2 : 2 ^ order <= 2 ^ 30) by (apply Z.pow_le_mono_r; lia).
    change (2 ^ 0) with 1 in H1. split; [|lia]. unfold s32. lia. }
  destruct Ep as [Ep Hp]. rewrite Ep.
  assert (Ek : 0 + Z.of_nat (Z.to_nat (2 ^ order)) = 2 ^ order) by lia.
  destruct (setup_meta_loop_links (Z.to_nat (2 ^ order)) page shadow origin
              0 st Hsz ltac:(lia)) as (st1 & E & H);
    try (cbv zeta; rewrite Ek; assumption).
  rewrite Ek in H. exists st1. split; [exact E|exact H].
Qed.

End PageHooks.

(** ** Metadata propagation: edge cases, the shadow copy, whole granules *)

Section PropagationMore.
Context {PF : Platform} {SD : StackDepot}.

(** Under resolved metadata the propagation engine reaches its origin
    loop. *)
Lemma memmove_to_loop st dst src n sd ss od os :
  0 <= src -> 0 <= dst -> 0 < n < 2 ^ 31 ->
  src + n + 3 < 2 ^ 64 -> dst + n + 3 < 2 ^ 64 ->
  meta st dst KMSAN_META_SHADOW = sd -> sd <> 0 ->
  meta st src KMSAN_META_SHADOW = ss -> ss <> 0 ->
  meta st dst KMSAN_META_ORIGIN = od -> od <> 0 ->
  meta st src KMSAN_META_ORIGIN = os -> os <> 0 ->
  kmsan_metadata_is_contiguous dst n st = Ok true st ->
  kmsan_metadata_is_contiguous src n st = Ok true st ->
  let slots := Z.min (origin_slots src n) (origin_slots dst n) in
  kmsan_memmove_metadata dst src n st
  = memmove_origins (Z.to_nat slots) src n (origin_slots src n) os od
      (ALIGN_DOWN ss KMSAN_ORIGIN_SIZE)
      (if dst >? src then -1 else 1)
      (if dst >? src then slots - 1 else 0) 0 0
      (set_mem (memmove (mem st) sd ss n) st).
Proof.
  intros Hsrc Hdst Hn Hstop Hdtop Hsd Hsd0 Hss Hss0 Hod Hod0 Hos Hos0
    Hgd Hgs slots.
  set (src_slots := origin_slots src n) in *.
  set (dst_slots := origin_slots dst n) in *.
  assert (HS : 1 <= src_slots /\ 1 <= dst_slots
               /\ -1 <= src_slots - dst_slots <= 1).
  { subst src_slots dst_slots.
    rewrite (origin_slots_bounds src n Hsrc Hn Hstop).
    rewrite (origin_slots_bounds dst n Hdst Hn Hdtop).
    clear - Hn. unfold KMSAN_ORIGIN_SIZE. lia. }
  destruct HS as (HS1 & HS2 & HS3).
  unfold kmsan_memmove_metadata.
  fold src_slots. fold dst_slots. fold slots.
  clearbody slots. clearbody src_slots dst_slots.
  unfold bind at 1. rewrite kmsan_get_metadata_pure, Hsd.
  apply nz_true in Hsd0. rewrite Hsd0. cbn [negb].
  unfold bind at 1. rewrite Hgd.
  unfold bind at 1. unfold BUG_ON at 1. cbn [negb]. unfold ret at 1.
  unfold bind at 1. rewrite kmsan_get_metadata_pure, Hss.
  apply nz_true in Hss0. rewrite Hss0. cbn [negb].
  unfold bind at 1. rewrite Hgs.
  unfold bind at 1. unfold BUG_ON at 1. cbn [negb]. unfold ret at 1.
  unfold bind at 1. unfold modify at 1.
  set (st_a := set_mem (memmove (mem st) sd ss n) st).
  assert (La : layout_eq st st_a) by apply layout_eq_set_mem.
  unfold bind at 1. rewrite kmsan_get_metadata_pure.
  unfold bind at 1. rewrite kmsan_get_metadata_pure.
  rewrite <- !(meta_ext st st_a) by exact La. rewrite Hod, Hos.
  apply nz_true in Hod0, Hos0.
  unfold bind at 1. unfold BUG_ON at 1. rewrite Hod0, Hos0. cbn [negb orb].
  unfold ret at 1.
  replace (negb (nz src_slots) || negb (nz dst_slots)) with false.
  2:{ symmetry. apply orb_false_iff.
      split; apply negb_false_iff, nz_true; clear - HS1 HS2; lia. }
  unfold bind at 1. unfold BUG_ON at 1. unfold ret at 1.
  replace ((src_slots <? 1) || (dst_slots <? 1)) with false.
  2:{ symmetry. apply orb_false_iff.
      split; apply Z.ltb_ge; clear - HS1 HS2; lia. }
  unfold bind at 1. unfold BUG_ON at 1. unfold ret at 1.
  replace ((src_slots - dst_slots >? 1) || (dst_slots - src_slots <? -1))
    with false.
  2:{ symmetry. apply orb_false_iff.
      split; [apply gtb_false|apply Z.ltb_ge]; clear - HS3; lia. }
  unfold bind at 1. unfold BUG_ON at 1. unfold ret at 1.
  reflexivity.
Qed.

(** The origin loop always returns, and writes destination slots only. *)
Lemma memmove_origins_frame k :
  forall src n src_slots os od asrc iter i old new st,
  iter = 1 \/ iter = -1 ->
  (forall step, 0 <= step < Z.of_nat k ->
     0 <= i + iter * step < 2 ^ 31 - 1) ->
  exists st',
    memmove_origins k src n src_slots os od asrc iter i old new st = Ok tt st'
    /\ forall x,
         (forall step, 0 <= step < Z.of_nat k ->
            x < od + KMSAN_ORIGIN_SIZE * (i + iter * step)
            \/ od + KMSAN_ORIGIN_SIZE * (i + iter * step) + 4 <= x) ->
         load8 (mem st') x = load8 (mem st) x.
Proof.
  induction k as [|k IH];
    intros src n src_slots os od asrc iter i old new st Hiter Hidx.
  - exists st. split; [reflexivity|]. reflexivity.
  - rewrite memmove_origins_step.
    pose proof (Hidx 0 ltac:(lia)) as Hi. rewrite Z.mul_0_r, Z.add_0_r in Hi.
    replace (i <? 0) with false by (symmetry; apply Z.ltb_ge; lia).
    cbv zeta.
    set (shadow := masked_shadow (mem st) asrc src n src_slots i).
    set (osrc := load32 (mem st) (os + KMSAN_ORIGIN_SIZE * i)).
    assert (Hpair : exists on st2,
      (if nz osrc && negb (osrc =? old) && nz shadow
       then bind (kmsan_internal_chain_origin osrc)
              (fun c => if nz c then ret (osrc, c) else ret (osrc, osrc))
       else ret (old, new)) st = Ok on st2
      /\ mem st2 = mem st).
    { destruct (nz osrc && negb (osrc =? old) && nz shadow).
      - destruct (chain_origin_frame osrc st) as (h & st2 & Ech & Hm & _).
        unfold bind. rewrite Ech.
        destruct (nz h); eexists _, st2; (split; [reflexivity|exact Hm]).
      - exists (old, new), st. split; reflexivity. }
    destruct Hpair as (on & st2 & -> & Hm2).
    clearbody shadow osrc.
    assert (Hs32 : s32 (i + iter) = i + iter)
      by (unfold s32; destruct Hiter; lia).
    rewrite Hs32.
    set (st3 := set_mem _ st2).
    destruct (IH src n src_slots os od asrc iter (i + iter) (fst on) (snd on)
                st3 Hiter) as (st' & E & Hout).
    { intros step Hstep. specialize (Hidx (step + 1) ltac:(lia)).
      now replace (i + iter + iter * step) with (i + iter * (step + 1))
        by lia. }
    exists st'. split; [exact E|].
    intros x Hx. rewrite Hout.
    + subst st3. cbn [mem set_mem].
      specialize (Hx 0 ltac:(lia)). rewrite Z.mul_0_r, Z.add_0_r in Hx.
      rewrite load8_store32_other by lia. now rewrite Hm2.
    + intros step Hstep. specialize (Hx (step + 1) ltac:(lia)).
      now replace (i + iter + iter * step) with (i + iter * (step + 1))
        by lia.
Qed.

Lemma load8_memmove_in m d s n j :
  0 <= j < n -> load8 (memmove m d s n) (d + j) = load8 m (s + j).
Proof.
  intros Hj. unfold load8, memmove.
  replace ((d <=? d + j) && (d + j <? d + n)) with true.
  - f_equal. f_equal. lia.
  - symmetry. apply andb_true_intro.
    split; [apply Z.leb_le|apply Z.ltb_lt]; lia.
Qed.

(** X22.  The shadow copy of [kmsan_memmove_metadata].  For ranges with
    resolved metadata whose destination origin slots do not overlap the
    destination shadow, the call returns and the [n] destination shadow
    bytes are exactly the [n] source shadow bytes as they were before the
    call, also when the two shadow ranges overlap; in memory nothing
    changed outside the destination shadow bytes and the destination
    origin slots. *)
Theorem memmove_copies_shadow st dst src n sd ss od os :
  0 <= src -> 0 <= dst -> 0 < n < 2 ^ 31 ->
  src + n + 3 < 2 ^ 64 -> dst + n + 3 < 2 ^ 64 ->
  meta st dst KMSAN_META_SHADOW = sd -> sd <> 0 ->
  meta st src KMSAN_META_SHADOW = ss -> ss <> 0 ->
  meta st dst KMSAN_META_ORIGIN = od -> od <> 0 ->
  meta st src KMSAN_META_ORIGIN = os -> os <> 0 ->
  kmsan_metadata_is_contiguous dst n st = Ok true st ->
  kmsan_metadata_is_contiguous src n st = Ok true st ->
  let slots := Z.min (origin_slots src n) (origin_slots dst n) in
  od + KMSAN_ORIGIN_SIZE * slots <= sd \/ sd + n <= od ->
  exists st',
    kmsan_memmove_metadata dst src n st = Ok tt st'
    /\ (forall j, 0 <= j < n ->
          load8 (mem st') (sd + j) = load8 (mem st) (ss + j))
    /\ (forall x, x < sd \/ sd + n <= x ->
                  x < od \/ od + KMSAN_ORIGIN_SIZE * slots <= x ->
                  load8 (mem st') x = load8 (mem st) x).
Proof.
  intros Hsrc Hdst Hn Hstop Hdtop Hsd Hsd0 Hss Hss0 Hod Hod0 Hos Hos0
    Hgd Hgs slots D.
  rewrite (memmove_to_loop st dst src n sd ss od os) by assumption.
  fold slots.
  assert (Hslots : 1 <= slots < 2 ^ 31 - 1).
  { subst slots.
    rewrite (origin_slots_bounds src n Hsrc Hn Hstop).
    rewrite (origin_slots_bounds dst n Hdst Hn Hdtop).
    clear - Hn. unfold KMSAN_ORIGIN_SIZE. lia. }
  clearbody slots.
  assert (Hdir : exists iter i0,
            (if dst >? src then -1 else 1) = iter
            /\ (if dst >? src then slots - 1 else 0) = i0
            /\ (iter = 1 /\ i0 = 0 \/ iter = -1 /\ i0 = slots - 1)).
  { destruct (dst >? src); eexists _, _; split; try reflexivity;
      split; try reflexivity; auto. }
  destruct Hdir as (iter & i0 & -> & -> & Hdir).
  assert (Hidx : forall step, 0 <= step < Z.of_nat (Z.to_nat slots) ->
                   0 <= i0 + iter * step < slots).
  { intros step Hstep. clear - Hdir Hstep Hslots. lia. }
  destruct (memmove_origins_frame (Z.to_nat slots) src n (origin_slots src n)
              os od (ALIGN_DOWN ss KMSAN_ORIGIN_SIZE) iter i0 0 0
              (set_mem (memmove (mem st) sd ss n) st))
    as (st' & E & Hout).
  { clear - Hdir. lia. }
  { intros step Hstep. specialize (Hidx step Hstep).
    clear - Hidx Hslots. lia. }
  exists st'. split; [exact E|]. cbn [mem set_mem] in Hout.
  unfold KMSAN_ORIGIN_SIZE in *. split.
  - intros j Hj. rewrite Hout.
    + now apply load8_memmove_in.
    + intros step Hstep. specialize (Hidx step Hstep).
      clear - Hidx D Hj. lia.
  - intros x Hx1 Hx2. rewrite Hout.
    + unfold load8. now rewrite memmove_out.
    + intros step Hstep. specialize (Hidx step Hstep).
      clear - Hidx Hx2. lia.
Qed.

(** X23.  Edge cases of [kmsan_memmove_metadata].  A destination without
    shadow makes the call a no-op, whatever the source.  A copy of zero
    bytes between two locations with shadow, one of which is
    granule-aligned, aborts the kernel: the count of origin slots of the
    aligned side is 0 and trips [BUG_ON(!src_slots || !dst_slots)]. *)
Theorem memmove_edge_cases st dst src :
  (forall n, meta st dst KMSAN_META_SHADOW = 0 ->
     kmsan_memmove_metadata dst src n st = Ok tt st)
  /\ (0 <= src -> 0 <= dst -> src + 3 < 2 ^ 64 -> dst + 3 < 2 ^ 64 ->
      meta st dst KMSAN_META_SHADOW <> 0 ->
      meta st src KMSAN_META_SHADOW <> 0 ->
      src mod KMSAN_ORIGIN_SIZE = 0 \/ dst mod KMSAN_ORIGIN_SIZE = 0 ->
      kmsan_memmove_metadata dst src 0 st = Bug).
Proof.
  split.
  - intros n Hs. unfold kmsan_memmove_metadata.
    unfold bind at 1. rewrite kmsan_get_metadata_pure, Hs. reflexivity.
  - intros Hsrc Hdst Hstop Hdtop Hsd Hss Hal.
    unfold kmsan_memmove_metadata.
    unfold bind at 1. rewrite kmsan_get_metadata_pure.
    apply nz_true in Hsd. rewrite Hsd. cbn [negb].
    unfold bind at 1.
    change (kmsan_metadata_is_contiguous dst 0 st) with (@Ok SD bool true st).
    unfold bind at 1. unfold BUG_ON at 1. cbn [negb]. unfold ret at 1.
    unfold bind at 1. rewrite kmsan_get_metadata_pure.
    apply nz_true in Hss. rewrite Hss. cbn [negb].
    unfold bind at 1.
    unfold kmsan_metadata_is_contiguous at 1. cbn [nz Z.eqb negb].
    unfold ret at 1.
    unfold bind at 1. unfold BUG_ON at 1. cbn [negb]. unfold ret at 1.
    unfold bind at 1. unfold modify at 1.
    unfold bind at 1. rewrite kmsan_get_metadata_pure.
    unfold bind at 1. rewrite kmsan_get_metadata_pure.
    unfold bind at 1. unfold BUG_ON at 1.
    destruct (negb (nz _) || negb (nz _)); [reflexivity|].
    unfold ret at 1.
    assert (Hz : negb (nz (origin_slots src 0))
                 || negb (nz (origin_slots dst 0)) = true).
    { assert (Hs : forall p, 0 <= p -> p + 3 < 2 ^ 64 ->
                p mod KMSAN_ORIGIN_SIZE = 0 -> origin_slots p 0 = 0).
      { intros p Hp Hp3 Hpa.
        unfold origin_slots, ALIGN, ALIGN_DOWN, s32, u64,
          KMSAN_ORIGIN_SIZE in *. lia. }
      destruct Hal as [H|H].
      - now rewrite (Hs src Hsrc Hstop H).
      - rewrite (Hs dst Hdst Hdtop H). apply orb_true_r. }
    unfold bind at 1. unfold BUG_ON at 1. now rewrite Hz.
Qed.

End PropagationMore.

(** ** Metadata propagation of whole granules *)

Section GranuleCopies.
Context {PF : Platform} {SD : StackDepot}.

Lemma masked_shadow_aligned m asrc src n src_slots t :
  src mod KMSAN_ORIGIN_SIZE = 0 -> u64 (src + n) mod KMSAN_ORIGIN_SIZE = 0 ->
  masked_shadow m asrc src n src_slots t
  = load32 m (asrc + KMSAN_ORIGIN_SIZE * t).
Proof.
  intros Hs Hn. unfold masked_shadow. cbv zeta. rewrite Hs, Hn.
  cbn [Z.mul]. rewrite !Z.shiftl_0_r, !Z.shiftr_0_r.
  pose proof (load32_range m (asrc + KMSAN_ORIGIN_SIZE * t)) as Hr.
  destruct (t =? 0); destruct (t =? src_slots - 1);
    rewrite ?(u32_small _ Hr), ?(u32_small _ Hr); reflexivity.
Qed.

Section Settled.
Variables (src n src_slots os od asrc iter slots h h' : Z).
Hypothesis iter_unit : iter = 1 \/ iter = -1.
Hypothesis slots_int : slots < 2 ^ 31 - 1.
Hypothesis src_aligned : src mod KMSAN_ORIGIN_SIZE = 0.
Hypothesis end_aligned : u64 (src + n) mod KMSAN_ORIGIN_SIZE = 0.
Hypothesis handle_range : 0 <= h' < 2 ^ 32.
Hypothesis dst_not_shadow :
  od + KMSAN_ORIGIN_SIZE * slots <= asrc
  \/ asrc + KMSAN_ORIGIN_SIZE * slots <= od.
Hypothesis dst_not_src :
  od + KMSAN_ORIGIN_SIZE * slots <= os
  \/ os + KMSAN_ORIGIN_SIZE * slots <= od.

(** Once the origin of the first granule is chained, every further granule
    of the same source origin gets the same handle without a new record. *)
Lemma memmove_origins_settled k : forall i st,
  (forall step, 0 <= step < Z.of_nat k -> 0 <= i + iter * step < slots) ->
  (forall step, 0 <= step < Z.of_nat k ->
     load32 (mem st) (asrc + KMSAN_ORIGIN_SIZE * (i + iter * step)) <> 0
     /\ load32 (mem st) (os + KMSAN_ORIGIN_SIZE * (i + iter * step)) = h) ->
  exists st',
    memmove_origins k src n src_slots os od asrc iter i h h' st = Ok tt st'
    /\ only_mem_changed st st'
    /\ (forall step, 0 <= step < Z.of_nat k ->
          load32 (mem st') (od + KMSAN_ORIGIN_SIZE * (i + iter * step)) = h')
    /\ (forall x,
          (forall step, 0 <= step < Z.of_nat k ->
             x < od + KMSAN_ORIGIN_SIZE * (i + iter * step)
             \/ od + KMSAN_ORIGIN_SIZE * (i + iter * step) + 4 <= x) ->
          load8 (mem st') x = load8 (mem st) x).
Proof.
  induction k as [|k IH]; intros i st Hidx Hsrc.
  - exists st. split; [reflexivity|].
    split; [apply only_mem_changed_refl|].
    split; [intros; lia|reflexivity].
  - rewrite memmove_origins_step.
    pose proof (Hidx 0 ltac:(lia)) as Hi. rewrite Z.mul_0_r, Z.add_0_r in Hi.
    destruct (Hsrc 0 ltac:(lia)) as [Hsh Hos].
    rewrite Z.mul_0_r, Z.add_0_r in Hsh, Hos.
    replace (i <? 0) with false by (symmetry; apply Z.ltb_ge; lia).
    cbv zeta. rewrite masked_shadow_aligned by assumption.
    rewrite Hos, Z.eqb_refl. cbn [negb]. rewrite andb_false_r. cbn [andb].
    unfold ret at 1. cbn [fst snd].
    apply nz_true in Hsh. rewrite Hsh.
    assert (Hs32 : s32 (i + iter) = i + iter)
      by (unfold s32; destruct iter_unit; lia).
    rewrite Hs32.
    set (st3 := set_mem (store32 (mem st) (od + KMSAN_ORIGIN_SIZE * i) h') st).
    assert (Hm3 : forall x,
              x < od + KMSAN_ORIGIN_SIZE * i
              \/ od + KMSAN_ORIGIN_SIZE * i + 4 <= x ->
              load8 (mem st3) x = load8 (mem st) x).
    { intros x Hx. subst st3. cbn [mem set_mem].
      now rewrite load8_store32_other by lia. }
    assert (Hi3 : load32 (mem st3) (od + KMSAN_ORIGIN_SIZE * i) = h').
    { subst st3. cbn [mem set_mem]. now apply load32_store32_same. }
    assert (Hc3 : only_mem_changed st st3) by reflexivity.
    clearbody st3.
    destruct (IH (i + iter) st3) as (st' & E & Hch & Hin & Hout).
    { intros step Hstep. specialize (Hidx (step + 1) ltac:(lia)).
      now replace (i + iter + iter * step) with (i + iter * (step + 1))
        by lia. }
    { intros step Hstep.
      pose proof (Hidx (step + 1) ltac:(lia)) as Ht.
      destruct (Hsrc (step + 1) ltac:(lia)) as [A B].
      replace (i + iter + iter * step) with (i + iter * (step + 1)) by lia.
      rewrite !(load32_frame (mem st) (mem st3)); [now split| |].
      - intros x Hx. apply Hm3. unfold KMSAN_ORIGIN_SIZE in *.
        clear - Hx Ht Hi dst_not_src iter_unit Hstep. lia.
      - intros x Hx. apply Hm3. unfold KMSAN_ORIGIN_SIZE in *.
        clear - Hx Ht Hi dst_not_shadow iter_unit Hstep. lia. }
    exists st'. split; [exact E|]. split.
    { now apply (only_mem_changed_trans st st3 st'). }
    split.
    + intros step Hstep. destruct (Z.eq_dec step 0) as [->|Hne].
      * rewrite Z.mul_0_r, Z.add_0_r.
        rewrite (load32_frame (mem st3)); [exact Hi3|].
        intros x Hx. apply Hout. intros step Hstep'.
        unfold KMSAN_ORIGIN_SIZE in *.
        clear - Hx iter_unit Hstep'. destruct iter_unit; lia.
      * specialize (Hin (step - 1) ltac:(lia)).
        now replace (i + iter + iter * (step - 1)) with (i + iter * step)
          in Hin by lia.
    + intros x Hx. rewrite Hout.
      * apply Hm3. specialize (Hx 0 ltac:(lia)).
        now rewrite Z.mul_0_r, Z.add_0_r in Hx.
      * intros step Hstep. specialize (Hx (step + 1) ltac:(lia)).
        now replace (i + iter + iter * step) with (i + iter * (step + 1))
          by lia.
Qed.

End Settled.


Lemma aligned_slots p n :
  0 <= p -> 0 < n < 2 ^ 31 -> p + n + 3 < 2 ^ 64 ->
  p mod KMSAN_ORIGIN_SIZE = 0 -> n mod KMSAN_ORIGIN_SIZE = 0 ->
  origin_slots p n = n / KMSAN_ORIGIN_SIZE.
Proof.
  intros Hp Hn Htop Hpa Hna. rewrite origin_slots_bounds by assumption.
  unfold KMSAN_ORIGIN_SIZE in *. lia.
Qed.

(** X24.  Copies of whole granules carry their provenance along.  When
    source and destination are granule-aligned, the length is a multiple
    of the granule size, the metadata ranges involved do not overlap, every
    source granule has a poisoned byte and all source origin slots hold one
    nonzero handle [h], then [kmsan_memmove_metadata] copies the shadow
    bytes verbatim and writes one and the same nonzero handle [h'] into
    every destination origin slot: [h] itself (when the chain is saturated
    or the store could not save a record) or a handle one level deeper
    than [h] with the same use-after-free bit.  The origin is chained once
    for the whole copy.  If every source byte is poisoned, a check of the
    destination emits exactly one report, the whole range under [h']. *)
Theorem memmove_propagates_granules st dst src n sd ss od os h :
  0 <= src -> 0 <= dst -> 0 < n < 2 ^ 31 ->
  src + n + 3 < 2 ^ 64 -> dst + n + 3 < 2 ^ 64 ->
  src mod KMSAN_ORIGIN_SIZE = 0 -> dst mod KMSAN_ORIGIN_SIZE = 0 ->
  n mod KMSAN_ORIGIN_SIZE = 0 -> ss mod KMSAN_ORIGIN_SIZE = 0 ->
  tracked_range st src n ss os -> tracked_range st dst n sd od ->
  kmsan_metadata_is_contiguous dst n st = Ok true st ->
  kmsan_metadata_is_contiguous src n st = Ok true st ->
  sd + n <= ss \/ ss + n <= sd ->
  od + n <= ss \/ ss + n <= od ->
  od + n <= os \/ os + n <= od ->
  od + n <= sd \/ sd + n <= od ->
  os + n <= sd \/ sd + n <= os ->
  h <> 0 ->
  (forall t, 0 <= t < n / KMSAN_ORIGIN_SIZE ->
     load32 (mem st) (ss + KMSAN_ORIGIN_SIZE * t) <> 0
     /\ load32 (mem st) (os + KMSAN_ORIGIN_SIZE * t) = h) ->
  exists st' h',
    kmsan_memmove_metadata dst src n st = Ok tt st'
    /\ h' <> 0
    /\ (h' = h \/ (origin_depth h' = origin_depth h + 1
                   /\ origin_uaf h' = origin_uaf h))
    /\ (forall j, 0 <= j < n ->
          load8 (mem st') (meta st' (dst + j) KMSAN_META_SHADOW)
          = load8 (mem st) (meta st (src + j) KMSAN_META_SHADOW)
          /\ load32 (mem st') (meta st' (dst + j) KMSAN_META_ORIGIN) = h')
    /\ ((forall j, 0 <= j < n ->
           load8 (mem st) (meta st (src + j) KMSAN_META_SHADOW) <> 0) ->
        forall ua reason,
          kmsan_internal_check_memory dst n ua reason st'
          = Ok tt (add_report (mk_report h' dst n 0 (n - 1) ua reason) st')).
Proof.
  intros Hsrc Hdst Hn Hstop Hdtop Hsa Hda Hna Hssa Htrs Htrd Hgd Hgs
    D1 D2 D3 D4 D5 Hh Hwords.
  destruct (tracked_first st src n ss os ltac:(lia) Htrs)
    as (Hss & Hss0 & Hos & Hos0).
  destruct (tracked_first st dst n sd od ltac:(lia) Htrd)
    as (Hsd & Hsd0 & Hod & Hod0).
  rewrite (memmove_to_loop st dst src n sd ss od os) by assumption.
  rewrite (aligned_slots src n) by assumption.
  rewrite (aligned_slots dst n) by assumption.
  rewrite Z.min_id.
  assert (Hal : ALIGN_DOWN ss KMSAN_ORIGIN_SIZE = ss)
    by (clear - Hssa; unfold ALIGN_DOWN, KMSAN_ORIGIN_SIZE in *; lia).
  rewrite Hal. clear Hal.
  assert (Hend : u64 (src + n) mod KMSAN_ORIGIN_SIZE = 0)
    by (clear - Hsrc Hn Hstop Hsa Hna;
        unfold u64, KMSAN_ORIGIN_SIZE in *; lia).
  assert (Hw : exists w, n / KMSAN_ORIGIN_SIZE = w
                         /\ 1 <= w < 2 ^ 31 - 1 /\ n = 4 * w).
  { exists (n / KMSAN_ORIGIN_SIZE). split; [reflexivity|].
    clear - Hn Hna. unfold KMSAN_ORIGIN_SIZE in *. lia. }
  destruct Hw as (w & Ew & Hw & Enw). rewrite Ew in *. clear Ew.
  unfold KMSAN_ORIGIN_SIZE in D1, D2, D3, D4, D5.
  (* the state after the shadow copy *)
  set (st_a := set_mem (memmove (mem st) sd ss n) st).
  assert (Hwa : forall t, 0 <= t < w ->
            load32 (mem st_a) (ss + KMSAN_ORIGIN_SIZE * t) <> 0
            /\ load32 (mem st_a) (os + KMSAN_ORIGIN_SIZE * t) = h).
  { intros t Ht. destruct (Hwords t Ht) as [A B].
    subst st_a. cbn [mem set_mem].
    rewrite !(load32_frame (mem st) (memmove (mem st) sd ss n));
      [now split| |].
    - intros x Hx. unfold load8. rewrite memmove_out; [reflexivity|].
      unfold KMSAN_ORIGIN_SIZE in *. clear - Hx Ht D5 Enw. lia.
    - intros x Hx. unfold load8. rewrite memmove_out; [reflexivity|].
      unfold KMSAN_ORIGIN_SIZE in *. clear - Hx Ht D1 Enw. lia. }
  assert (Hsha : forall j, 0 <= j < n ->
            load8 (mem st_a) (sd + j) = load8 (mem st) (ss + j)).
  { intros j Hj. subst st_a. cbn [mem set_mem].
    now apply load8_memmove_in. }
  assert (La : layout_eq st st_a) by apply layout_eq_set_mem.
  clearbody st_a.
  assert (Hdir : exists iter i0,
            (if dst >? src then -1 else 1) = iter
            /\ (if dst >? src then w - 1 else 0) = i0
            /\ (iter = 1 /\ i0 = 0 \/ iter = -1 /\ i0 = w - 1)).
  { destruct (dst >? src); eexists _, _; split; try reflexivity;
      split; try reflexivity; auto. }
  destruct Hdir as (iter & i0 & -> & -> & Hdir).
  assert (Hiter : iter = 1 \/ iter = -1) by (clear - Hdir; lia).
  assert (Hidx : forall step, 0 <= step < w -> 0 <= i0 + iter * step < w).
  { intros step Hstep. clear - Hdir Hstep. lia. }
  assert (Hvisit : forall t, 0 <= t < w ->
            exists step, 0 <= step < w /\ i0 + iter * step = t).
  { intros t Ht. destruct Hdir as [[-> ->]|[-> ->]].
    - exists t. clear - Ht. lia.
    - exists (w - 1 - t). clear - Ht. lia. }
  (* the first step chains the origin *)
  assert (Ek : Z.to_nat w = S (Z.to_nat (w - 1))) by (clear - Hw; lia).
  rewrite Ek. clear Ek.
  assert (Ek : Z.of_nat (Z.to_nat (w - 1)) = w - 1) by (clear - Hw; lia).
  rewrite memmove_origins_step.
  pose proof (Hidx 0 ltac:(clear - Hw; lia)) as Hi0.
  rewrite Z.mul_0_r, Z.add_0_r in Hi0.
  assert (Eneg : (i0 <? 0) = false) by (apply Z.ltb_ge; clear - Hi0; lia).
  rewrite Eneg. clear Eneg.
  cbv zeta. rewrite masked_shadow_aligned by assumption.
  destruct (Hwa i0 Hi0) as [Hsh0 Hos0'].
  rewrite Hos0'.
  pose proof Hh as Hh'. apply nz_true in Hh'. rewrite Hh'.
  assert (Ez : (h =? 0) = false) by now apply Z.eqb_neq.
  rewrite Ez. clear Ez.
  pose proof Hsh0 as Hsh0'. apply nz_true in Hsh0'. rewrite Hsh0'.
  cbn [negb andb].
  destruct (chain_origin_cases h st_a) as (hc & st_c & Ech & Hcases).
  destruct (chain_origin_frame h st_a) as (hc' & st_c' & Ech' & Hmc & Hrc & _).
  rewrite Ech in Ech'. injection Ech' as <- <-.
  pose proof (shifts_chain h st_a hc st_c Ech) as (_ & _ & Lc & _).
  unfold bind at 1. rewrite Ech.
  assert (Hh'ex : exists h', h' = if nz hc then hc else h)
    by (eexists; reflexivity).
  destruct Hh'ex as (h' & Eh').
  assert (Hon : (if nz hc then ret (h, hc) else ret (h, h)) st_c
                = Ok (h, h') st_c).
  { subst h'. now destruct (nz hc). }
  rewrite Hon. cbn [fst snd].
  assert (Hh'r : 0 <= h' < 2 ^ 32).
  { assert (Hhr : 0 <= h < 2 ^ 32).
    { rewrite <- Hos0'. apply load32_range. }
    subst h'. destruct (nz hc); [now apply Hrc|exact Hhr]. }
  assert (Hh'nz : h' <> 0).
  { subst h'. destruct (nz hc) eqn:E; [now apply nz_true|exact Hh]. }
  assert (Hh'rel : h' = h \/ (origin_depth h' = origin_depth h + 1
                              /\ origin_uaf h' = origin_uaf h)).
  { subst h'. destruct (nz hc) eqn:E; [|now left].
    apply nz_true in E.
    destruct Hcases as [(H0 & _)|[(_ & _ & ->)|(_ & _ & [H0|(_ & A & B)])]].
    - contradiction.
    - now left.
    - contradiction.
    - right. now split. }
  clear Eh' Hcases Hrc.
  assert (Hs32 : s32 (i0 + iter) = i0 + iter)
    by (unfold s32; clear - Hi0 Hw Hiter; lia).
  rewrite Hs32. clear Hs32.
  assert (H3 : exists st3,
            st3 = set_mem (store32 (mem st_c)
                             (od + KMSAN_ORIGIN_SIZE * i0) h') st_c)
    by (eexists; reflexivity).
  destruct H3 as (st3 & E3). rewrite <- E3.
  assert (Hm3 : forall x,
            x < od + KMSAN_ORIGIN_SIZE * i0
            \/ od + KMSAN_ORIGIN_SIZE * i0 + 4 <= x ->
            load8 (mem st3) x = load8 (mem st_a) x).
  { intros x Hx. subst st3. cbn [mem set_mem].
    rewrite load8_store32_other by exact Hx. now rewrite Hmc. }
  assert (Hi3 : load32 (mem st3) (od + KMSAN_ORIGIN_SIZE * i0) = h').
  { subst st3. cbn [mem set_mem]. now apply load32_store32_same. }
  assert (L3 : layout_eq st st3).
  { eapply layout_eq_trans; [exact La|].
    eapply layout_eq_trans; [exact Lc|]. subst st3.
    apply layout_eq_set_mem. }
  clear E3 Ech Hmc Lc La.
  (* the remaining steps reuse the handle *)
  destruct (memmove_origins_settled src n w os od ss iter w h h'
              Hiter ltac:(clear - Hw; lia) Hsa Hend Hh'r
              ltac:(unfold KMSAN_ORIGIN_SIZE; clear - D2 Enw; lia)
              ltac:(unfold KMSAN_ORIGIN_SIZE; clear - D3 Enw; lia)
              (Z.to_nat (w - 1)) (i0 + iter) st3)
    as (st' & E & Hch & Hin & Hout).
  { intros step Hstep. rewrite Ek in Hstep.
    pose proof (Hidx (step + 1) ltac:(clear - Hstep; lia)) as Ht.
    clear - Ht. 
    now replace (i0 + iter + iter * step) with (i0 + iter * (step + 1))
      by lia. }
  { intros step Hstep. rewrite Ek in Hstep.
    pose proof (Hidx (step + 1) ltac:(clear - Hstep; lia)) as Ht.
    destruct (Hwa _ Ht) as [A B].
    assert (Ei : i0 + iter + iter * step = i0 + iter * (step + 1))
      by (clear; lia).
    rewrite Ei.
    rewrite !(load32_frame (mem st_a) (mem st3)); [now split| |].
    - intros x Hx. apply Hm3. unfold KMSAN_ORIGIN_SIZE in *.
      clear - Hx Ht Hi0 D3 Enw. lia.
    - intros x Hx. apply Hm3. unfold KMSAN_ORIGIN_SIZE in *.
      clear - Hx Ht Hi0 D2 Enw. lia. }
  rewrite Ek in Hin, Hout.
  exists st', h'. split; [exact E|].
  split; [exact Hh'nz|]. split; [exact Hh'rel|].
  assert (L' : layout_eq st st').
  { eapply layout_eq_trans; [exact L3|].
    now apply only_mem_changed_layout. }
  assert (Hslot : forall t, 0 <= t < w ->
            load32 (mem st') (od + KMSAN_ORIGIN_SIZE * t) = h').
  { intros t Ht. destruct (Hvisit t Ht) as (step & Hstep & <-).
    destruct (Z.eq_dec step 0) as [->|Hne].
    - rewrite Z.mul_0_r, Z.add_0_r.
      rewrite (load32_frame (mem st3)); [exact Hi3|].
      intros x Hx. apply Hout. intros step Hstep'.
      unfold KMSAN_ORIGIN_SIZE in *.
      clear - Hx Hiter Hstep'. destruct Hiter; lia.
    - specialize (Hin (step - 1) ltac:(clear - Hstep Hne; lia)).
      assert (Ei : i0 + iter + iter * (step - 1) = i0 + iter * step)
        by (clear; lia).
      now rewrite Ei in Hin. }
  assert (Hbyte : forall j, 0 <= j < n ->
            load8 (mem st') (sd + j) = load8 (mem st) (ss + j)).
  { intros j Hj. rewrite Hout.
    - rewrite Hm3; [now apply Hsha|].
      unfold KMSAN_ORIGIN_SIZE. clear - Hj Hi0 D4 Enw. lia.
    - intros step Hstep.
      pose proof (Hidx (step + 1) ltac:(clear - Hstep; lia)) as Ht.
      assert (Ei : i0 + iter + iter * step = i0 + iter * (step + 1))
        by (clear; lia).
      rewrite Ei.
      unfold KMSAN_ORIGIN_SIZE. clear - Hj Ht D4 Enw. lia. }
  destruct Htrs as (_ & _ & Hssj & _).
  pose proof Htrd as (_ & _ & Hsdj & Hodj).
  assert (Hall : forall j, 0 <= j < n ->
            load8 (mem st') (meta st' (dst + j) KMSAN_META_SHADOW)
            = load8 (mem st) (meta st (src + j) KMSAN_META_SHADOW)
            /\ load32 (mem st') (meta st' (dst + j) KMSAN_META_ORIGIN) = h').
  { intros j Hj. rewrite <- !(meta_ext st st') by exact L'.
    rewrite Hsdj, Hssj, Hodj by exact Hj. split; [now apply Hbyte|].
    assert (Eq : (dst + j) / KMSAN_ORIGIN_SIZE - dst / KMSAN_ORIGIN_SIZE
                 = j / 4)
      by (unfold KMSAN_ORIGIN_SIZE in *; clear - Hda Hj; lia).
    rewrite Eq. apply Hslot. clear - Hj Enw. lia. }
  split; [exact Hall|].
  intros Hpois ua reason.
  apply (check_uniform_range st' dst n ua reason sd od h').
  - exact Hdst.
  - exact Hn.
  - clear - Hdtop. lia.
  - exact Hh'nz.
  - now apply (tracked_range_ext st st').
  - intros j Hj. destruct (Hall j Hj) as [A B]. split; [|exact B].
    rewrite A. now apply Hpois.
  - apply (contiguous_true dst n st st Hgd). exact L'.
Qed.

End GranuleCopies.

(** ** Degraded provenance of whole granules *)

Section DegradedProvenance.
Context {PF : Platform} {SD : StackDepot}.



End DegradedProvenance.

(** ** The [gup] hook *)

Section GupHook.
Context {PF : Platform} {SD : StackDepot} {HE : HookEnv}.

Lemma gup_loop_idle pages k : forall i st,
  (forall t, i <= t < i + Z.of_nat k ->
     PageHighMem (nth (Z.to_nat t) pages 0) = true
     \/ TASK_SIZE <= page_address (nth (Z.to_nat t) pages 0)) ->
  gup_loop k pages i st = Ok tt st.
Proof.
  induction k as [|k IH]; intros i st Hall; [reflexivity|].
  cbn [gup_loop]. cbv zeta. unfold bind.
  assert (Hstep : (if PageHighMem (nth (Z.to_nat i) pages 0)
                   then ret tt
                   else
                     if (page_address (nth (Z.to_nat i) pages 0) <? TASK_SIZE)
                        && (u64 (page_address (nth (Z.to_nat i) pages 0)
                                 + PAGE_SIZE) <? TASK_SIZE)
                     then kmsan_unpoison_memory
                            (page_address (nth (Z.to_nat i) pages 0)) PAGE_SIZE
                     else ret tt) st = Ok tt st).
  { destruct (Hall i ltac:(lia)) as [Hh|Hk].
    - now rewrite Hh.
    - destruct (PageHighMem _); [reflexivity|].
      apply Z.ltb_ge in Hk. now rewrite Hk. }
  rewrite Hstep. apply IH. intros t Ht. apply Hall. lia.
Qed.

(** X25.  [kmsan_gup_pgd_range] only acts on pages whose kernel address
    lies below [TASK_SIZE] together with the end of the page.  A call with
    a count that is not positive does nothing, and so does a call all of
    whose pages are highmem or have their kernel address at or above
    [TASK_SIZE]: their metadata is left as it is. *)
Theorem gup_skips_kernel_mapped_pages st pages nr :
  (forall t, 0 <= t < nr ->
     PageHighMem (nth (Z.to_nat t) pages 0) = true
     \/ TASK_SIZE <= page_address (nth (Z.to_nat t) pages 0)) ->
  kmsan_gup_pgd_range pages nr st = Ok tt st.
Proof.
  intros Hall. unfold kmsan_gup_pgd_range. apply gup_loop_idle.
  intros t Ht. apply Hall. lia.
Qed.

End GupHook.

(** ** Use after free *)

Section UseAfterFree.
Context {PF : Platform} {SD : StackDepot}.

(** X26.  A use after free is reported.  After [kmsan_slab_free] of a
    tracked object of a cache that is neither [SLAB_TYPESAFE_BY_RCU] nor
    [SLAB_POISON] and has no constructor, in a ready kernel outside the
    runtime, a [kmsan_check_memory] of the object emits exactly one report:
    the whole object, under the handle saved for the freeing call stack,
    which carries the use-after-free bit.  When the provenance store
    issued no handle for the free (handle 0), the check reports nothing
    although every byte of the object is poisoned. *)
Theorem use_after_free_is_reported st s object sh og :
  kmsan_ready st = true -> kmsan_in_runtime_ctr st = 0 ->
  Z.land (flags s) (Z.lor SLAB_TYPESAFE_BY_RCU SLAB_POISON) = 0 ->
  ctor s = 0 ->
  0 <= object -> 0 < object_size s < 2 ^ 31 ->
  object + object_size s <= 2 ^ 64 ->
  tracked_range st object (object_size s) sh og ->
  metadata_apart object (object_size s) sh og ->
  kmsan_metadata_is_contiguous object (object_size s) st = Ok true st ->
  let n := object_size s in
  let h := poison_handle st GFP_KERNEL
             (Z.lor KMSAN_POISON_CHECK KMSAN_POISON_FREE) in
  exists st1,
    kmsan_slab_free s object st = Ok tt st1
    /\ poisoned_with st1 object n h
    /\ (h <> 0 -> origin_uaf h = true)
    /\ kmsan_check_memory object n st1
       = Ok tt (if nz h
                then add_report (mk_report h object n 0 (n - 1) 0 REASON_ANY)
                       st1
                else st1).
Proof.
  intros Hready Hctr Hflags Hctor Ha Hn Htop Htr Hdis Hgate n h.
  assert (Hn64 : n + 6 < 2 ^ 64) by (subst n; clear - Hn; lia).
  destruct (guarded_poison st object n GFP_KERNEL
              (Z.lor KMSAN_POISON_CHECK KMSAN_POISON_FREE) sh og)
    as (st1 & E & Hp & _ & _ & _ & L); try assumption;
    try (subst n; clear - Hn; lia).
  exists st1. unfold kmsan_slab_free.
  unfold bind at 1. unfold gets at 1. unfold bind at 1.
  unfold kmsan_in_runtime, gets.
  rewrite Hready, Hctr, Hflags, Hctor. cbn [negb nz Z.eqb orb].
  split; [exact E|]. split; [exact Hp|].
  split; [intros Hh; now apply (free_handle_uaf st GFP_KERNEL)|].
  unfold kmsan_check_memory. fold h in Hp.
  destruct (nz h) eqn:Eh.
  - apply nz_true in Eh.
    apply (check_uniform_range st1 object n 0 REASON_ANY sh og);
      try assumption.
    + now apply (tracked_range_ext st st1).
    + intros j Hj. destruct (Hp j Hj) as [A B]. split; [|exact B].
      rewrite A. discriminate.
    + apply (contiguous_true object n st st Hgate). exact L.
  - apply nz_false in Eh. rewrite Eh in Hp.
    apply (check_quiet_range st1 object n 0 REASON_ANY sh og 255);
      try assumption.
    + subst n. clear - Hn. lia.
    + now apply (tracked_range_ext st st1).
    + left. exact Hp.
    + apply (contiguous_true object n st st Hgate). exact L.
Qed.

End UseAfterFree.

(** ** The runtime on concrete kernels *)

Import X86 PoolDepot Scenario.

Ltac by_compute :=
  vm_compute; repeat split; try discriminate; try reflexivity.

Ltac by_le := vm_compute; discriminate.

Ltac each_offset j H :=
  let E := fresh "E" in
  assert (E : j = 0 \/ j = 1 \/ j = 2 \/ j = 3 \/ j = 4 \/ j = 5 \/ j = 6
              \/ j = 7) by lia;
  clear H;
  repeat (destruct E as [E | E]); subst j; vm_compute; reflexivity.

Lemma blk_tracked st n :
  smp_processor_id st = 0 -> kmsan_shadow st = shadow_page_of ->
  kmsan_origin st = origin_page_of -> 0 <= n <= 8 ->
  tracked_range st blk n blk_shadow blk_origin.
Proof.
  intros Hc Hs Ho Hn.
  assert (L : layout_eq st (boot 0 [])) by (repeat split; assumption).
  unfold tracked_range. split; [reflexivity|]. split; [reflexivity|].
  split; intros j Hj; rewrite (meta_ext st (boot 0 [])) by exact L;
    each_offset j Hj.
Qed.

(** C1 (the code fails the claim).  End-to-end scenario: an 8-byte tracked
    block is poison-filled under one origin handle, here handle 1; offsets
    [2,4] are unpoisoned; the whole range is checked.  Unpoisoning leaves
    offsets 0, 1, 5, 6, 7 poisoned but writes handle 0 into both origin
    slots of the block, and the check then emits no report at all, where
    the claim has two reports, [0,1] and [5,7]. *)
Theorem end_to_end_scenario_reports_nothing :
  let st := boot 10 [1; 2; 3] in
  let poison :=
    kmsan_internal_poison_memory blk 8 GFP_KERNEL KMSAN_POISON_NOCHECK in
  let unpoison := kmsan_internal_unpoison_memory (blk + 2) 3 false in
  let check := kmsan_internal_check_memory blk 8 0 REASON_ANY in
  word_after poison st blk_origin = Some 1
  /\ word_after poison st (blk_origin + 4) = Some 1
  /\ bytes_after (andthen poison unpoison) st blk_shadow 8
     = Some [255; 255; 0; 0; 0; 255; 255; 255]
  /\ word_after (andthen poison unpoison) st blk_origin = Some 0
  /\ word_after (andthen poison unpoison) st (blk_origin + 4) = Some 0
  /\ reports_after (andthen poison (andthen unpoison check)) st = Some [].
Proof. by_compute. Qed.

(** C2, counterexample: in a kernel that is not ready and whose current
    context is inside the runtime, the resolver still returns the shadow
    pointer of a tracked address, not none. *)
Lemma resolver_answers_when_not_ready :
  let st := set_in_runtime 1 (set_ready false (boot 10 [])) in
  kmsan_ready st = false
  /\ value_after kmsan_in_runtime st = Some true
  /\ value_after (kmsan_get_metadata blk KMSAN_META_SHADOW) st
     = Some blk_shadow
  /\ blk_shadow <> 0.
Proof. by_compute. Qed.

(** C3, counterexample: with a store that has no room left, chaining the
    nonzero depth-0 handle 1 returns 0, not a handle of depth 1. *)
Lemma chain_fails_on_full_store :
  let st := full_store in
  1 <> 0
  /\ origin_depth 1 = 0
  /\ origin_depth 1 < MAX_CHAIN_DEPTH
  /\ value_after (kmsan_internal_chain_origin 1) st = Some 0
  /\ origin_depth 0 <> origin_depth 1 + 1.
Proof. by_compute. Qed.

(** C3, witness: eight chainings of the fresh handle in a kernel whose
    store has room: no save fails, and the handle reached has depth 7. *)
Lemma chain_origin_spec_witness :
  exists h st',
    chain_times 8 1 EdgeScenario.roomy_store = Ok h st'
    /\ h <> 0
    /\ origin_depth h = Z.min (Z.of_nat 8) MAX_CHAIN_DEPTH
    /\ origin_uaf h = origin_uaf 1.
Proof.
  destruct (proj2 chain_origin_spec 8%nat 1 EdgeScenario.roomy_store)
    as (h & st' & E & _ & H); [discriminate|reflexivity|].
  exists h, st'. split; [exact E|]. apply H. vm_compute. reflexivity.
Defined.

(** C4 (the code fails the claim).  Two clean bytes are copied from the
    start of a granule whose last two bytes are poisoned under handle 1, to
    the start of a clean granule.  The destination granule is all clean
    after the copy, yet its origin slot receives a nonzero (chained)
    handle: the loop masks away the two copied bytes of the source shadow
    word and keeps the two bytes beyond the copied range. *)
Theorem memmove_marks_clean_granule :
  let st := boot 10 [1; 2; 3] in
  let setup :=
    kmsan_internal_poison_memory (blk2 + 2) 2 GFP_KERNEL
      KMSAN_POISON_NOCHECK in
  let copy := kmsan_memmove_metadata blk blk2 2 in
  bytes_after setup st blk2_shadow 4 = Some [0; 0; 255; 255]
  /\ word_after setup st blk2_origin = Some 1
  /\ bytes_after setup st blk_shadow 4 = Some [0; 0; 0; 0]
  /\ word_after setup st blk_origin = Some 0
  /\ bytes_after (andthen setup copy) st blk_shadow 4 = Some [0; 0; 0; 0]
  /\ word_after (andthen setup copy) st blk_origin = Some 268435459.
Proof. by_compute. Qed.

(** C5, counterexample: freeing an object of a [SLAB_POISON] cache, which
    is neither RCU-typesafe nor has a constructor, leaves its shadow clean:
    the block is not re-poisoned. *)
Lemma slab_poison_cache_not_repoisoned :
  let s := mk_kmem_cache 0 SLAB_POISON 8 in
  let st := boot 10 [1; 2; 3] in
  ctor s = 0
  /\ Z.land (flags s) SLAB_TYPESAFE_BY_RCU = 0
  /\ bytes_after (kmsan_slab_free s blk) st blk_shadow 8
     = Some [0; 0; 0; 0; 0; 0; 0; 0].
Proof. by_compute. Qed.

(** C5, witness: freeing an 8-byte object of a plain cache. *)
Lemma free_repoisons_witness :
  let s := mk_kmem_cache 0 0 8 in
  let st := boot 10 [1; 2; 3] in
  let h := poison_handle st GFP_KERNEL
             (Z.lor KMSAN_POISON_CHECK KMSAN_POISON_FREE) in
  exists st1,
    kmsan_slab_free s blk st = Ok tt st1
    /\ poisoned_with st1 blk (object_size s) h
    /\ (h <> 0 -> origin_uaf h = true /\ origin_depth h = 0)
    /\ kmsan_in_runtime_ctr st1 = 0.
Proof.
  cbv zeta.
  apply (proj1 (proj2 (free_repoisons (boot 10 [1; 2; 3]) blk_shadow
                         blk_origin)) (mk_kmem_cache 0 0 8) blk);
    try reflexivity.
  - apply blk_tracked; try reflexivity. cbn. lia.
  - left. by_le.
Defined.

(** C6, witness: four bytes copied onto the poisoned block from an
    untracked address. *)
Lemma memmove_from_untracked_is_clean_witness :
  exists st1,
    kmsan_memmove_metadata blk untracked_blk 4 fresh_block = Ok tt st1
    /\ (forall j, 0 <= j < 4 -> load8 (mem st1) (blk_shadow + j) = 0)
    /\ (forall a, a < blk_shadow \/ blk_shadow + 4 <= a ->
                  mem st1 a = mem fresh_block a)
    /\ st1 = set_mem (mem st1) fresh_block
    /\ kmsan_internal_check_memory blk 4 0 REASON_ANY st1 = Ok tt st1.
Proof.
  apply (memmove_from_untracked_is_clean fresh_block blk untracked_blk 4
           blk_shadow 0 REASON_ANY); try reflexivity.
  - by_le.
  - by_le.
  - discriminate.
  - intros j Hj.
    apply (proj1 (proj2 (proj2 (blk_tracked fresh_block 4 eq_refl eq_refl
                                  eq_refl ltac:(lia))))).
    exact Hj.
Defined.

(** C7, counterexample: when the store cannot save the stack of the
    poisoning call, the eight bytes are poisoned under handle 0 and the
    check emits no report. *)
Lemma poison_without_handle_is_not_reported :
  let st := boot 0 [1; 2; 3] in
  let poison :=
    kmsan_internal_poison_memory blk 8 GFP_KERNEL KMSAN_POISON_NOCHECK in
  let check := kmsan_internal_check_memory blk 8 0 REASON_ANY in
  bytes_after poison st blk_shadow 8
  = Some [255; 255; 255; 255; 255; 255; 255; 255]
  /\ reports_after (andthen poison check) st = Some [].
Proof. by_compute. Qed.

(** C7, witness: the round trip on [blk] with a store that has room. *)
Lemma poison_check_roundtrip_witness :
  exists st1,
    kmsan_internal_poison_memory blk 8 GFP_KERNEL KMSAN_POISON_NOCHECK
      (boot 10 [1; 2; 3]) = Ok tt st1
    /\ kmsan_internal_check_memory blk 8 0 REASON_ANY st1
       = Ok tt (add_report (mk_report 1 blk 8 0 7 0 REASON_ANY) st1).
Proof.
  apply (@poison_check_roundtrip platform stack_depot
           (boot 10 [1; 2; 3]) blk GFP_KERNEL
           KMSAN_POISON_NOCHECK 0 REASON_ANY blk_shadow blk_origin 1
           after_first_save);
    try reflexivity.
  - by_le.
  - by_le.
  - apply blk_tracked; try reflexivity. lia.
  - left. by_le.
  - discriminate.
Defined.


(** C9, witness: a scan of the poisoned block. *)
Lemma check_memory_reports_nonzero_origin_witness :
  match kmsan_internal_check_memory blk 8 0 REASON_ANY fresh_block with
  | Ok _ st' =>
    exists rs, st' = add_reports rs fresh_block
      /\ Forall (sound_report (origin_at fresh_block blk) blk 8 0 REASON_ANY)
                rs
      /\ ((forall j, 0 <= j < 8 -> origin_at fresh_block blk j = 0) ->
          rs = [])
  | Bug => True
  | OutOfFuel => False
  end.
Proof.
  apply (check_memory_reports_nonzero_origin fresh_block blk 8 0 REASON_ANY).
  - by_le.
  - by_le.
  - split; [by_le|reflexivity].
Defined.

(** ** The further properties on the concrete kernel *)

Import X86Env.

(** Closed side conditions: comparisons and equations between numbers,
    flags and outcomes of runs. *)
Ltac by_run :=
  lazymatch goal with
  | |- _ /\ _ => split; by_run
  | |- _ <= _ => by_le
  | |- _ < _ => reflexivity
  | |- _ <> _ => by_le
  | |- @eq Z _ _ => vm_compute; reflexivity
  | |- @eq bool _ _ => vm_compute; reflexivity
  | |- @eq (outcome _) _ _ => reflexivity
  end.

Lemma blk2_tracked st n :
  smp_processor_id st = 0 -> kmsan_shadow st = shadow_page_of ->
  kmsan_origin st = origin_page_of -> 0 <= n <= 8 ->
  tracked_range st blk2 n blk2_shadow blk2_origin.
Proof.
  intros Hc Hs Ho Hn.
  assert (L : layout_eq st (boot 0 [])) by (repeat split; assumption).
  unfold tracked_range. split; [reflexivity|]. split; [reflexivity|].
  split; intros j Hj; rewrite (meta_ext st (boot 0 [])) by exact L;
    each_offset j Hj.
Qed.

(** X1, witness: a range of the tracked block that crosses into the next
    page. *)
Lemma contiguity_gate_verdict_witness :
  let st := boot 10 [] in
  (contiguous_pages st blk (PAGE_SIZE + 8) ->
   kmsan_metadata_is_contiguous blk (PAGE_SIZE + 8) st = Ok true st)
  /\ (~ contiguous_pages st blk (PAGE_SIZE + 8) ->
      kmsan_metadata_is_contiguous blk (PAGE_SIZE + 8) st
      = Ok false (add_console (TwoShadowRanges blk (PAGE_SIZE + 8)) st)).
Proof.
  cbv zeta.
  apply (contiguity_gate_verdict (boot 10 []) blk (PAGE_SIZE + 8)); by_run.
Defined.

(** X2, witness: the eight bytes of the tracked block filled with shadow
    [-1] under origin 1. *)
Lemma set_shadow_origin_effect_witness :
  let st := boot 10 [1; 2; 3] in
  exists st1,
    kmsan_internal_set_shadow_origin blk 8 (-1) 1 false st = Ok tt st1
    /\ only_mem_changed st st1
    /\ filled_with st1 blk 8 ((-1) mod 256) (u32 1)
    /\ metadata_frame (mem st) (mem st1) blk 8 blk_shadow blk_origin.
Proof.
  cbv zeta.
  apply (set_shadow_origin_effect (boot 10 [1; 2; 3]) blk 8 (-1) 1 false
           blk_shadow blk_origin); try by_run.
  - apply blk_tracked; try reflexivity. lia.
  - left. by_le.
Defined.

(** X3, witness: eight bytes of the block that no zone tracks. *)
Lemma poisoning_without_shadow_witness :
  let st := boot 10 [1; 2; 3] in
  kmsan_internal_unpoison_memory untracked_blk 8 false st = Ok tt st
  /\ kmsan_internal_unpoison_memory untracked_blk 8 true st = Bug
  /\ (Z.land KMSAN_POISON_NOCHECK KMSAN_POISON_CHECK = 0 ->
      exists st1,
        kmsan_internal_poison_memory untracked_blk 8 GFP_KERNEL
          KMSAN_POISON_NOCHECK st = Ok tt st1
        /\ only_depot_changed st st1)
  /\ (Z.land KMSAN_POISON_NOCHECK KMSAN_POISON_CHECK <> 0 ->
      kmsan_internal_poison_memory untracked_blk 8 GFP_KERNEL
        KMSAN_POISON_NOCHECK st = Bug).
Proof.
  cbv zeta.
  apply (poisoning_without_shadow (boot 10 [1; 2; 3]) untracked_blk 8
           GFP_KERNEL KMSAN_POISON_NOCHECK); by_run.
Defined.

(** X4, witness: an empty fill at the second byte of the poisoned block. *)
Lemma set_shadow_origin_empty_witness :
  let a := blk + 1 in
  exists st1,
    kmsan_internal_set_shadow_origin a 0 0 0 false fresh_block = Ok tt st1
    /\ only_mem_changed fresh_block st1
    /\ (a mod KMSAN_ORIGIN_SIZE = 0 ->
        forall x, mem st1 x = mem fresh_block x)
    /\ (a mod KMSAN_ORIGIN_SIZE <> 0 ->
        load32 (mem st1) blk_origin = u32 0
        /\ forall x, x < blk_origin \/ blk_origin + KMSAN_ORIGIN_SIZE <= x ->
                     mem st1 x = mem fresh_block x).
Proof.
  cbv zeta.
  apply (set_shadow_origin_empty fresh_block (blk + 1) 0 0 false
           (blk_shadow + 1) blk_origin); by_run.
Defined.

(** X5, witness: the round trips on the tracked block. *)
Lemma adhoc_api_roundtrip_witness :
  let st := boot 10 [1; 2; 3] in
  (exists st1,
     kmsan_unpoison_memory blk 8 st = Ok tt st1
     /\ kmsan_check_memory blk 8 st1 = Ok tt st1)
  /\ (exists st1,
        kmsan_poison_memory blk 8 GFP_KERNEL st = Ok tt st1
        /\ let h := poison_handle st GFP_KERNEL KMSAN_POISON_NOCHECK in
           kmsan_check_memory blk 8 st1
           = Ok tt (if nz h
                    then add_report (mk_report h blk 8 0 (8 - 1) 0 REASON_ANY)
                           st1
                    else st1)).
Proof.
  cbv zeta.
  apply (adhoc_api_roundtrip (boot 10 [1; 2; 3]) blk 8 GFP_KERNEL blk_shadow
           blk_origin); try by_run.
  - apply blk_tracked; try reflexivity. lia.
  - left. by_le.
Defined.

(** X6, witness: a user-space address. *)
Lemma low_addresses_untracked_witness :
  kmsan_virt_addr_valid 0x1000 = false
  /\ kmsan_get_metadata 0x1000 KMSAN_META_ORIGIN (boot 10 [])
     = Ok 0 (boot 10 []).
Proof.
  cbv zeta.
  apply (low_addresses_untracked (boot 10 []) 0x1000 KMSAN_META_ORIGIN);
    by_run.
Defined.

(** X7, witness: the last byte of the first granule of the block. *)
Lemma origin_pointer_per_granule_witness :
  kmsan_get_metadata (blk + 3) KMSAN_META_ORIGIN (boot 10 [])
  = Ok (meta (boot 10 []) blk KMSAN_META_ORIGIN) (boot 10 []).
Proof.
  cbv zeta.
  apply (origin_pointer_per_granule (boot 10 []) blk 3);
    by_run.
Defined.

(** X8, witness: three pages inside the vmalloc area of x86-64, starting
    at an odd address. *)
Lemma vmalloc_ranges_are_contiguous_witness :
  let st := boot 10 [] in
  let a := VMALLOC_START + 5 in
  let n := 3 * PAGE_SIZE in
  tracked_range st a n
    (a - VMALLOC_START + KMSAN_VMALLOC_SHADOW_START)
    (a - a mod KMSAN_ORIGIN_SIZE - VMALLOC_START + KMSAN_VMALLOC_ORIGIN_START)
  /\ kmsan_metadata_is_contiguous a n st = Ok true st.
Proof.
  cbv zeta.
  apply (vmalloc_ranges_are_contiguous (boot 10 []) (VMALLOC_START + 5)
           (3 * PAGE_SIZE)); by_run.
Defined.

(** X10, witness: three chainings of a handle at the depth limit. *)
Lemma chain_saturated_is_idle_witness :
  let st := boot 10 [1; 2; 3] in
  let id := saturated_handle in
  exists st',
    chain_times 3 id st = Ok id st'
    /\ kmsan_skipped_origins st' = kmsan_skipped_origins st + Z.of_nat 3
    /\ mem st' = mem st /\ depot_st st' = depot_st st
    /\ reports st' = reports st
    /\ exists notes,
         console st' = console st ++ notes
         /\ Forall (fun d => exists s, d = NotChained s id
                                       /\ Z.rem s 10000 = 0
                                       /\ kmsan_skipped_origins st < s
                                          <= kmsan_skipped_origins st') notes.
Proof.
  cbv zeta.
  apply (chain_saturated_is_idle 3 saturated_handle (boot 10 [1; 2; 3]));
    by_run.
Defined.

(** X13, witness: a scan of the poisoned block. *)
Lemma check_memory_reports_maximal_runs_witness :
  match kmsan_internal_check_memory blk 8 0 REASON_ANY fresh_block with
  | Ok _ st' =>
    exists rs, st' = add_reports rs fresh_block
      /\ Forall (exact_report (tag_at fresh_block blk) blk 8 0 REASON_ANY) rs
      /\ ordered_from 0 rs
      /\ (forall j, 0 <= j < 8 -> tag_at fresh_block blk j <> 0 ->
            covers rs j)
  | Bug => True
  | OutOfFuel => False
  end.
Proof.
  cbv zeta.
  apply (check_memory_reports_maximal_runs fresh_block blk 8 0 REASON_ANY);
    by_run.
Defined.

(** X14, witness: eight bytes of the poisoned block copied to a user
    address. *)
Lemma copy_to_user_checks_user_copies_witness :
  match kmsan_copy_to_user 0x1000 blk 8 0 fresh_block with
  | Ok _ st' =>
    exists rs, st' = add_reports rs fresh_block
      /\ Forall (exact_report (tag_at fresh_block blk) blk (8 - 0) 0x1000
                   REASON_COPY_TO_USER) rs
      /\ ordered_from 0 rs
      /\ (forall j, 0 <= j < 8 - 0 ->
            tag_at fresh_block blk j <> 0 -> covers rs j)
  | Bug => True
  | OutOfFuel => False
  end.
Proof.
  cbv zeta.
  apply (proj1 (proj2 (copy_to_user_checks_user_copies fresh_block 0x1000
                         blk 8 0))); by_run.
Defined.

(** X15, witness: a request whose buffer is the poisoned block. *)
Lemma urb_in_then_out_is_quiet_witness :
  let u := mk_urb blk 8 in
  (forall is_out, kmsan_handle_urb None is_out fresh_block
                  = Ok tt fresh_block)
  /\ exists st1,
       kmsan_handle_urb (Some u) false fresh_block = Ok tt st1
       /\ only_mem_changed fresh_block st1
       /\ filled_with st1 blk 8 0 0
       /\ kmsan_handle_urb (Some u) true st1 = Ok tt st1.
Proof.
  cbv zeta.
  apply (urb_in_then_out_is_quiet fresh_block (mk_urb blk 8) blk_shadow
           blk_origin); try by_run.
  - apply blk_tracked; try reflexivity. cbn. lia.
  - left. by_le.
Defined.

Lemma tracked_range_pagewise {PF : Platform} {SD : StackDepot} st a n sh og :
  tracked_range st a n sh og -> tracked_pagewise st a n.
Proof.
  intros (Hs & Ho & Hsj & Hoj). split.
  - intros j Hj. rewrite Hsj, Hoj by exact Hj.
    unfold KMSAN_ORIGIN_SIZE. clear - Hs Ho Hj. lia.
  - intros j j' Hj Hj' _. rewrite !Hsj by lia. lia.
Qed.

(** X16, witness: a device wrote the eight bytes of the poisoned block. *)
Lemma dma_from_device_unpoisons_witness :
  exists st',
    kmsan_handle_dma blk_page 0 8 DMA_FROM_DEVICE fresh_block = Ok tt st'
    /\ only_mem_changed fresh_block st'
    /\ (forall j, 0 <= j < 8 ->
          load8 (mem st')
            (meta fresh_block (page_address blk_page + 0 + j)
               KMSAN_META_SHADOW) = 0)
    /\ only_zeroed (mem fresh_block) (mem st').
Proof.
  pose proof (dma_from_device_unpoisons fresh_block blk_page 0 8) as H.
  cbv zeta in H.
  apply (proj2 (proj2 (H ltac:(by_run) ltac:(by_run) ltac:(by_run))));
    [reflexivity|].
  change (page_address blk_page + 0) with blk.
  apply (tracked_range_pagewise _ _ _ blk_shadow blk_origin).
  apply blk_tracked; try reflexivity. lia.
Defined.

(** X17, witness: an object of a plain 8-byte cache allocated at the
    tracked block. *)
Lemma alloc_hooks_mark_memory_witness :
  let s := mk_kmem_cache 0 0 8 in
  let st := boot 10 [1; 2; 3] in
  exists st1,
    kmsan_slab_alloc s blk GFP_KERNEL st = Ok tt st1
    /\ (Z.land GFP_KERNEL __GFP_ZERO <> 0 ->
        only_mem_changed st st1
        /\ filled_with st1 blk (object_size s) 0 0)
    /\ (Z.land GFP_KERNEL __GFP_ZERO = 0 ->
        let h := poison_handle st GFP_KERNEL KMSAN_POISON_CHECK in
        filled_with st1 blk (object_size s) 255 h
        /\ (h <> 0 -> origin_uaf h = false /\ origin_depth h = 0)).
Proof.
  cbv zeta.
  apply (proj1 (proj2 (alloc_hooks_mark_memory (boot 10 [1; 2; 3])
                         blk_shadow blk_origin))
           (mk_kmem_cache 0 0 8) blk GFP_KERNEL); try by_run.
  - apply blk_tracked; try reflexivity. cbn. lia.
  - left. by_le.
Defined.

(** X18, witness: a [struct pt_regs] worth of bytes at the block that no
    zone tracks. *)
Lemma checked_hooks_need_metadata_witness :
  let st := boot 10 [1; 2; 3] in
  let a := untracked_blk in
  let n := 168 in
  (forall gfp, kmsan_kmalloc_large a n gfp st = Bug)
  /\ (forall s gfp,
        ctor s = 0 -> Z.land (flags s) SLAB_TYPESAFE_BY_RCU = 0 ->
        object_size s = n ->
        kmsan_slab_alloc s a gfp st = Bug)
  /\ (forall s,
        ctor s = 0 ->
        Z.land (flags s) (Z.lor SLAB_TYPESAFE_BY_RCU SLAB_POISON) = 0 ->
        object_size s = n ->
        kmsan_slab_free s a st = Bug)
  /\ (sizeof_pt_regs = n -> kmsan_unpoison_pt_regs a st = Bug)
  /\ kmsan_unpoison_memory a n st = Ok tt st
  /\ (forall gfp, exists st1,
        kmsan_poison_memory a n gfp st = Ok tt st1
        /\ only_depot_changed st st1).
Proof.
  cbv zeta.
  apply (checked_hooks_need_metadata (boot 10 [1; 2; 3]) untracked_blk 168);
    by_run.
Defined.

(** X19, witness: the page of the tracked block allocated without
    [__GFP_ZERO]. *)
Lemma alloc_page_marks_block_witness :
  let st := boot 10 [1; 2; 3] in
  let sp := page_address (kmsan_shadow st blk_page) in
  let op := page_address (kmsan_origin st blk_page) in
  let n := PAGE_SIZE * 2 ^ 0 in
  exists st1,
    kmsan_alloc_page blk_page 0 GFP_KERNEL st = Ok tt st1
    /\ kmsan_in_runtime_ctr st1 = 0
    /\ (forall x, sp <= x < sp + n -> load8 (mem st1) x = 255)
    /\ (forall i, 0 <= i < n / KMSAN_ORIGIN_SIZE ->
          load32 (mem st1) (op + KMSAN_ORIGIN_SIZE * i)
          = poison_handle st GFP_KERNEL KMSAN_POISON_NOCHECK)
    /\ (forall x, x < sp \/ sp + n <= x -> x < op \/ op + n <= x ->
                  load8 (mem st1) x = load8 (mem st) x).
Proof.
  pose proof (alloc_page_marks_block (boot 10 [1; 2; 3]) blk_page 0
                GFP_KERNEL) as H.
  cbv zeta in *.
  apply (proj2 (proj2 (proj2 (H ltac:(by_run))))); try by_run.
  left. by_le.
Defined.

(** X20, witness: the metadata of the page of [blk2] copied over that of
    the page of [blk]. *)
Lemma copy_page_meta_cases_witness :
  let st := fresh_block in
  let sd := page_address (kmsan_shadow st blk_page) in
  let od := page_address (kmsan_origin st blk_page) in
  let ss := page_address (kmsan_shadow st blk2_page) in
  let os := page_address (kmsan_origin st blk2_page) in
  exists st1,
    kmsan_copy_page_meta blk_page blk2_page st = Ok tt st1
    /\ only_mem_changed st st1
    /\ (forall j, 0 <= j < PAGE_SIZE ->
          mem st1 (sd + j) = mem st (ss + j)
          /\ mem st1 (od + j) = mem st (os + j))
    /\ (forall x, x < sd \/ sd + PAGE_SIZE <= x ->
                  x < od \/ od + PAGE_SIZE <= x ->
                  mem st1 x = mem st x).
Proof.
  pose proof (copy_page_meta_cases fresh_block blk_page blk2_page) as H.
  cbv zeta in *.
  apply (proj2 (proj2 H)); try by_run; left; by_le.
Defined.

(** X21, witness: the first two [struct page]s of the data, shadow and
    origin arrays linked in a kernel without side-table entries. *)
Lemma setup_meta_links_pages_witness :
  let st := set_ready false (boot 10 []) in
  exists st1,
    kmsan_setup_meta data_pages shadow_pages origin_pages 1 st = Ok tt st1
    /\ mem st1 = mem st /\ kmsan_ready st1 = kmsan_ready st
    /\ kmsan_in_runtime_ctr st1 = kmsan_in_runtime_ctr st
    /\ reports st1 = reports st
    /\ (forall i, 0 <= i < 2 ^ 1 ->
          kmsan_shadow st1 (data_pages + sizeof_page * i)
          = shadow_pages + sizeof_page * i
          /\ kmsan_origin st1 (data_pages + sizeof_page * i)
             = origin_pages + sizeof_page * i
          /\ kmsan_shadow st1 (shadow_pages + sizeof_page * i) = 0
          /\ kmsan_origin st1 (shadow_pages + sizeof_page * i) = 0
          /\ kmsan_shadow st1 (origin_pages + sizeof_page * i) = 0
          /\ kmsan_origin st1 (origin_pages + sizeof_page * i) = 0)
    /\ (forall p,
          (forall i, 0 <= i < 2 ^ 1 ->
             p <> data_pages + sizeof_page * i
             /\ p <> shadow_pages + sizeof_page * i
             /\ p <> origin_pages + sizeof_page * i) ->
          kmsan_shadow st1 p = kmsan_shadow st p
          /\ kmsan_origin st1 p = kmsan_origin st p).
Proof.
  pose proof (setup_meta_links_pages (set_ready false (boot 10 []))
                data_pages shadow_pages origin_pages 1) as H.
  cbv zeta in *.
  apply H; try by_run; left; by_le.
Defined.

(** X22, witness: four bytes copied from [blk2] to [blk]. *)
Lemma memmove_copies_shadow_witness :
  let st := fresh_block2 in
  let slots := Z.min (origin_slots blk2 4) (origin_slots blk 4) in
  exists st',
    kmsan_memmove_metadata blk blk2 4 st = Ok tt st'
    /\ (forall j, 0 <= j < 4 ->
          load8 (mem st') (blk_shadow + j) = load8 (mem st) (blk2_shadow + j))
    /\ (forall x, x < blk_shadow \/ blk_shadow + 4 <= x ->
                  x < blk_origin
                  \/ blk_origin + KMSAN_ORIGIN_SIZE * slots <= x ->
                  load8 (mem st') x = load8 (mem st) x).
Proof.
  pose proof (memmove_copies_shadow fresh_block2 blk blk2 4 blk_shadow
                blk2_shadow blk_origin blk2_origin) as H.
  cbv zeta in *.
  apply H; try by_run. right. by_le.
Defined.

(** X23, witness: a copy of zero bytes between the two tracked blocks. *)
Lemma memmove_edge_cases_witness :
  kmsan_memmove_metadata blk blk2 0 (boot 10 []) = Bug.
Proof.
  apply (proj2 (memmove_edge_cases (boot 10 []) blk blk2)); try by_run.
  left. reflexivity.
Defined.

(** X24, witness: the poisoned granule of [blk2] copied to [blk]. *)
Lemma memmove_propagates_granules_witness :
  let st := fresh_block2 in
  exists st' h',
    kmsan_memmove_metadata blk blk2 4 st = Ok tt st'
    /\ h' <> 0
    /\ (h' = 1 \/ (origin_depth h' = origin_depth 1 + 1
                   /\ origin_uaf h' = origin_uaf 1))
    /\ (forall j, 0 <= j < 4 ->
          load8 (mem st') (meta st' (blk + j) KMSAN_META_SHADOW)
          = load8 (mem st) (meta st (blk2 + j) KMSAN_META_SHADOW)
          /\ load32 (mem st') (meta st' (blk + j) KMSAN_META_ORIGIN) = h')
    /\ ((forall j, 0 <= j < 4 ->
           load8 (mem st) (meta st (blk2 + j) KMSAN_META_SHADOW) <> 0) ->
        forall ua reason,
          kmsan_internal_check_memory blk 4 ua reason st'
          = Ok tt (add_report (mk_report h' blk 4 0 (4 - 1) ua reason) st')).
Proof.
  cbv zeta.
  apply (memmove_propagates_granules fresh_block2 blk blk2 4 blk_shadow
           blk2_shadow blk_origin blk2_origin 1); try by_run.
  - apply blk2_tracked; try reflexivity. lia.
  - apply blk_tracked; try reflexivity. lia.
  - left. by_le.
  - right. by_le.
  - left. by_le.
  - right. by_le.
  - right. by_le.
  - intros t Ht. change (4 / KMSAN_ORIGIN_SIZE) with 1 in Ht.
    assert (E : t = 0) by lia. subst t. by_run.
Defined.

(** X25, witness: the pages of the two blocks, mapped in the direct map. *)
Lemma gup_skips_kernel_mapped_pages_witness :
  kmsan_gup_pgd_range [blk_page; blk2_page] 2 (boot 10 []) = Ok tt (boot 10 []).
Proof.
  apply (gup_skips_kernel_mapped_pages (boot 10 []) [blk_page; blk2_page] 2).
  intros t Ht. right.
  assert (E : t = 0 \/ t = 1) by lia.
  destruct E; subst t; by_le.
Defined.

(** X26, witness: an 8-byte object of a plain cache freed at the tracked
    block, then checked. *)
Lemma use_after_free_is_reported_witness :
  let s := mk_kmem_cache 0 0 8 in
  let st := boot 10 [1; 2; 3] in
  let n := object_size s in
  let h := poison_handle st GFP_KERNEL
             (Z.lor KMSAN_POISON_CHECK KMSAN_POISON_FREE) in
  exists st1,
    kmsan_slab_free s blk st = Ok tt st1
    /\ poisoned_with st1 blk n h
    /\ (h <> 0 -> origin_uaf h = true)
    /\ kmsan_check_memory blk n st1
       = Ok tt (if nz h
                then add_report (mk_report h blk n 0 (n - 1) 0 REASON_ANY)
                       st1
                else st1).
Proof.
  pose proof (use_after_free_is_reported (boot 10 [1; 2; 3])
                (mk_kmem_cache 0 0 8) blk blk_shadow blk_origin) as H.
  cbv zeta in *.
  apply H; try by_run.
  - apply blk_tracked; try reflexivity. cbn. lia.
  - left. by_le.
Defined.

(** ** Boundary cases of the claims *)

Import EdgeScenario.

(** C6, counterexample.  A move of two bytes from an untracked source onto
    the last byte of the last tracked page: the destination shadow
    resolves and the gate passes (it samples the first byte only), the
    second destination byte has no shadow, and the zero-fill runs on into
    the byte after the shadow page, which belongs to the origin slot of
    the unrelated block [blk0]: that slot goes from handle 1 to 0 while
    the block stays poisoned.  And a move of a page and two bytes onto the
    last tracked page fails the gate and aborts without zero-filling. *)
Lemma memmove_from_untracked_beyond_shadow :
  let st := first_block_poisoned in
  let move := kmsan_memmove_metadata last_tracked_byte untracked_blk 2 in
  value_after (kmsan_get_metadata last_tracked_byte KMSAN_META_SHADOW) st
  = Some (blk0_origin - 1)
  /\ value_after (kmsan_get_metadata untracked_blk KMSAN_META_SHADOW) st
     = Some 0
  /\ value_after (kmsan_metadata_is_contiguous last_tracked_byte 2) st
     = Some true
  /\ value_after (kmsan_get_metadata (last_tracked_byte + 1)
                    KMSAN_META_SHADOW) st = Some 0
  /\ value_after (kmsan_get_metadata blk0 KMSAN_META_ORIGIN) st
     = Some blk0_origin
  /\ load32 (mem st) blk0_origin = 1
  /\ word_after move st blk0_origin = Some 0
  /\ bytes_after move st blk0_shadow 4 = Some [255; 255; 255; 255]
  /\ aborts (kmsan_memmove_metadata last_tracked_page untracked_blk
               (PAGE_SIZE + 2)) st = true.
Proof. by_compute. Qed.



